(** * A shallow embedding of the custom SMILES transformer

    The notebook [drug_detection.ipynb] defines a character-level dataset
    ([SmilesDataset]) and a transformer classifier written from first
    principles ([CustomTransformer], [TransformerBlock],
    [MultiHeadSelfAttention], [FeedForwardNetwork]).  This file embeds those
    classes and the tensor operations they call, and proves properties of
    them.

    Conventions.
    - A tensor is its shape together with its entries in row-major order,
      the layout of a contiguous torch tensor; [view] reinterprets the
      entries, [transpose] permutes them.
    - The arithmetic on tensor entries is a parameter (class [Arith]):
      every structural theorem holds for any arithmetic.  The theorems that
      need algebraic laws are stated at the instance of the real numbers.
    - A Python exception is a value [Err e] of the result type. *)

From Stdlib Require String Ascii.
Import String.StringSyntax.
Delimit Scope string_scope with string.
From Stdlib Require Import List ZArith Lia Bool Arith PeanoNat.
From Stdlib Require Import Reals Lra.
From Stdlib Require Import Permutation.
Import ListNotations.

Set Implicit Arguments.

(** ** Exceptions and the error monad *)

Inductive error : Type :=
| IndexError
| ZeroDivisionError
| ValueError
| RuntimeError.

Inductive result (A : Type) : Type :=
| Ok (a : A)
| Err (e : error).

Arguments Ok {A} a.
Arguments Err {A} e.

Definition bind {A B : Type} (c : result A) (k : A -> result B) : result B :=
  match c with
  | Ok a => k a
  | Err e => Err e
  end.

Declare Scope result_scope.
Delimit Scope result_scope with result.
Notation "x <- c ;; k" := (bind c (fun x => k))
  (at level 61, c at next level, right associativity) : result_scope.
Local Open Scope result_scope.

(** ** Tensors: a shape and the entries in row-major order *)

Record tensor (A : Type) : Type := Tensor {
  shape : list nat;
  data : list A
}.

Definition numel (sh : list nat) : nat := fold_right Nat.mul 1 sh.

Definition wf_tensor {A : Type} (t : tensor A) : Prop :=
  length (data t) = numel (shape t).

(** [tab sh f] lists [f idx] for every index [idx] of the shape [sh], the
    last coordinate running fastest. *)
Fixpoint tab {A : Type} (sh : list nat) (f : list nat -> A) : list A :=
  match sh with
  | [] => [f []]
  | n :: sh' => flat_map (fun i => tab sh' (fun idx => f (i :: idx))) (seq 0 n)
  end.

Definition mk {A : Type} (sh : list nat) (f : list nat -> A) : tensor A :=
  Tensor sh (tab sh f).

Fixpoint offset (sh idx : list nat) : nat :=
  match sh, idx with
  | _ :: sh', i :: idx' => i * numel sh' + offset sh' idx'
  | _, _ => 0
  end.

Definition get {A : Type} (d : A) (t : tensor A) (idx : list nat) : A :=
  nth (offset (shape t) idx) (data t) d.

Definition in_range (sh idx : list nat) : Prop := Forall2 lt idx sh.

Fixpoint unravel (sh : list nat) (p : nat) : list nat :=
  match sh with
  | [] => []
  | _ :: sh' => (p / numel sh') :: unravel sh' (p mod numel sh')
  end.

(** The last coordinate of an index and the coordinates before it. *)
Definition last_ix (idx : list nat) : nat := last idx 0.
Definition lead_ix (idx : list nat) : list nat := removelast idx.

(** ** Python built-ins used by the notebook *)

(** A Python [str] is a sequence of Unicode code points; [ord] returns the
    code point of a character. *)
Definition char : Type := N.
Definition str : Type := list char.
Definition ord (c : char) : Z := Z.of_N c.

Definition str_of_string (s : String.string) : str :=
  map Ascii.N_of_ascii (String.list_ascii_of_string s).

(** [l[idx]] on a list: a negative index counts from the end, an index out
    of range raises [IndexError]. *)
Definition py_getitem {A : Type} (l : list A) (idx : Z) : result A :=
  let n := Z.of_nat (length l) in
  let i := if (idx <? 0)%Z then (idx + n)%Z else idx in
  if ((0 <=? i) && (i <? n))%Z then
    match nth_error l (Z.to_nat i) with
    | Some a => Ok a
    | None => Err IndexError
    end
  else Err IndexError.

(** [l * n] on a list: [n] copies of [l], none when [n <= 0]. *)
Definition py_list_mul {A : Type} (l : list A) (n : Z) : list A :=
  concat (repeat l (Z.to_nat n)).

(** [a // b] on integers: floor division, [ZeroDivisionError] when [b = 0]. *)
Definition py_floordiv (a b : Z) : result Z :=
  if (b =? 0)%Z then Err ZeroDivisionError else Ok (a / b)%Z.

(** [range(n)] as the list it iterates over. *)
Definition py_range (n : Z) : list nat := seq 0 (Z.to_nat n).

(** ** SmilesDataset *)

Record SmilesDataset : Type := {
  smiles : list str;
  labels : list Z;
  max_len : Z
}.

(** [SmilesDataset(smiles, labels, max_len=100)]. *)
Definition SmilesDataset_init (smiles : list str) (labels : list Z)
    (max_len : option Z) : SmilesDataset :=
  {| smiles := smiles;
     labels := labels;
     max_len := match max_len with Some m => m | None => 100%Z end |}.

Definition SmilesDataset_len (self : SmilesDataset) : nat :=
  length (smiles self).

(** [torch.tensor(l, dtype=torch.long)] on a list and on a single integer.
    The entries are taken to be integers that [torch.long] holds; for any
    other integer [torch.tensor] raises, which is not modelled. *)
Definition torch_tensor_list (l : list Z) : tensor Z := Tensor [length l] l.
Definition torch_tensor_scalar (z : Z) : tensor Z := Tensor [] [z].

(** The padded list built in the body of [__getitem__]. *)
Definition smile_padded (self : SmilesDataset) (smile : str) : list Z :=
  map ord smile
  ++ py_list_mul [0%Z] (max_len self - Z.of_nat (length smile)).

Definition SmilesDataset_getitem (self : SmilesDataset) (idx : Z)
  : result (tensor Z * tensor Z) :=
  smile <- py_getitem (smiles self) idx ;;
  let padded := smile_padded self smile in
  label <- py_getitem (labels self) idx ;;
  Ok (torch_tensor_list padded, torch_tensor_scalar label).

(** ** Arithmetic on tensor entries *)

Class Arith (T : Type) : Type := {
  zero : T;
  one : T;
  add : T -> T -> T;
  sub : T -> T -> T;
  mul : T -> T -> T;
  div : T -> T -> T;
  texp : T -> T;
  tsqrt : T -> T;
  tmax : T -> T -> T;
  of_Z : Z -> T;
  (** the default [eps] of [nn.LayerNorm], 1e-5 *)
  ln_eps : T
}.

(** The source of the initial parameter values: torch's global generator,
    threaded through the constructors. *)
Class Rng (T G : Type) : Type := {
  sample : G -> T * G
}.

Section Torch.

Context {T : Type} {AT : Arith T}.

Definition tget (t : tensor T) (idx : list nat) : T := get zero t idx.

(** Sum of [f 0 .. f (n-1)], accumulated from the left. *)
Definition sum_n (n : nat) (f : nat -> T) : T :=
  fold_left (fun acc k => add acc (f k)) (seq 0 n) zero.

(** *** Tensor operations

    The functions of torch that the notebook calls, each by the behaviour
    torch documents for it: the shape of the result, the entry at every
    index, and the exception on operands that do not fit. *)

(** An entrywise operation keeps the shape. *)
Definition tmap (f : T -> T) (t : tensor T) : tensor T :=
  Tensor (shape t) (map f (data t)).

(** [t / s] for a Python number [s]. *)
Definition div_scalar (t : tensor T) (s : T) : tensor T :=
  tmap (fun v => div v s) t.

(** [nn.ReLU]: [max(0, v)] on every entry. *)
Definition relu (t : tensor T) : tensor T := tmap (tmax zero) t.

(** [t.view(sh)]: the same entries under a new shape with as many
    elements.  An entry [-1] of [sh] (a size to infer) is not accepted:
    the notebook passes [batch_size], [seq_length], [num_heads] and
    [head_dim], and a negative one among them is rejected by torch as
    well. *)
Definition view {A : Type} (t : tensor A) (sh : list Z) : result (tensor A) :=
  if forallb (fun z => (0 <=? z)%Z) sh
     && (numel (map Z.to_nat sh) =? length (data t))
  then Ok (Tensor (map Z.to_nat sh) (data t))
  else Err RuntimeError.

(** Entries are kept row-major throughout, so [contiguous] has nothing to
    copy. *)
Definition contiguous {A : Type} (t : tensor A) : tensor A := t.

(** A dimension argument, negative ones counting from the last. *)
Definition norm_dim (rank : nat) (d : Z) : result nat :=
  let r := Z.of_nat rank in
  let d' := if (d <? 0)%Z then (d + r)%Z else d in
  if ((0 <=? d') && (d' <? r))%Z then Ok (Z.to_nat d') else Err IndexError.

Definition swap_ix (i j : nat) (l : list nat) : list nat :=
  map (fun k => nth (if k =? i then j else if k =? j then i else k) l 0)
      (seq 0 (length l)).

(** [t.transpose(d0, d1)]. *)
Definition transpose (t : tensor T) (d0 d1 : Z) : result (tensor T) :=
  i <- norm_dim (length (shape t)) d0 ;;
  j <- norm_dim (length (shape t)) d1 ;;
  Ok (mk (swap_ix i j (shape t)) (fun idx => tget t (swap_ix i j idx))).

(** [torch.matmul(a, b)] on two tensors of rank at least 2 with the same
    leading (batch) dimensions: the only case the notebook reaches. *)
Definition matmul (a b : tensor T) : result (tensor T) :=
  match rev (shape a), rev (shape b) with
  | k :: n :: ba, m :: k' :: bb =>
      if (k =? k') && (if list_eq_dec Nat.eq_dec ba bb then true else false)
      then Ok (mk (rev ba ++ [n; m])
                  (fun idx =>
                     let bi := lead_ix (lead_ix idx) in
                     let i := last_ix (lead_ix idx) in
                     let j := last_ix idx in
                     sum_n k (fun c =>
                       mul (tget a (bi ++ [i; c])) (tget b (bi ++ [c; j])))))
      else Err RuntimeError
  | _, _ => Err RuntimeError
  end.

(** [F.softmax(t, dim=-1)] by its defining formula: along the last axis,
    [exp(t_j) / sum_k exp(t_k)]. *)
Definition softmax (t : tensor T) : tensor T :=
  let n := last (shape t) 0 in
  mk (shape t)
     (fun idx =>
        div (texp (tget t idx))
            (sum_n n (fun k => texp (tget t (lead_ix idx ++ [k]))))).

(** Broadcasting, on shapes listed from the last dimension. *)
Fixpoint broadcast_rev (a b : list nat) : option (list nat) :=
  match a, b with
  | [], _ => Some b
  | _, [] => Some a
  | x :: a', y :: b' =>
      match broadcast_rev a' b' with
      | Some r =>
          if x =? y then Some (x :: r)
          else if x =? 1 then Some (y :: r)
          else if y =? 1 then Some (x :: r)
          else None
      | None => None
      end
  end.

Definition broadcast_shape (a b : list nat) : option (list nat) :=
  option_map (@rev nat) (broadcast_rev (rev a) (rev b)).

(** The index of an operand of shape [sh] that an index of the broadcast
    result reads: the trailing coordinates, 0 along a dimension of size 1. *)
Definition broadcast_ix (sh idx : list nat) : list nat :=
  map (fun p => if fst p =? 1 then 0 else snd p)
      (combine sh (skipn (length idx - length sh) idx)).

(** [a + b] on tensors. *)
Definition torch_add (a b : tensor T) : result (tensor T) :=
  match broadcast_shape (shape a) (shape b) with
  | Some sh =>
      Ok (mk sh (fun idx =>
                   add (tget a (broadcast_ix (shape a) idx))
                       (tget b (broadcast_ix (shape b) idx))))
  | None => Err RuntimeError
  end.

(** [t.mean(dim=d)]. *)
Definition mean (t : tensor T) (d : Z) : result (tensor T) :=
  i <- norm_dim (length (shape t)) d ;;
  let n := nth i (shape t) 0 in
  Ok (mk (firstn i (shape t) ++ skipn (S i) (shape t))
         (fun idx =>
            div (sum_n n (fun k => tget t (firstn i idx ++ k :: skipn i idx)))
                (of_Z (Z.of_nat n)))).

(** [t[:, :stop, :]] on a tensor of rank 3. *)
Definition slice_dim1 (t : tensor T) (stop : nat) : result (tensor T) :=
  match shape t with
  | [d0; d1; d2] =>
      Ok (mk [d0; Nat.min stop d1; d2] (fun idx => tget t idx))
  | _ => Err IndexError
  end.

(** [x.shape[i]]. *)
Definition shape_at {A : Type} (x : tensor A) (i : Z) : result nat :=
  match norm_dim (length (shape x)) i with
  | Ok k => Ok (nth k (shape x) 0)
  | Err e => Err e
  end.

(** *** nn.Linear, nn.Embedding, nn.LayerNorm *)

Record Linear : Type := {
  weight : tensor T;
  bias : tensor T
}.

(** [y = x W^T + b] over the last axis of [x]. *)
Definition Linear_forward (self : Linear) (x : tensor T) : result (tensor T) :=
  match shape (weight self), shape x with
  | [out_features; in_features], _ :: _ =>
      if last (shape x) 0 =? in_features then
        Ok (mk (removelast (shape x) ++ [out_features])
               (fun idx =>
                  add (sum_n in_features (fun k =>
                         mul (tget x (lead_ix idx ++ [k]))
                             (tget (weight self) [last_ix idx; k])))
                      (tget (bias self) [last_ix idx])))
      else Err RuntimeError
  | _, _ => Err RuntimeError
  end.

Record Embedding : Type := {
  emb_weight : tensor T
}.

(** A row of the table per token id; an id outside the table raises
    [IndexError]. *)
Definition Embedding_forward (self : Embedding) (x : tensor Z)
  : result (tensor T) :=
  match shape (emb_weight self) with
  | [num_embeddings; embedding_dim] =>
      if forallb (fun t => (0 <=? t)%Z && (t <? Z.of_nat num_embeddings)%Z)
                 (data x)
      then Ok (mk (shape x ++ [embedding_dim])
                  (fun idx =>
                     tget (emb_weight self)
                          [Z.to_nat (get 0%Z x (lead_ix idx)); last_ix idx]))
      else Err IndexError
  | _ => Err RuntimeError
  end.

Record LayerNorm : Type := {
  ln_weight : tensor T;
  ln_bias : tensor T
}.

Definition ln_mean (n : nat) (x : tensor T) (lead : list nat) : T :=
  div (sum_n n (fun k => tget x (lead ++ [k]))) (of_Z (Z.of_nat n)).

Definition ln_var (n : nat) (x : tensor T) (lead : list nat) : T :=
  div (sum_n n (fun k =>
         let c := sub (tget x (lead ++ [k])) (ln_mean n x lead) in mul c c))
      (of_Z (Z.of_nat n)).

(** [y = (x - E[x]) / sqrt(Var[x] + eps) * weight + bias], mean and
    (biased) variance taken over the last axis. *)
Definition LayerNorm_forward (self : LayerNorm) (x : tensor T)
  : result (tensor T) :=
  match shape (ln_weight self), shape x with
  | [n], _ :: _ =>
      if last (shape x) 0 =? n then
        Ok (mk (shape x)
               (fun idx =>
                  let lead := lead_ix idx in
                  add (mul (div (sub (tget x idx) (ln_mean n x lead))
                                (tsqrt (add (ln_var n x lead) ln_eps)))
                           (tget (ln_weight self) [last_ix idx]))
                      (tget (ln_bias self) [last_ix idx])))
      else Err RuntimeError
  | _, _ => Err RuntimeError
  end.

(** *** MultiHeadSelfAttention *)

Record MultiHeadSelfAttention : Type := {
  num_heads : Z;
  embed_dim : Z;
  head_dim : Z;
  query : Linear;
  key : Linear;
  value : Linear;
  fc_out : Linear
}.

(** [x.view(batch_size, seq_length, num_heads, head_dim).transpose(1, 2)]. *)
Definition split_heads (self : MultiHeadSelfAttention)
    (batch_size seq_length : nat) (x : tensor T) : result (tensor T) :=
  v <- view x [Z.of_nat batch_size; Z.of_nat seq_length;
               num_heads self; head_dim self] ;;
  transpose v 1 2.

(** The body of [forward]; the attention weights, a local variable of the
    source, are returned next to the output. *)
Definition MultiHeadSelfAttention_run (self : MultiHeadSelfAttention)
    (x : tensor T) : result (tensor T * tensor T) :=
  match shape x with
  | [batch_size; seq_length; embed_dim] =>
      q <- Linear_forward (query self) x ;;
      Q <- split_heads self batch_size seq_length q ;;
      k <- Linear_forward (key self) x ;;
      K <- split_heads self batch_size seq_length k ;;
      v <- Linear_forward (value self) x ;;
      V <- split_heads self batch_size seq_length v ;;
      Kt <- transpose K (-2) (-1) ;;
      QK <- matmul Q Kt ;;
      let attn_scores := div_scalar QK (tsqrt (of_Z (head_dim self))) in
      let attn_weights := softmax attn_scores in
      WV <- matmul attn_weights V ;;
      WVt <- transpose WV 1 2 ;;
      attn_output <- view (contiguous WVt)
                          [Z.of_nat batch_size; Z.of_nat seq_length;
                           Z.of_nat embed_dim] ;;
      out <- Linear_forward (fc_out self) attn_output ;;
      Ok (attn_weights, out)
  | _ => Err ValueError
  end.


Definition MultiHeadSelfAttention_forward
    (self : MultiHeadSelfAttention) (x : tensor T) : result (tensor T) :=
  r <- MultiHeadSelfAttention_run self x ;; Ok (snd r).

(** *** FeedForwardNetwork *)

Record FeedForwardNetwork : Type := {
  fc1 : Linear;
  fc2 : Linear
}.

Definition FeedForwardNetwork_forward (self : FeedForwardNetwork)
    (x : tensor T) : result (tensor T) :=
  h <- Linear_forward (fc1 self) x ;;
  Linear_forward (fc2 self) (relu h).

(** *** TransformerBlock *)

Record TransformerBlock : Type := {
  attention : MultiHeadSelfAttention;
  norm1 : LayerNorm;
  ffn : FeedForwardNetwork;
  norm2 : LayerNorm
}.

Definition TransformerBlock_forward (self : TransformerBlock) (x : tensor T)
  : result (tensor T) :=
  attn_output <- MultiHeadSelfAttention_forward (attention self) x ;;
  s1 <- torch_add x attn_output ;;
  x <- LayerNorm_forward (norm1 self) s1 ;;
  ffn_output <- FeedForwardNetwork_forward (ffn self) x ;;
  s2 <- torch_add x ffn_output ;;
  LayerNorm_forward (norm2 self) s2.

(** *** CustomTransformer *)

Record CustomTransformer : Type := {
  embedding : Embedding;
  positional_encoding : tensor T;
  layers : list TransformerBlock;
  fc : Linear
}.

(** [for layer in self.layers: x = layer(x)]. *)
Fixpoint apply_layers (ls : list TransformerBlock) (x : tensor T)
  : result (tensor T) :=
  match ls with
  | [] => Ok x
  | layer :: ls' =>
      x' <- TransformerBlock_forward layer x ;;
      apply_layers ls' x'
  end.

(** The first statement of [forward]:
    [self.embedding(x) + self.positional_encoding[:, :x.shape[1], :]]. *)
Definition CustomTransformer_embed (self : CustomTransformer) (x : tensor Z)
  : result (tensor T) :=
  e <- Embedding_forward (embedding self) x ;;
  n <- shape_at x 1 ;;
  p <- slice_dim1 (positional_encoding self) n ;;
  torch_add e p.

Definition CustomTransformer_forward (self : CustomTransformer) (x : tensor Z)
  : result (tensor T) :=
  x <- CustomTransformer_embed self x ;;
  x <- apply_layers (layers self) x ;;
  x <- mean x 1 ;;
  Linear_forward (fc self) x.

End Torch.

(** ** Constructors

    A constructor draws the initial parameter values from the generator
    and fails, as torch does, on a negative size. *)

Section Init.

Context {T G : Type} {AT : Arith T} {RG : Rng T G}.

Definition init (A : Type) : Type := G -> result (A * G).

Definition iret {A : Type} (a : A) : init A := fun g => Ok (a, g).

Definition ibind {A B : Type} (c : init A) (k : A -> init B) : init B :=
  fun g =>
    match c g with
    | Ok (a, g') => k a g'
    | Err e => Err e
    end.

Definition lift {A : Type} (c : result A) : init A :=
  fun g => match c with Ok a => Ok (a, g) | Err e => Err e end.

Declare Scope init_scope.
Delimit Scope init_scope with init.
Notation "x <- c ;; k" := (ibind c (fun x => k))
  (at level 61, c at next level, right associativity) : init_scope.

Fixpoint draw (n : nat) (g : G) : list T * G :=
  match n with
  | O => ([], g)
  | S n' =>
      let (v, g1) := sample g in
      let (vs, g2) := draw n' g1 in
      (v :: vs, g2)
  end.

Definition nonneg_shape (sh : list Z) : bool :=
  forallb (fun z => (0 <=? z)%Z) sh.

(** [torch.empty(sh)] filled in place by a random initialiser. *)
Definition torch_rand (sh : list Z) : init (tensor T) :=
  fun g =>
    if nonneg_shape sh then
      let (vs, g') := draw (numel (map Z.to_nat sh)) g in
      Ok (Tensor (map Z.to_nat sh) vs, g')
    else Err RuntimeError.

(** [torch.zeros(sh)], [torch.ones(sh)]. *)
Definition torch_full (sh : list Z) (v : T) : result (tensor T) :=
  if nonneg_shape sh then Ok (mk (map Z.to_nat sh) (fun _ => v))
  else Err RuntimeError.

Definition nn_Linear (in_features out_features : Z) : init (@Linear T) :=
  (w <- torch_rand [out_features; in_features] ;;
   b <- torch_rand [out_features] ;;
   iret {| weight := w; bias := b |})%init.

Definition nn_Embedding (num_embeddings embedding_dim : Z)
  : init (@Embedding T) :=
  (w <- torch_rand [num_embeddings; embedding_dim] ;;
   iret {| emb_weight := w |})%init.

Definition nn_LayerNorm (normalized_shape : Z) : init (@LayerNorm T) :=
  (w <- lift (torch_full [normalized_shape] one) ;;
   b <- lift (torch_full [normalized_shape] zero) ;;
   iret {| ln_weight := w; ln_bias := b |})%init.

Definition MultiHeadSelfAttention_init (embed_dim num_heads : Z)
  : init (@MultiHeadSelfAttention T) :=
  (head_dim <- lift (py_floordiv embed_dim num_heads) ;;
   query <- nn_Linear embed_dim embed_dim ;;
   key <- nn_Linear embed_dim embed_dim ;;
   value <- nn_Linear embed_dim embed_dim ;;
   fc_out <- nn_Linear embed_dim embed_dim ;;
   iret {| num_heads := num_heads; embed_dim := embed_dim;
           head_dim := head_dim; query := query; key := key;
           value := value; fc_out := fc_out |})%init.

Definition FeedForwardNetwork_init (embed_dim ff_dim : Z)
  : init (@FeedForwardNetwork T) :=
  (fc1 <- nn_Linear embed_dim ff_dim ;;
   fc2 <- nn_Linear ff_dim embed_dim ;;
   iret {| fc1 := fc1; fc2 := fc2 |})%init.

Definition TransformerBlock_init (embed_dim num_heads ff_dim : Z)
  : init (@TransformerBlock T) :=
  (attention <- MultiHeadSelfAttention_init embed_dim num_heads ;;
   norm1 <- nn_LayerNorm embed_dim ;;
   ffn <- FeedForwardNetwork_init embed_dim ff_dim ;;
   norm2 <- nn_LayerNorm embed_dim ;;
   iret {| attention := attention; norm1 := norm1;
           ffn := ffn; norm2 := norm2 |})%init.

(** [[c for _ in range(n)]]: the constructor [c] run once per element. *)
Fixpoint replicate_init {A : Type} (c : init A) (r : list nat)
  : init (list A) :=
  match r with
  | [] => iret []
  | _ :: r' => (a <- c ;; l <- replicate_init c r' ;; iret (a :: l))%init
  end.

Definition CustomTransformer_init
    (vocab_size embed_dim num_heads ff_dim num_layers num_classes : Z)
  : init (@CustomTransformer T) :=
  (embedding <- nn_Embedding vocab_size embed_dim ;;
   positional_encoding <- lift (torch_full [1; 100; embed_dim]%Z zero) ;;
   layers <- replicate_init
               (TransformerBlock_init embed_dim num_heads ff_dim)
               (py_range num_layers) ;;
   fc <- nn_Linear embed_dim num_classes ;;
   iret {| embedding := embedding;
           positional_encoding := positional_encoding;
           layers := layers; fc := fc |})%init.

End Init.

(** ** Parameter shapes

    What the constructors establish and training preserves: every
    parameter tensor has the shape its layer was built with. *)

Section Shapes.

Context {T : Type} {AT : Arith T}.

Definition wf_Linear (i o : nat) (l : @Linear T) : Prop :=
  shape (weight l) = [o; i] /\ wf_tensor (weight l) /\
  shape (bias l) = [o] /\ wf_tensor (bias l).

Definition wf_Embedding (v e : nat) (m : @Embedding T) : Prop :=
  shape (emb_weight m) = [v; e] /\ wf_tensor (emb_weight m).

Definition wf_LayerNorm (e : nat) (m : @LayerNorm T) : Prop :=
  shape (ln_weight m) = [e] /\ wf_tensor (ln_weight m) /\
  shape (ln_bias m) = [e] /\ wf_tensor (ln_bias m).

(** The parameters of an attention layer built for [embed_dim = e]. *)
Definition shaped_MHA (e : nat) (m : @MultiHeadSelfAttention T) : Prop :=
  embed_dim m = Z.of_nat e /\
  wf_Linear e e (query m) /\ wf_Linear e e (key m) /\
  wf_Linear e e (value m) /\ wf_Linear e e (fc_out m).

(** A head count that divides the embedding dimension, [head_dim] being
    the quotient computed by the constructor. *)
Definition valid_heads (m : @MultiHeadSelfAttention T) : Prop :=
  (0 < num_heads m)%Z /\
  head_dim m = (embed_dim m / num_heads m)%Z /\
  (embed_dim m mod num_heads m = 0)%Z.

Definition wf_MHA (e : nat) (m : @MultiHeadSelfAttention T) : Prop :=
  shaped_MHA e m /\ valid_heads m.

Definition wf_FFN (e f : nat) (m : @FeedForwardNetwork T) : Prop :=
  wf_Linear e f (fc1 m) /\ wf_Linear f e (fc2 m).

Definition shaped_Block (e f : nat) (m : @TransformerBlock T) : Prop :=
  shaped_MHA e (attention m) /\ wf_LayerNorm e (norm1 m) /\
  wf_FFN e f (ffn m) /\ wf_LayerNorm e (norm2 m).

Definition wf_Block (e f : nat) (m : @TransformerBlock T) : Prop :=
  shaped_Block e f m /\ valid_heads (attention m).

Definition shaped_CT (v e f c : nat) (m : @CustomTransformer T) : Prop :=
  wf_Embedding v e (embedding m) /\
  shape (positional_encoding m) = [1; 100; e] /\
  wf_tensor (positional_encoding m) /\
  Forall (shaped_Block e f) (layers m) /\
  wf_Linear e c (fc m).

Definition wf_CT (v e f c : nat) (m : @CustomTransformer T) : Prop :=
  shaped_CT v e f c m /\ Forall (fun b => valid_heads (attention b)) (layers m).

End Shapes.

(** ** Reference definitions, after the specification

    The specification describes each stage entry by entry.  The definitions
    below follow its wording; the theorems compare them with the code. *)

Section Reference.

Context {T : Type} {AT : Arith T}.

(** Entry [d] of head [h] at position [i]: the embedding axis of a
    projection [p] of shape (batch, seq_len, embed_dim) is split into
    equal chunks of [hd] entries, one per head. *)
Definition head_slice (hd : nat) (p : tensor T) (b h i d : nat) : T :=
  tget p [b; i; h * hd + d].

(** Scores: the dot product of a query with a key, divided by
    [sqrt(head_dim)]. *)
Definition ref_scores (hd : nat) (scale : T) (Q K : tensor T)
    (b h i j : nat) : T :=
  div (sum_n hd (fun d => mul (head_slice hd Q b h i d)
                              (head_slice hd K b h j d)))
      scale.

(** Weights: softmax of the scores over the key positions. *)
Definition ref_weights (hd ns : nat) (scale : T) (Q K : tensor T)
    (b h i j : nat) : T :=
  div (texp (ref_scores hd scale Q K b h i j))
      (sum_n ns (fun k => texp (ref_scores hd scale Q K b h i k))).

(** Per-head output: the sum of the values weighted by the weights. *)
Definition ref_head_out (hd ns : nat) (scale : T) (Q K V : tensor T)
    (b h i d : nat) : T :=
  sum_n ns (fun j => mul (ref_weights hd ns scale Q K b h i j)
                        (head_slice hd V b h j d)).

(** The heads side by side along the embedding axis. *)
Definition ref_concat (hd nb ns ne : nat) (scale : T) (Q K V : tensor T)
  : tensor T :=
  mk [nb; ns; ne]
     (fun idx =>
        match idx with
        | [b; i; c] => ref_head_out hd ns scale Q K V b (c / hd) i (c mod hd)
        | _ => zero
        end).

Definition ref_attention_weights (self : MultiHeadSelfAttention)
    (x : tensor T) : result (tensor T) :=
  match shape x with
  | [nb; ns; ne] =>
      Q <- Linear_forward (query self) x ;;
      K <- Linear_forward (key self) x ;;
      let hd := Z.to_nat (head_dim self) in
      Ok (mk [nb; Z.to_nat (num_heads self); ns; ns]
             (fun idx =>
                match idx with
                | [b; h; i; j] =>
                    ref_weights hd ns (tsqrt (of_Z (head_dim self))) Q K b h i j
                | _ => zero
                end))
  | _ => Err ValueError
  end.

Definition ref_attention (self : MultiHeadSelfAttention) (x : tensor T)
  : result (tensor T) :=
  match shape x with
  | [nb; ns; ne] =>
      Q <- Linear_forward (query self) x ;;
      K <- Linear_forward (key self) x ;;
      V <- Linear_forward (value self) x ;;
      Linear_forward (fc_out self)
        (ref_concat (Z.to_nat (head_dim self)) nb ns ne
                    (tsqrt (of_Z (head_dim self))) Q K V)
  | _ => Err ValueError
  end.

End Reference.

Section ReferenceBlock.

Context {T : Type} {AT : Arith T}.

(** Normalisation of one embedding vector [v] of [n] entries: subtract the
    mean, divide by the standard deviation (the stability constant added
    under the square root), then scale and shift entry [d] by the learned
    [gamma] and [beta]. *)
Definition ref_normalize (n : nat) (gamma beta : tensor T)
    (v : nat -> T) (d : nat) : T :=
  let mu := div (sum_n n v) (of_Z (Z.of_nat n)) in
  let var := div (sum_n n (fun k => let c := sub (v k) mu in mul c c))
                 (of_Z (Z.of_nat n)) in
  add (mul (div (sub (v d) mu) (tsqrt (add var ln_eps))) (tget gamma [d]))
      (tget beta [d]).

(** [normalize(x + y)], position by position and sample by sample. *)
Definition ref_add_norm (nb ns ne : nat) (ln : LayerNorm) (x y : tensor T)
  : tensor T :=
  mk [nb; ns; ne]
     (fun idx =>
        match idx with
        | [b; s; d] =>
            ref_normalize ne (ln_weight ln) (ln_bias ln)
              (fun k => add (tget x [b; s; k]) (tget y [b; s; k])) d
        | _ => zero
        end).

(** The two residual sublayers in sequence. *)
Definition ref_block (self : TransformerBlock) (x : tensor T)
  : result (tensor T) :=
  match shape x with
  | [nb; ns; ne] =>
      a <- MultiHeadSelfAttention_forward (attention self) x ;;
      let x1 := ref_add_norm nb ns ne (norm1 self) x a in
      f <- FeedForwardNetwork_forward (ffn self) x1 ;;
      Ok (ref_add_norm nb ns ne (norm2 self) x1 f)
  | _ => Err ValueError
  end.

(** The feed-forward sublayer at one position: expansion to [nf] entries,
    rectification, contraction back to [ne] entries. *)
Definition ref_ffn (nb ns ne nf : nat) (self : FeedForwardNetwork)
    (x : tensor T) : tensor T :=
  mk [nb; ns; ne]
     (fun idx =>
        match idx with
        | [b; s; d] =>
            add (sum_n nf (fun j =>
                   mul (tmax zero
                          (add (sum_n ne (fun k =>
                                  mul (tget x [b; s; k])
                                      (tget (weight (fc1 self)) [j; k])))
                               (tget (bias (fc1 self)) [j])))
                       (tget (weight (fc2 self)) [d; j])))
                (tget (bias (fc2 self)) [d])
        | _ => zero
        end).

(** [n] applications of one block. *)
Definition iterate_block (self : TransformerBlock) (n : nat) (x : tensor T)
  : result (tensor T) :=
  apply_layers (repeat self n) x.

End ReferenceBlock.

Section ReferenceModel.

Context {T : Type} {AT : Arith T}.

(** [embedding_lookup(tokens) + positional_encoding[:seq_len]]. *)
Definition ref_embed (nb ns ne : nat) (self : CustomTransformer)
    (x : tensor Z) : tensor T :=
  mk [nb; ns; ne]
     (fun idx =>
        match idx with
        | [b; s; d] =>
            add (tget (emb_weight (embedding self))
                      [Z.to_nat (get 0%Z x [b; s]); d])
                (tget (positional_encoding self) [0; s; d])
        | _ => zero
        end).

(** The unweighted mean over all [ns] positions of the sequence axis. *)
Definition ref_pool (ns : nat) (h : tensor T) (b d : nat) : T :=
  div (sum_n ns (fun s => tget h [b; s; d])) (of_Z (Z.of_nat ns)).

(** The final linear projection of the pooled vector to [nc] classes. *)
Definition ref_logits (nb ns ne nc : nat) (out : Linear) (h : tensor T)
  : tensor T :=
  mk [nb; nc]
     (fun idx =>
        match idx with
        | [b; c] =>
            add (sum_n ne (fun d =>
                   mul (ref_pool ns h b d) (tget (weight out) [c; d])))
                (tget (bias out) [c])
        | _ => zero
        end).

(** The blocks one after the other, each with its own parameters. *)
Definition ref_stack (ls : list TransformerBlock) (h : tensor T)
  : result (tensor T) :=
  fold_left (fun acc layer => h' <- acc ;; ref_block layer h') ls (Ok h).

Definition ref_transformer (nb ns ne nc : nat) (self : CustomTransformer)
    (x : tensor Z) : result (tensor T) :=
  h <- ref_stack (layers self) (ref_embed nb ns ne self x) ;;
  Ok (ref_logits nb ns ne nc (fc self) h).

(** Token ids within the table. *)
Definition tokens_in_range (v : nat) (x : tensor Z) : Prop :=
  Forall (fun t => (0 <= t < Z.of_nat v)%Z) (data x).

(** *** The object state of a method call

    A Python method receives [self] and could assign to its attributes or
    write into its tensors.  A method is therefore a function from the
    state of the object to a result and the state after the call; reading
    an attribute and calling a function that allocates its result leave
    the state as it is. *)

Definition method (S A : Type) : Type := S -> result (A * S).

Definition attr {S A : Type} (f : S -> A) : method S A :=
  fun s => Ok (f s, s).

Definition call {S A : Type} (c : result A) : method S A :=
  fun s => match c with Ok a => Ok (a, s) | Err e => Err e end.

Definition mbind {S A B : Type} (c : method S A) (k : A -> method S B)
  : method S B :=
  fun s =>
    match c s with
    | Ok (a, s') => k a s'
    | Err e => Err e
    end.

Declare Scope method_scope.
Delimit Scope method_scope with method.
Notation "x <- c ;; k" := (mbind c (fun x => k))
  (at level 61, c at next level, right associativity) : method_scope.

(** The first statement of [CustomTransformer.forward] with the state of
    [self] threaded through: two attribute reads, the results of the
    lookup, the slice and the sum being fresh tensors. *)
Definition CustomTransformer_embed_method (x : tensor Z)
  : method (@CustomTransformer T) (tensor T) :=
  (emb <- attr embedding ;;
   e <- call (Embedding_forward emb x) ;;
   n <- call (shape_at x 1) ;;
   pos <- attr positional_encoding ;;
   p <- call (slice_dim1 pos n) ;;
   call (torch_add e p))%method.

End ReferenceModel.

(** ** The arithmetic of the real numbers

    Rounding is not modelled: at this instance the entries of a tensor are
    real numbers and the operations are exact.  Nor are the float32 values
    that are not real numbers: where the code divides by zero its result is
    an infinity or NaN, and an exponential can underflow to 0, while [Rdiv]
    is total and [exp] is positive.  A theorem at this instance speaks for
    the code up to rounding, and only where no divisor is 0. *)

#[export] Instance R_Arith : Arith R := {|
  zero := 0%R;
  one := 1%R;
  add := Rplus;
  sub := Rminus;
  mul := Rmult;
  div := Rdiv;
  texp := exp;
  tsqrt := sqrt;
  tmax := Rmax;
  of_Z := IZR;
  ln_eps := (1 / 100000)%R
|}.

(** A generator that counts its draws. *)
#[export] Instance counter_Rng : Rng R nat := {|
  sample := fun n => (INR n, S n)
|}.

(** ** Concrete datasets and a concrete model *)

(** Ethanol, a string of 101 carbon atoms, and a string with a character
    beyond ASCII (code point 233). *)
Definition ethanol_dataset : SmilesDataset :=
  SmilesDataset_init [str_of_string "CCO"%string] [7%Z] None.

Definition long_smiles : str := repeat 67%N 101.

Definition long_dataset : SmilesDataset :=
  SmilesDataset_init [long_smiles] [0%Z] None.

Definition accented_dataset : SmilesDataset :=
  SmilesDataset_init [[67%N; 233%N]] [0%Z] None.

(** A model with [vocab_size = 128], [embed_dim = 2], one head, one block
    and one class.  Token 5 is embedded as (1, -1), every other token as
    (0, 0); queries and keys are 0, values and the output projection of the
    attention are the identity; the feed-forward weights are 0; the
    normalisations and the positional encoding have their initial
    values. *)
Definition const_Linear (o i : nat) : @Linear R :=
  {| weight := mk [o; i] (fun _ => 0%R); bias := mk [o] (fun _ => 0%R) |}.

Definition id_Linear : @Linear R :=
  {| weight := Tensor [2; 2] [1%R; 0%R; 0%R; 1%R];
     bias := Tensor [2] [0%R; 0%R] |}.

Definition unit_LayerNorm : @LayerNorm R :=
  {| ln_weight := mk [2] (fun _ => 1%R); ln_bias := mk [2] (fun _ => 0%R) |}.

Definition pad_attention : @MultiHeadSelfAttention R :=
  {| num_heads := 1; embed_dim := 2; head_dim := 2;
     query := const_Linear 2 2; key := const_Linear 2 2;
     value := id_Linear; fc_out := id_Linear |}.

Definition pad_ffn : @FeedForwardNetwork R :=
  {| fc1 := const_Linear 2 2; fc2 := const_Linear 2 2 |}.

Definition pad_block : @TransformerBlock R :=
  {| attention := pad_attention; norm1 := unit_LayerNorm;
     ffn := pad_ffn; norm2 := unit_LayerNorm |}.

Definition pad_model : @CustomTransformer R :=
  {| embedding :=
       {| emb_weight :=
            mk [128; 2]
               (fun idx =>
                  match idx with
                  | [5; 0] => 1%R
                  | [5; 1] => (-1)%R
                  | _ => 0%R
                  end) |};
     positional_encoding := mk [1; 100; 2] (fun _ => 0%R);
     layers := [pad_block];
     fc := {| weight := Tensor [1; 2] [1%R; 0%R]; bias := Tensor [1] [0%R] |}
  |}.

(** The string "C" padded to two positions, and the same sequence with
    token 5 in the padded position. *)
Definition tokens_a : tensor Z := Tensor [1; 2] [67%Z; 0%Z].
Definition tokens_b : tensor Z := Tensor [1; 2] [67%Z; 5%Z].

Definition ones_122 : tensor R := mk [1; 2; 2] (fun _ => 1%R).

(** One coordinate of the normalisation of a vector (a, -a) with unit scale
    and zero shift: its mean is 0 and its variance [a * a]. *)
Definition phi (a : R) : R := (a / sqrt (a * a + 1 / 100000))%R.

(** ** The rest of the notebook: prediction, evaluation and batching *)

(** [a / b] on integers: true division, [ZeroDivisionError] when [b = 0].
    The quotient is kept exact (a real number), the Python float being its
    rounding. *)
Definition py_truediv (a b : Z) : result R :=
  if (b =? 0)%Z then Err ZeroDivisionError else Ok (IZR a / IZR b)%R.

(** A function applied to every element in turn; the first exception
    ends the traversal. *)
Fixpoint mapM {A B : Type} (f : A -> result B) (l : list A)
  : result (list B) :=
  match l with
  | [] => Ok []
  | a :: l' => b <- f a ;; bs <- mapM f l' ;; Ok (b :: bs)
  end.

(** [t.item()]: the entry of a tensor that has exactly one. *)
Definition item {A : Type} (t : tensor A) : result A :=
  match data t with
  | [a] => Ok a
  | _ => Err RuntimeError
  end.

(** [(a == b).sum().item()] on integer tensors: the number of positions
    of the broadcast shape at which the two agree. *)
Definition torch_eq_sum (a b : tensor Z) : result Z :=
  match broadcast_shape (shape a) (shape b) with
  | Some sh =>
      Ok (Z.of_nat
            (length
               (filter (fun v : bool => v)
                  (tab sh (fun idx =>
                     (get 0 a (broadcast_ix (shape a) idx)
                      =? get 0 b (broadcast_ix (shape b) idx))%Z)))))
  | None => Err RuntimeError
  end.

(** [torch.stack(ts)]: tensors of one shape, side by side along a new
    first axis. *)
Definition torch_stack {A : Type} (ts : list (tensor A)) : result (tensor A) :=
  match ts with
  | [] => Err RuntimeError
  | t :: rest =>
      if forallb (fun u => if list_eq_dec Nat.eq_dec (shape u) (shape t)
                           then true else false) rest
      then Ok (Tensor (length ts :: shape t) (concat (map (@data A) ts)))
      else Err RuntimeError
  end.

(** The comparison of entries that a maximum needs: [gtb x y] is [x > y]. *)
Class Cmp (T : Type) : Type := {
  gtb : T -> T -> bool
}.

#[export] Instance R_Cmp : Cmp R := {|
  gtb := fun x y => if Rlt_dec y x then true else false
|}.

Section Prediction.

Context {T : Type} {AT : Arith T} {CT : Cmp T}.

(** The first index among [0 .. n-1] at which [f] is greatest. *)
Definition argmax_n (n : nat) (f : nat -> T) : nat :=
  fold_left (fun best k => if gtb (f k) (f best) then k else best)
            (seq 1 (n - 1)) 0.

(** [torch.max(t, dim)]: the maxima along [dim] and the index of the first
    maximum; an axis of size 0 has no maximum. *)
Definition torch_max (t : tensor T) (dim : Z)
  : result (tensor T * tensor Z) :=
  i <- norm_dim (length (shape t)) dim ;;
  let n := nth i (shape t) 0 in
  if n =? 0 then Err IndexError
  else
    let sh := firstn i (shape t) ++ skipn (S i) (shape t) in
    let entry := fun idx k => tget t (firstn i idx ++ k :: skipn i idx) in
    let best := fun idx => argmax_n n (entry idx) in
    Ok (mk sh (fun idx => entry idx (best idx)),
        mk sh (fun idx => Z.of_nat (best idx))).

(** [torch.argmax(t, dim)]. *)
Definition torch_argmax (t : tensor T) (dim : Z) : result (tensor Z) :=
  r <- torch_max t dim ;; Ok (snd r).

(** *** The prediction at the end of [main] *)

(** [max_len] of [main]. *)
Definition main_max_len : Z := 100.

(** [torch.tensor([input_smiles_padded], dtype=torch.long)]. *)
Definition main_inputs (input_smiles : str) : tensor Z :=
  let input_smiles_padded :=
    map ord input_smiles
    ++ py_list_mul [0%Z] (main_max_len - Z.of_nat (length input_smiles)) in
  Tensor [1; length input_smiles_padded] input_smiles_padded.

(** [torch.argmax(model(inputs), dim=1).item()]. *)
Definition main_predict (model : CustomTransformer) (input_smiles : str)
  : result Z :=
  outputs <- CustomTransformer_forward model (main_inputs input_smiles) ;;
  predicted <- torch_argmax outputs 1 ;;
  item predicted.

(** *** The accuracy loop

    The loop of [evaluate_model], which is also the validation loop of the
    first [main].  [B] is what the model receives from a batch: the token
    ids, or the token ids with their attention mask. *)

Fixpoint accuracy_loop {B : Type} (model : B -> result (tensor T))
    (loader : list (result (B * tensor Z))) (correct total : Z)
  : result (Z * Z) :=
  match loader with
  | [] => Ok (correct, total)
  | batch :: rest =>
      b <- batch ;;
      outputs <- model (fst b) ;;
      m <- torch_max outputs 1 ;;
      n <- shape_at (snd b) 0 ;;
      c <- torch_eq_sum (snd m) (snd b) ;;
      accuracy_loop model rest (correct + c)%Z (total + Z.of_nat n)%Z
  end.

(** [100 * correct / total]. *)
Definition evaluate_model {B : Type} (model : B -> result (tensor T))
    (test_loader : list (result (B * tensor Z))) : result R :=
  r <- accuracy_loop model test_loader 0%Z 0%Z ;;
  py_truediv (100 * fst r) (snd r).

(** A batch that the loop can score: [n] labels on one axis, and a model
    that answers the batch with an [n] by [c] tensor of logits. *)
Definition batch_fits {B : Type} (model : B -> result (tensor T)) (c : nat)
    (batch : result (B * tensor Z)) (n : nat) : Prop :=
  exists (x : B) (labels : tensor Z) (outputs : tensor T),
    batch = Ok (x, labels) /\ shape labels = [n] /\
    model x = Ok outputs /\ shape outputs = [n; c].

End Prediction.

(** *** DataLoader without shuffling

    [DataLoader(dataset, batch_size, shuffle=False)]: the indices
    [0 .. len(dataset)-1] in consecutive batches of [batch_size], the last
    one shorter; a batch is fetched when the loop reaches it, its samples
    stacked by the default collation. *)

Definition batch_indices (n batch_size : nat) : list (list nat) :=
  map (fun i => seq (i * batch_size) (Nat.min batch_size (n - i * batch_size)))
      (seq 0 ((n + batch_size - 1) / batch_size)).

Definition default_collate (samples : list (tensor Z * tensor Z))
  : result (tensor Z * tensor Z) :=
  x <- torch_stack (map fst samples) ;;
  y <- torch_stack (map snd samples) ;;
  Ok (x, y).

Definition fetch (dataset : SmilesDataset) (indices : list nat)
  : result (tensor Z * tensor Z) :=
  samples <- mapM (fun i => SmilesDataset_getitem dataset (Z.of_nat i))
                  indices ;;
  default_collate samples.

Definition DataLoader (dataset : SmilesDataset) (batch_size : nat)
  : result (list (result (tensor Z * tensor Z))) :=
  if batch_size =? 0 then Err ValueError
  else Ok (map (fetch dataset)
               (batch_indices (SmilesDataset_len dataset) batch_size)).

(** The test loader of the first [main] and its validation accuracy:
    [SmilesDataset(X_test, y_test, max_len)] with [max_len = 100], batches
    of 16. *)
Definition main_test_loader (X_test : list str) (y_test : list Z)
  : result (list (result (tensor Z * tensor Z))) :=
  DataLoader (SmilesDataset_init X_test y_test (Some main_max_len)) 16.

Definition main_test_accuracy {T : Type} {AT : Arith T} {CT : Cmp T}
    (model : CustomTransformer) (X_test : list str) (y_test : list Z)
  : result R :=
  test_loader <- main_test_loader X_test y_test ;;
  evaluate_model (CustomTransformer_forward model) test_loader.

(** The exchange of the first two positions. *)
Definition swap01 (i : nat) : nat :=
  match i with
  | 0 => 1
  | 1 => 0
  | _ => i
  end.

(** A dataset with the same string twice. *)
Definition two_alcohols : SmilesDataset :=
  SmilesDataset_init [str_of_string "CCO"%string; str_of_string "CCO"%string]
                     [7%Z; 8%Z] None.

(** *** Reading one tensor through index maps

    [gathered beta sigma B B' L e h h'] : [h'], of shape (B', L, e), holds at
    (b, i, d) the entry of [h], of shape (B, L, e), at (beta b, sigma i, d).
    With [sigma] the identity, [h'] is a selection of samples of [h]; with
    [beta] the identity, [h'] is [h] with its positions reordered. *)
Definition gathered {T : Type} {AT : Arith T} (beta sigma : nat -> nat)
    (B B' L e : nat) (h h' : tensor T) : Prop :=
  shape h = [B; L; e] /\ shape h' = [B'; L; e] /\
  forall b i d, b < B' -> i < L -> d < e ->
    tget h' [b; i; d] = tget h [beta b; sigma i; d].

(** The same for token ids of shapes (B, L) and (B', L). *)
Definition gathered_tokens (beta sigma : nat -> nat) (B B' L : nat)
    (x x' : tensor Z) : Prop :=
  shape x = [B; L] /\ shape x' = [B'; L] /\
  forall b i, b < B' -> i < L ->
    get 0%Z x' [b; i] = get 0%Z x [beta b; sigma i].

(** A reordering of the positions [0 .. L-1]. *)
Definition permutation_of (L : nat) (sigma : nat -> nat) : Prop :=
  (forall i, i < L -> sigma i < L) /\
  (forall i j, i < L -> j < L -> sigma i = sigma j -> i = j).

(** *** A forward pass without a padding mask

    What the attention and the pooling compute when no position is left
    out: the sums below run over every position [0 .. L-1] of the sequence,
    whatever token a position holds. *)

Section Unmasked.

Context {T : Type} {AT : Arith T}.





End Unmasked.

(** The values that [torch.long] holds. *)
Definition int64 (z : Z) : Prop := (- 2 ^ 63 <= z < 2 ^ 63)%Z.

(** * Properties *)

(** ** The row-major layout *)

Lemma tab_length (A : Type) (sh : list nat) (f : list nat -> A) :
  length (tab sh f) = numel sh.
Proof.
  revert f; induction sh as [|n sh IH]; intros f; simpl; [reflexivity|].
  assert (E : forall a, length
            (flat_map (fun i => tab sh (fun idx => f (i :: idx))) (seq a n))
            = n * numel sh).
  { induction n as [|n IHn]; intros a; simpl; [reflexivity|].
    rewrite length_app, IH, IHn. reflexivity. }
  apply E.
Qed.

Lemma wf_mk (A : Type) (sh : list nat) (f : list nat -> A) :
  wf_tensor (mk sh f).
Proof. unfold wf_tensor; simpl. apply tab_length. Qed.

Lemma nth_flat_map_seq (A : Type) (g : nat -> list A) (m : nat) (d : A) :
  (forall i, length (g i) = m) ->
  forall n a i j, i < n -> j < m ->
  nth (i * m + j) (flat_map g (seq a n)) d = nth j (g (a + i)) d.
Proof.
  intros Hg; induction n as [|n IH]; intros a i j Hi Hj; [lia|].
  simpl. destruct i as [|i].
  - simpl. rewrite app_nth1 by (rewrite Hg; lia).
    rewrite Nat.add_0_r. reflexivity.
  - rewrite app_nth2 by (rewrite Hg; simpl; lia).
    rewrite Hg. replace (S i * m + j - m) with (i * m + j) by (simpl; lia).
    rewrite IH by lia. f_equal. f_equal. lia.
Qed.

Lemma in_range_length (sh idx : list nat) :
  in_range sh idx -> length idx = length sh.
Proof. intros H; induction H; simpl; congruence. Qed.

Lemma offset_lt (sh idx : list nat) :
  in_range sh idx -> offset sh idx < numel sh.
Proof.
  intros H; induction H as [|i n idx sh Hi _ IH]; simpl; [lia|].
  nia.
Qed.

Lemma nth_tab (A : Type) (d : A) (sh idx : list nat) (f : list nat -> A) :
  in_range sh idx -> nth (offset sh idx) (tab sh f) d = f idx.
Proof.
  intros H; revert f; induction H as [|i n idx sh Hi Hr IH]; intros f.
  - reflexivity.
  - simpl.
    rewrite (nth_flat_map_seq (fun i => tab sh (fun idx => f (i :: idx)))
               (m := numel sh)).
    + simpl. apply (IH (fun idx => f (i :: idx))).
    + intros k. apply tab_length.
    + exact Hi.
    + apply offset_lt, Hr.
Qed.

Lemma get_mk (A : Type) (d : A) (sh idx : list nat) (f : list nat -> A) :
  in_range sh idx -> get d (mk sh f) idx = f idx.
Proof. intros H. unfold get; simpl. apply nth_tab, H. Qed.

Lemma unravel_in_range (sh : list nat) (p : nat) :
  p < numel sh -> in_range sh (unravel sh p).
Proof.
  revert p; induction sh as [|n sh IH]; intros p Hp; simpl.
  - constructor.
  - simpl in Hp.
    assert (Hm : numel sh <> 0) by (intros E; rewrite E in Hp; lia).
    constructor.
    + apply Nat.Div0.div_lt_upper_bound. lia.
    + apply IH. apply Nat.mod_upper_bound, Hm.
Qed.

Lemma offset_unravel (sh : list nat) (p : nat) :
  p < numel sh -> offset sh (unravel sh p) = p.
Proof.
  revert p; induction sh as [|n sh IH]; intros p Hp; simpl in *.
  - lia.
  - assert (Hm : numel sh <> 0) by (intros E; rewrite E in Hp; lia).
    rewrite IH by (apply Nat.mod_upper_bound, Hm).
    rewrite (Nat.div_mod_eq p (numel sh)) at 3. lia.
Qed.

(** Two well-formed tensors of one shape with the same entry at every
    index are equal. *)
Lemma tensor_ext (A : Type) (d : A) (a b : tensor A) :
  wf_tensor a -> wf_tensor b -> shape a = shape b ->
  (forall idx, in_range (shape a) idx -> get d a idx = get d b idx) ->
  a = b.
Proof.
  destruct a as [sa da], b as [sb db]; unfold wf_tensor, get; simpl.
  intros Ha Hb E Hget; subst sb. f_equal.
  apply (nth_ext _ _ d d); [congruence|].
  intros p Hp. rewrite Ha in Hp.
  specialize (Hget _ (unravel_in_range _ Hp)).
  rewrite (offset_unravel _ Hp) in Hget. exact Hget.
Qed.

Lemma mk_ext (A : Type) (sh : list nat) (f g : list nat -> A) :
  (forall idx, in_range sh idx -> f idx = g idx) -> mk sh f = mk sh g.
Proof.
  intros H. unfold mk. f_equal.
  revert f g H; induction sh as [|n sh IH]; intros f g H; simpl.
  - f_equal. apply H. constructor.
  - assert (E : forall a, (forall i, In i (seq a n) -> i < n) ->
             flat_map (fun i => tab sh (fun idx => f (i :: idx))) (seq a n)
             = flat_map (fun i => tab sh (fun idx => g (i :: idx))) (seq a n)).
    { intros a Ha. induction (seq a n) as [|i l IHl]; simpl; [reflexivity|].
      f_equal.
      - apply IH. intros idx Hidx. apply H. constructor; [|exact Hidx].
        apply Ha. left; reflexivity.
      - apply IHl. intros k Hk. apply Ha. right; exact Hk. }
    apply E. intros i Hi. apply in_seq in Hi. lia.
Qed.

(** ** Python lists *)

Lemma py_getitem_In (A : Type) (l : list A) (idx : Z) (a : A) :
  py_getitem l idx = Ok a -> In a l.
Proof.
  unfold py_getitem.
  destruct (_ && _); [|discriminate].
  destruct (nth_error l _) eqn:E; [|discriminate].
  intros [= ->]. eapply nth_error_In, E.
Qed.

Lemma py_list_mul_single (A : Type) (a : A) (n : Z) :
  py_list_mul [a] n = repeat a (Z.to_nat n).
Proof.
  unfold py_list_mul. induction (Z.to_nat n) as [|k IH]; simpl; congruence.
Qed.

Lemma smile_padded_length (self : SmilesDataset) (s : str) :
  (Z.of_nat (length s) <= max_len self)%Z ->
  length (smile_padded self s) = Z.to_nat (max_len self).
Proof.
  intros H. unfold smile_padded.
  rewrite length_app, length_map, py_list_mul_single, repeat_length. lia.
Qed.

Lemma smile_padded_prefix (self : SmilesDataset) (s : str) (i : nat) :
  i < length s ->
  nth i (smile_padded self s) 0%Z = ord (nth i s 0%N).
Proof.
  intros H. unfold smile_padded.
  rewrite app_nth1 by (rewrite length_map; exact H).
  change 0%Z with (ord 0%N). apply map_nth.
Qed.

Lemma smile_padded_suffix (self : SmilesDataset) (s : str) (i : nat) :
  length s <= i -> nth i (smile_padded self s) 0%Z = 0%Z.
Proof.
  intros H. unfold smile_padded.
  rewrite app_nth2 by (rewrite length_map; exact H).
  rewrite py_list_mul_single.
  destruct (nth_in_or_default (i - length (map ord s))
              (repeat 0%Z (Z.to_nat (max_len self - Z.of_nat (length s)))) 0%Z)
    as [Hin|E]; [|exact E].
  apply repeat_spec in Hin. exact Hin.
Qed.

Lemma getitem_tokens (self : SmilesDataset) (idx : Z) (s : str) (l : Z) :
  py_getitem (smiles self) idx = Ok s ->
  py_getitem (labels self) idx = Ok l ->
  SmilesDataset_getitem self idx
  = Ok (torch_tensor_list (smile_padded self s), torch_tensor_scalar l).
Proof.
  intros Hs Hl. unfold SmilesDataset_getitem. rewrite Hs; simpl.
  rewrite Hl; simpl. reflexivity.
Qed.

(** ** Tensor operations *)

Ltac ix_inv H :=
  unfold in_range in H;
  repeat match type of H with
         | Forall2 lt _ (_ :: _) =>
             let i := fresh "i" in
             let Hi := fresh "Hi" in
             let H' := fresh "Hr" in
             inversion H as [|i ? ? ? Hi H']; subst; clear H; rename H' into H
         | Forall2 lt _ [] => inversion H; subst; clear H
         end.

Ltac ix_range := unfold in_range; repeat constructor; try assumption; try lia.

Lemma shape_mk (A : Type) (sh : list nat) (f : list nat -> A) :
  shape (mk sh f) = sh.
Proof. reflexivity. Qed.

Lemma map_tab (A B : Type) (h : A -> B) (sh : list nat) (f : list nat -> A) :
  map h (tab sh f) = tab sh (fun idx => h (f idx)).
Proof.
  revert f; induction sh as [|n sh IH]; intros f; simpl; [reflexivity|].
  induction (seq 0 n) as [|i l IHl]; simpl; [reflexivity|].
  rewrite map_app, IH, IHl. reflexivity.
Qed.

Lemma broadcast_rev_same (l : list nat) : broadcast_rev l l = Some l.
Proof.
  induction l as [|x l IH]; simpl; [reflexivity|].
  rewrite IH, Nat.eqb_refl. reflexivity.
Qed.

Lemma broadcast_shape_same (sh : list nat) : broadcast_shape sh sh = Some sh.
Proof.
  unfold broadcast_shape. rewrite broadcast_rev_same. simpl.
  rewrite rev_involutive. reflexivity.
Qed.

Lemma broadcast_ix_same (sh idx : list nat) :
  in_range sh idx -> broadcast_ix sh idx = idx.
Proof.
  intros H. unfold broadcast_ix.
  rewrite (in_range_length H), Nat.sub_diag. simpl.
  induction H as [|i n idx sh Hi _ IH]; simpl; [reflexivity|].
  rewrite IH. destruct (Nat.eqb_spec n 1); [|reflexivity].
  f_equal. lia.
Qed.

Section TorchFacts.

Context {T : Type} {AT : Arith T}.

Lemma sum_n_ext (n : nat) (f g : nat -> T) :
  (forall k, k < n -> f k = g k) -> sum_n n f = sum_n n g.
Proof.
  intros H. unfold sum_n.
  assert (E : forall l acc, (forall k, In k l -> k < n) ->
             fold_left (fun acc k => add acc (f k)) l acc
             = fold_left (fun acc k => add acc (g k)) l acc).
  { induction l as [|k l IH]; intros acc Hl; simpl; [reflexivity|].
    rewrite (H k) by (apply Hl; left; reflexivity).
    apply IH. intros j Hj. apply Hl. right; exact Hj. }
  apply E. intros k Hk. apply in_seq in Hk. lia.
Qed.

Lemma tget_mk (sh idx : list nat) (f : list nat -> T) :
  in_range sh idx -> tget (mk sh f) idx = f idx.
Proof. apply get_mk. Qed.

Lemma tmap_mk (h : T -> T) (sh : list nat) (f : list nat -> T) :
  tmap h (mk sh f) = mk sh (fun idx => h (f idx)).
Proof. unfold tmap, mk; simpl. rewrite map_tab. reflexivity. Qed.

(** Every well-formed tensor is the table of its entries. *)
Lemma mk_tget (t : tensor T) :
  wf_tensor t -> mk (shape t) (tget t) = t.
Proof.
  intros H. apply (tensor_ext zero); [apply wf_mk|exact H|reflexivity|].
  intros idx Hidx. apply get_mk. exact Hidx.
Qed.

Lemma torch_add_same (a b : tensor T) :
  shape b = shape a ->
  torch_add a b
  = Ok (mk (shape a) (fun idx => add (tget a idx) (tget b idx))).
Proof.
  intros E. unfold torch_add. rewrite E, broadcast_shape_same.
  f_equal. apply mk_ext. intros idx Hidx.
  rewrite broadcast_ix_same by exact Hidx. reflexivity.
Qed.

Lemma Linear_forward_eq (i o : nat) (l : Linear) (x : tensor T)
    (lead : list nat) :
  wf_Linear i o l -> shape x = lead ++ [i] ->
  Linear_forward l x
  = Ok (mk (lead ++ [o])
           (fun idx =>
              add (sum_n i (fun k =>
                     mul (tget x (lead_ix idx ++ [k]))
                         (tget (weight l) [last_ix idx; k])))
                  (tget (bias l) [last_ix idx]))).
Proof.
  intros (Hw & _) Hx. unfold Linear_forward. rewrite Hw, Hx.
  destruct (lead ++ [i]) as [|a r] eqn:E.
  { destruct lead; discriminate. }
  rewrite <- E, last_last, Nat.eqb_refl, removelast_last. reflexivity.
Qed.

Lemma LayerNorm_forward_eq (n : nat) (m : LayerNorm) (x : tensor T)
    (lead : list nat) :
  wf_LayerNorm n m -> shape x = lead ++ [n] ->
  LayerNorm_forward m x
  = Ok (mk (shape x)
           (fun idx =>
              add (mul (div (sub (tget x idx) (ln_mean n x (lead_ix idx)))
                            (tsqrt (add (ln_var n x (lead_ix idx)) ln_eps)))
                       (tget (ln_weight m) [last_ix idx]))
                  (tget (ln_bias m) [last_ix idx]))).
Proof.
  intros (Hw & _) Hx. unfold LayerNorm_forward. rewrite Hw, Hx.
  destruct (lead ++ [n]) as [|a r] eqn:E.
  { destruct lead; discriminate. }
  rewrite <- E, last_last, Nat.eqb_refl. reflexivity.
Qed.

End TorchFacts.

(** ** Views, transposes and products of rank-4 tensors *)

Section Rank4.

Context {T : Type} {AT : Arith T}.

Lemma view_split (t : tensor T) (B L NH HD : nat) :
  wf_tensor t -> shape t = [B; L; NH * HD] ->
  view t [Z.of_nat B; Z.of_nat L; Z.of_nat NH; Z.of_nat HD]
  = Ok (mk [B; L; NH; HD]
           (fun idx =>
              match idx with
              | [b; s; h; d] => tget t [b; s; h * HD + d]
              | _ => zero
              end)).
Proof.
  intros Hwf Hsh. unfold view.
  assert (Hnn : forallb (fun z => (0 <=? z)%Z)
                  [Z.of_nat B; Z.of_nat L; Z.of_nat NH; Z.of_nat HD] = true).
  { simpl. repeat (rewrite (proj2 (Z.leb_le 0 _)) by lia). reflexivity. }
  rewrite Hnn. simpl map. rewrite !Nat2Z.id.
  assert (Hlen : length (data t) = numel [B; L; NH; HD]).
  { rewrite Hwf, Hsh. simpl. lia. }
  rewrite Hlen, Nat.eqb_refl. simpl andb. cbv iota. f_equal.
  apply (tensor_ext zero).
  - exact Hlen.
  - apply wf_mk.
  - reflexivity.
  - intros idx Hidx. simpl shape in Hidx.
    rewrite get_mk by exact Hidx.
    ix_inv Hidx. unfold tget, get. rewrite Hsh. simpl. f_equal. nia.
Qed.

Lemma view_merge (B L NH HD : nat) (g : list nat -> T) :
  view (contiguous (mk [B; L; NH; HD] g))
       [Z.of_nat B; Z.of_nat L; Z.of_nat (NH * HD)]
  = Ok (mk [B; L; NH * HD]
           (fun idx =>
              match idx with
              | [b; s; c] => g [b; s; c / HD; c mod HD]
              | _ => zero
              end)).
Proof.
  unfold view, contiguous.
  assert (Hnn : forallb (fun z => (0 <=? z)%Z)
                  [Z.of_nat B; Z.of_nat L; Z.of_nat (NH * HD)] = true).
  { simpl. repeat (rewrite (proj2 (Z.leb_le 0 _)) by lia). reflexivity. }
  rewrite Hnn. simpl map. rewrite !Nat2Z.id.
  assert (Hlen : length (data (mk [B; L; NH; HD] g)) = numel [B; L; NH * HD]).
  { change (data (mk [B; L; NH; HD] g)) with (tab [B; L; NH; HD] g).
    rewrite tab_length. simpl. lia. }
  rewrite Hlen, Nat.eqb_refl. simpl andb. cbv iota. f_equal.
  apply (tensor_ext zero).
  - exact Hlen.
  - apply wf_mk.
  - reflexivity.
  - intros idx Hidx. simpl shape in Hidx.
    rewrite get_mk by exact Hidx.
    ix_inv Hidx. rename i into b, i0 into s, i1 into c.
    assert (HD <> 0) by (intros ->; lia).
    assert (Hq : c / HD < NH) by (apply Nat.Div0.div_lt_upper_bound; lia).
    assert (Hm : c mod HD < HD) by (apply Nat.mod_upper_bound; assumption).
    rewrite <- (nth_tab zero (sh := [B; L; NH; HD])
                  (idx := [b; s; c / HD; c mod HD]) g) by ix_range.
    unfold get. simpl. f_equal.
    pose proof (Nat.div_mod_eq c HD). nia.
Qed.

Lemma transpose_1_2 (a b c d : nat) (f : list nat -> T) :
  transpose (mk [a; b; c; d] f) 1 2
  = Ok (mk [a; c; b; d]
           (fun idx =>
              match idx with
              | [i0; i1; i2; i3] => f [i0; i2; i1; i3]
              | _ => zero
              end)).
Proof.
  unfold transpose. simpl shape. cbn [length]. 
  change (norm_dim 4 1) with (@Ok nat 1).
  change (norm_dim 4 2) with (@Ok nat 2). cbn [bind].
  f_equal. apply mk_ext. intros idx Hidx.
  change (swap_ix 1 2 [a; b; c; d]) with [a; c; b; d] in Hidx.
  ix_inv Hidx. rewrite tget_mk; [reflexivity|].
  unfold swap_ix; simpl. ix_range.
Qed.

Lemma transpose_last (a b c d : nat) (f : list nat -> T) :
  transpose (mk [a; b; c; d] f) (-2) (-1)
  = Ok (mk [a; b; d; c]
           (fun idx =>
              match idx with
              | [i0; i1; i2; i3] => f [i0; i1; i3; i2]
              | _ => zero
              end)).
Proof.
  unfold transpose. simpl shape. cbn [length].
  change (norm_dim 4 (-2)) with (@Ok nat 2).
  change (norm_dim 4 (-1)) with (@Ok nat 3). cbn [bind].
  f_equal. apply mk_ext. intros idx Hidx.
  change (swap_ix 2 3 [a; b; c; d]) with [a; b; d; c] in Hidx.
  ix_inv Hidx. rewrite tget_mk; [reflexivity|].
  unfold swap_ix; simpl. ix_range.
Qed.

Lemma matmul_rank4 (a b n k m : nat) (f g : list nat -> T) :
  matmul (mk [a; b; n; k] f) (mk [a; b; k; m] g)
  = Ok (mk [a; b; n; m]
           (fun idx =>
              match idx with
              | [i0; i1; i; j] =>
                  sum_n k (fun c => mul (f [i0; i1; i; c]) (g [i0; i1; c; j]))
              | _ => zero
              end)).
Proof.
  unfold matmul. simpl shape. simpl rev.
  cbv beta iota.
  rewrite Nat.eqb_refl.
  destruct (list_eq_dec Nat.eq_dec [b; a] [b; a]) as [_|N]; [|congruence].
  simpl andb. cbv iota. simpl app. f_equal.
  apply mk_ext. intros idx Hidx. ix_inv Hidx.
  unfold lead_ix, last_ix. simpl.
  apply sum_n_ext. intros c Hc.
  rewrite !tget_mk by ix_range. reflexivity.
Qed.

Lemma softmax_rank4 (a b n m : nat) (f : list nat -> T) :
  softmax (mk [a; b; n; m] f)
  = mk [a; b; n; m]
       (fun idx =>
          match idx with
          | [i0; i1; i; j] =>
              div (texp (f [i0; i1; i; j]))
                  (sum_n m (fun k => texp (f [i0; i1; i; k])))
          | _ => zero
          end).
Proof.
  unfold softmax. simpl shape. simpl last.
  apply mk_ext. intros idx Hidx. ix_inv Hidx.
  unfold lead_ix. simpl.
  rewrite tget_mk by ix_range. f_equal.
  apply sum_n_ext. intros k Hk. rewrite tget_mk by ix_range. reflexivity.
Qed.

End Rank4.

(** ** Multi-head self-attention *)

Section Attention.

Context {T : Type} {AT : Arith T}.

Lemma valid_heads_nat (e : nat) (m : @MultiHeadSelfAttention T) :
  embed_dim m = Z.of_nat e -> valid_heads m ->
  exists NH HD : nat,
    num_heads m = Z.of_nat NH /\ head_dim m = Z.of_nat HD /\
    NH * HD = e /\ 0 < NH.
Proof.
  intros He (Hpos & Hhd & Hmod).
  exists (Z.to_nat (num_heads m)), (Z.to_nat (head_dim m)).
  assert (Hq : (0 <= head_dim m)%Z).
  { rewrite Hhd. apply Z.div_pos; lia. }
  repeat split; try lia.
  pose proof (Z.div_mod (embed_dim m) (num_heads m) ltac:(lia)) as D.
  rewrite Hmod, <- Hhd in D. nia.
Qed.

Lemma MultiHeadSelfAttention_run_ref (e B L : nat)
    (self : MultiHeadSelfAttention) (x : tensor T) :
  wf_MHA e self -> shape x = [B; L; e] ->
  exists W O : tensor T,
    ref_attention_weights self x = Ok W /\
    ref_attention self x = Ok O /\
    MultiHeadSelfAttention_run self x = Ok (W, O) /\
    shape W = [B; Z.to_nat (num_heads self); L; L] /\ wf_tensor W /\
    shape O = [B; L; e] /\ wf_tensor O.
Proof.
  intros ((He & Hq & Hk & Hv & Ho) & Hvalid) Hx.
  destruct (valid_heads_nat e He Hvalid) as (NH & HD & Hnh & Hhd & Hmul & Hpos).
  subst e.
  unfold ref_attention_weights, ref_attention, MultiHeadSelfAttention_run.
  rewrite Hx.
  rewrite (Linear_forward_eq x [B; L] Hq Hx). set (Q := mk _ _).
  rewrite (Linear_forward_eq x [B; L] Hk Hx). set (K := mk _ _).
  rewrite (Linear_forward_eq x [B; L] Hv Hx). set (V := mk _ _).
  cbn [bind]. unfold split_heads.
  rewrite Hnh, Hhd, !Nat2Z.id.
  rewrite !view_split by (try apply wf_mk; reflexivity).
  cbn [bind].
  rewrite !transpose_1_2. cbn [bind].
  rewrite transpose_last. cbn [bind].
  rewrite matmul_rank4. cbn [bind].
  unfold div_scalar. rewrite tmap_mk, softmax_rank4.
  rewrite matmul_rank4. cbn [bind].
  rewrite transpose_1_2. cbn [bind].
  rewrite view_merge. cbn [bind].
  match goal with
  | |- context [Linear_forward (fc_out self) (mk ?sh ?f)] =>
      assert (Hcat : mk sh f
                     = ref_concat HD B L (NH * HD)
                         (tsqrt (of_Z (Z.of_nat HD))) Q K V)
  end.
  { unfold ref_concat. apply mk_ext. intros idx Hidx. ix_inv Hidx.
    reflexivity. }
  rewrite Hcat.
  rewrite (Linear_forward_eq (ref_concat HD B L (NH * HD)
             (tsqrt (of_Z (Z.of_nat HD))) Q K V) [B; L] Ho)
    by reflexivity.
  cbn [bind].
  eexists; eexists.
  split; [reflexivity|]. split; [reflexivity|]. split.
  - reflexivity.
  - repeat split; apply wf_mk.
Qed.

Lemma MultiHeadSelfAttention_forward_ref (e B L : nat)
    (self : MultiHeadSelfAttention) (x : tensor T) :
  wf_MHA e self -> shape x = [B; L; e] ->
  exists y : tensor T,
    MultiHeadSelfAttention_forward self x = Ok y /\
    ref_attention self x = Ok y /\
    shape y = [B; L; e].
Proof.
  intros Hwf Hx.
  destruct (MultiHeadSelfAttention_run_ref x Hwf Hx)
    as (W & O & _ & Href & Hrun & _ & _ & HO & _).
  exists O. unfold MultiHeadSelfAttention_forward. rewrite Hrun.
  repeat split; assumption.
Qed.

(** The output of the attention layer has the shape of its input. *)
Lemma MultiHeadSelfAttention_forward_shape (e B L : nat)
    (self : MultiHeadSelfAttention) (x : tensor T) :
  wf_MHA e self -> shape x = [B; L; e] ->
  exists y : tensor T, MultiHeadSelfAttention_forward self x = Ok y /\
            shape y = [B; L; e] /\ wf_tensor y.
Proof.
  intros Hwf Hx.
  destruct (MultiHeadSelfAttention_run_ref x Hwf Hx)
    as (W & O & _ & _ & Hrun & _ & _ & HO & HwO).
  exists O. unfold MultiHeadSelfAttention_forward. rewrite Hrun.
  repeat split; assumption.
Qed.

End Attention.

(** ** Feed-forward network and transformer block *)

Section Block.

Context {T : Type} {AT : Arith T}.

Lemma FeedForwardNetwork_forward_ref (e f B L : nat)
    (self : FeedForwardNetwork) (x : tensor T) :
  wf_FFN e f self -> shape x = [B; L; e] ->
  FeedForwardNetwork_forward self x = Ok (ref_ffn B L e f self x).
Proof.
  intros (H1 & H2) Hx. unfold FeedForwardNetwork_forward.
  rewrite (Linear_forward_eq x [B; L] H1 Hx). cbn [bind app].
  unfold relu. rewrite tmap_mk.
  rewrite (Linear_forward_eq _ [B; L] H2) by reflexivity.
  f_equal. unfold ref_ffn. apply mk_ext. intros idx Hidx.
  change ([B; L] ++ [e]) with [B; L; e] in Hidx. ix_inv Hidx.
  unfold lead_ix, last_ix. simpl. f_equal.
  apply sum_n_ext. intros j Hj. rewrite tget_mk by ix_range. reflexivity.
Qed.

Lemma add_norm_eq (e B L : nat) (ln : LayerNorm) (x y : tensor T) :
  wf_LayerNorm e ln -> shape x = [B; L; e] -> shape y = [B; L; e] ->
  (s <- torch_add x y ;; LayerNorm_forward ln s)
  = Ok (ref_add_norm B L e ln x y).
Proof.
  intros Hln Hx Hy.
  rewrite torch_add_same by congruence. cbn [bind]. rewrite Hx.
  rewrite (LayerNorm_forward_eq _ [B; L] Hln) by reflexivity.
  f_equal. simpl shape. unfold ref_add_norm. apply mk_ext.
  intros idx Hidx. pose proof Hidx as Hidx'. ix_inv Hidx.
  unfold ref_normalize, ln_var, ln_mean, lead_ix, last_ix. simpl.
  rewrite tget_mk by exact Hidx'.
  assert (Es : sum_n e (fun k => tget
                 (mk [B; L; e] (fun idx => add (tget x idx) (tget y idx)))
                 [i; i0; k])
               = sum_n e (fun k => add (tget x [i; i0; k]) (tget y [i; i0; k]))).
  { apply sum_n_ext. intros k Hk. rewrite tget_mk by ix_range. reflexivity. }
  rewrite Es. f_equal. f_equal. f_equal. f_equal. f_equal. f_equal.
  apply sum_n_ext. intros k Hk. rewrite tget_mk by ix_range. reflexivity.
Qed.

Lemma TransformerBlock_forward_ref (e f B L : nat)
    (self : TransformerBlock) (x : tensor T) :
  wf_Block e f self -> shape x = [B; L; e] ->
  exists y : tensor T,
    TransformerBlock_forward self x = Ok y /\ ref_block self x = Ok y /\
    shape y = [B; L; e] /\ wf_tensor y.
Proof.
  intros ((Hm & Hn1 & Hf & Hn2) & Hv) Hx.
  destruct (MultiHeadSelfAttention_forward_shape x (conj Hm Hv) Hx)
    as (a & Ha & Hsa & _).
  unfold TransformerBlock_forward, ref_block. rewrite Hx, Ha. cbn [bind].
  pose proof (add_norm_eq x a Hn1 Hx Hsa) as E1.
  destruct (torch_add x a) as [s1|] eqn:Es1; [|discriminate].
  cbn [bind] in E1 |- *. rewrite E1. cbn [bind].
  set (x1 := ref_add_norm B L e (norm1 self) x a).
  rewrite (FeedForwardNetwork_forward_ref x1 Hf (B := B) (L := L))
    by reflexivity.
  cbn [bind].
  pose proof (add_norm_eq x1 (ref_ffn B L e f (ffn self) x1)
                Hn2 eq_refl eq_refl) as E2.
  destruct (torch_add x1 _) as [s2|] eqn:Es2; [|discriminate].
  cbn [bind] in E2 |- *. rewrite E2.
  eexists. repeat split. apply wf_mk.
Qed.

Lemma apply_layers_shape (e f B L : nat) (ls : list TransformerBlock) :
  Forall (wf_Block e f) ls ->
  forall x : tensor T, shape x = [B; L; e] ->
  exists y : tensor T,
    apply_layers ls x = Ok y /\ shape y = [B; L; e] /\
    (ls <> [] -> wf_tensor y).
Proof.
  induction 1 as [|b ls Hb _ IH]; intros x Hx; simpl.
  - exists x. repeat split; [exact Hx|congruence].
  - destruct (TransformerBlock_forward_ref x Hb Hx)
      as (y & Hy & _ & Hsy & Hwy).
    rewrite Hy. cbn [bind].
    destruct (IH y Hsy) as (z & Hz & Hsz & Hwz).
    exists z. repeat split; [exact Hz|exact Hsz|].
    intros _. destruct ls as [|b' ls'].
    + simpl in Hz. injection Hz as <-. exact Hwy.
    + apply Hwz. discriminate.
Qed.

End Block.

(** ** Embedding, pooling and the whole model *)

Section Model.

Context {T : Type} {AT : Arith T}.

Lemma torch_add_batch1 (B L e : nat) (f g : list nat -> T) :
  torch_add (mk [B; L; e] f) (mk [1; L; e] g)
  = Ok (mk [B; L; e]
           (fun idx =>
              match idx with
              | [b; s; d] => add (f [b; s; d]) (g [0; s; d])
              | _ => zero
              end)).
Proof.
  unfold torch_add. simpl shape.
  assert (Hb : broadcast_shape [B; L; e] [1; L; e] = Some [B; L; e]).
  { unfold broadcast_shape. simpl. rewrite !Nat.eqb_refl.
    destruct (B =? 1); reflexivity. }
  rewrite Hb. f_equal. apply mk_ext. intros idx Hidx.
  rewrite broadcast_ix_same by exact Hidx.
  rewrite tget_mk by exact Hidx.
  ix_inv Hidx. unfold broadcast_ix. simpl.
  rewrite tget_mk.
  - assert (E0 : (if L =? 1 then 0 else i0) = i0)
      by (destruct (Nat.eqb_spec L 1); [lia|reflexivity]).
    assert (E1 : (if e =? 1 then 0 else i1) = i1)
      by (destruct (Nat.eqb_spec e 1); [lia|reflexivity]).
    rewrite E0, E1. reflexivity.
  - constructor; [lia|]. constructor.
    + destruct (L =? 1); lia.
    + constructor; [|constructor]. destruct (e =? 1); lia.
Qed.

Lemma Embedding_forward_eq (v e : nat) (emb : Embedding) (x : tensor Z) :
  wf_Embedding v e emb -> tokens_in_range v x ->
  Embedding_forward emb x
  = Ok (mk (shape x ++ [e])
           (fun idx =>
              tget (emb_weight emb)
                   [Z.to_nat (get 0%Z x (lead_ix idx)); last_ix idx])).
Proof.
  intros (Hs & _) Hr. unfold Embedding_forward. rewrite Hs.
  assert (E : forallb (fun t => (0 <=? t)%Z && (t <? Z.of_nat v)%Z) (data x)
              = true).
  { apply forallb_forall. intros t Ht.
    unfold tokens_in_range in Hr. rewrite Forall_forall in Hr.
    specialize (Hr t Ht). apply andb_true_intro.
    split; [apply Z.leb_le|apply Z.ltb_lt]; lia. }
  rewrite E. reflexivity.
Qed.

Lemma Embedding_forward_out_of_range (v e : nat) (emb : Embedding)
    (x : tensor Z) (t : Z) :
  shape (emb_weight emb) = [v; e] -> In t (data x) ->
  ~ (0 <= t < Z.of_nat v)%Z ->
  Embedding_forward emb x = Err IndexError.
Proof.
  intros Hs Hin Hout. unfold Embedding_forward. rewrite Hs.
  destruct (forallb _ (data x)) eqn:E; [|reflexivity].
  rewrite forallb_forall in E. specialize (E t Hin).
  apply andb_prop in E. destruct E as [E1 E2].
  apply Z.leb_le in E1. apply Z.ltb_lt in E2. lia.
Qed.

Lemma CustomTransformer_embed_ref (v e f c B L : nat)
    (self : CustomTransformer) (x : tensor Z) :
  shaped_CT v e f c self -> shape x = [B; L] -> L <= 100 ->
  tokens_in_range v x ->
  CustomTransformer_embed self x = Ok (ref_embed B L e self x).
Proof.
  intros (Hemb & Hps & Hpw & _ & _) Hx HL Hr.
  unfold CustomTransformer_embed.
  rewrite (Embedding_forward_eq Hemb Hr), Hx. cbn [bind app].
  unfold shape_at. rewrite Hx. cbn [length].
  change (norm_dim 2 1) with (@Ok nat 1). cbn [bind nth].
  unfold slice_dim1. rewrite Hps. cbn [bind].
  rewrite (Nat.min_l L 100 HL).
  rewrite torch_add_batch1. reflexivity.
Qed.

Lemma mean_dim1 (B L e : nat) (t : tensor T) :
  shape t = [B; L; e] ->
  mean t 1
  = Ok (mk [B; e]
           (fun idx =>
              match idx with
              | [b; d] => div (sum_n L (fun s => tget t [b; s; d]))
                              (of_Z (Z.of_nat L))
              | _ => zero
              end)).
Proof.
  intros Ht. unfold mean. rewrite Ht. cbn [length].
  change (norm_dim 3 1) with (@Ok nat 1). cbn [bind nth firstn skipn app].
  reflexivity.
Qed.

Lemma ref_stack_apply_layers (e f B L : nat) (ls : list TransformerBlock) :
  Forall (wf_Block e f) ls ->
  forall x : tensor T, shape x = [B; L; e] ->
  ref_stack ls x = apply_layers ls x.
Proof.
  unfold ref_stack.
  induction 1 as [|b ls Hb _ IH]; intros x Hx; simpl; [reflexivity|].
  destruct (TransformerBlock_forward_ref x Hb Hx) as (y & Hy & Hr & Hsy & _).
  rewrite Hy, Hr. cbn [bind]. apply IH, Hsy.
Qed.

Lemma wf_CT_layers (v e f c : nat) (self : @CustomTransformer T) :
  wf_CT v e f c self -> Forall (wf_Block e f) (layers self).
Proof.
  intros ((_ & _ & _ & Hl & _) & Hv).
  induction Hl as [|b ls Hb Hl IH]; constructor.
  - split; [exact Hb|]. inversion Hv; assumption.
  - apply IH. inversion Hv; assumption.
Qed.

Lemma CustomTransformer_forward_ref (v e f c B L : nat)
    (self : CustomTransformer) (x : tensor Z) :
  wf_CT v e f c self -> shape x = [B; L] -> L <= 100 ->
  tokens_in_range v x ->
  exists h y : tensor T,
    apply_layers (layers self) (ref_embed B L e self x) = Ok h /\
    CustomTransformer_forward self x = Ok y /\
    y = ref_logits B L e c (fc self) h /\
    ref_transformer B L e c self x = Ok y.
Proof.
  intros Hwf Hx HL Hr. pose proof (wf_CT_layers Hwf) as Hls.
  destruct Hwf as (Hsh & _).
  destruct (apply_layers_shape (B := B) (L := L) Hls
              (ref_embed B L e self x) eq_refl) as (h & Hh & Hsh' & _).
  exists h, (ref_logits B L e c (fc self) h).
  split; [exact Hh|].
  assert (Hfw : CustomTransformer_forward self x
                = Ok (ref_logits B L e c (fc self) h)).
  { unfold CustomTransformer_forward.
    rewrite (CustomTransformer_embed_ref Hsh Hx HL Hr). cbn [bind].
    rewrite Hh. cbn [bind]. rewrite (mean_dim1 h Hsh'). cbn [bind].
    destruct Hsh as (_ & _ & _ & _ & Hfc).
    rewrite (Linear_forward_eq _ [B] Hfc) by reflexivity.
    f_equal. unfold ref_logits. apply mk_ext. intros idx Hidx.
    change ([B] ++ [c]) with [B; c] in Hidx. ix_inv Hidx.
    unfold lead_ix, last_ix. simpl. f_equal.
    apply sum_n_ext. intros d Hd. rewrite tget_mk by ix_range. reflexivity. }
  split; [exact Hfw|]. split; [reflexivity|].
  unfold ref_transformer.
  rewrite (ref_stack_apply_layers (B := B) (L := L) Hls) by reflexivity.
  rewrite Hh. reflexivity.
Qed.

End Model.

(** ** Softmax over the real numbers *)

Section Sums.

Context {T : Type} {AT : Arith T}.

Lemma sum_n_S (n : nat) (f : nat -> T) :
  sum_n (S n) f = add (sum_n n f) (f n).
Proof.
  unfold sum_n. rewrite seq_S, fold_left_app. reflexivity.
Qed.

End Sums.

Local Open Scope R_scope.




Local Close Scope R_scope.

(** ** Constructors *)

Section InitFacts.

Context {T G : Type} {AT : Arith T} {RG : Rng T G}.

Lemma draw_length (n : nat) (g : G) : length (fst (draw n g)) = n.
Proof.
  revert g; induction n as [|n IH]; intros g; simpl; [reflexivity|].
  destruct (sample g) as [v g1]. specialize (IH g1).
  destruct (draw n g1) as [vs g2]. simpl in *. congruence.
Qed.

Lemma torch_rand_ok (sh : list Z) (g : G) :
  nonneg_shape sh = true ->
  exists (t : tensor T) (g' : G),
    torch_rand sh g = Ok (t, g') /\
    shape t = map Z.to_nat sh /\ wf_tensor t.
Proof.
  intros H. unfold torch_rand. rewrite H.
  pose proof (draw_length (numel (map Z.to_nat sh)) g) as Hl.
  destruct (draw _ g) as [vs g']. simpl in Hl.
  exists (Tensor (map Z.to_nat sh) vs), g'.
  repeat split. exact Hl.
Qed.

Lemma torch_rand_neg (sh : list Z) (g : G) :
  nonneg_shape sh = false -> torch_rand sh g = Err RuntimeError.
Proof. intros H. unfold torch_rand. rewrite H. reflexivity. Qed.

Lemma nonneg_shape_true (sh : list Z) :
  Forall (fun z => (0 <= z)%Z) sh -> nonneg_shape sh = true.
Proof.
  intros H. apply forallb_forall. rewrite Forall_forall in H.
  intros z Hz. apply Z.leb_le, H, Hz.
Qed.

Lemma nn_Linear_ok (i o : Z) (g : G) :
  (0 <= i)%Z -> (0 <= o)%Z ->
  exists (l : Linear) (g' : G),
    nn_Linear i o g = Ok (l, g') /\ wf_Linear (Z.to_nat i) (Z.to_nat o) l.
Proof.
  intros Hi Ho. unfold nn_Linear, ibind.
  destruct (torch_rand_ok [o; i] g) as (w & g1 & Ew & Hsw & Hww).
  { apply nonneg_shape_true. repeat constructor; assumption. }
  rewrite Ew.
  destruct (torch_rand_ok [o] g1) as (b & g2 & Eb & Hsb & Hwb).
  { apply nonneg_shape_true. repeat constructor; assumption. }
  rewrite Eb. eexists; eexists. split; [reflexivity|].
  repeat split; assumption.
Qed.

Lemma nn_Linear_neg (i o : Z) (g : G) :
  (i < 0)%Z \/ (o < 0)%Z -> nn_Linear i o g = Err RuntimeError.
Proof.
  intros H. unfold nn_Linear, ibind. rewrite torch_rand_neg; [reflexivity|].
  unfold nonneg_shape; simpl.
  destruct (Z.leb_spec 0 o); destruct (Z.leb_spec 0 i); simpl; try reflexivity.
  lia.
Qed.

Lemma nn_Embedding_ok (v e : Z) (g : G) :
  (0 <= v)%Z -> (0 <= e)%Z ->
  exists (m : Embedding) (g' : G),
    nn_Embedding v e g = Ok (m, g') /\
    wf_Embedding (Z.to_nat v) (Z.to_nat e) m.
Proof.
  intros Hv He. unfold nn_Embedding, ibind.
  destruct (torch_rand_ok [v; e] g) as (w & g1 & Ew & Hsw & Hww).
  { apply nonneg_shape_true. repeat constructor; assumption. }
  rewrite Ew. eexists; eexists. split; [reflexivity|].
  split; assumption.
Qed.

Lemma nn_LayerNorm_ok (e : Z) (g : G) :
  (0 <= e)%Z ->
  exists m : LayerNorm,
    nn_LayerNorm e g = Ok (m, g) /\ wf_LayerNorm (Z.to_nat e) m.
Proof.
  intros He. unfold nn_LayerNorm, ibind, lift, torch_full.
  rewrite nonneg_shape_true by (repeat constructor; assumption).
  eexists. split; [reflexivity|].
  repeat split; apply wf_mk.
Qed.

Lemma MultiHeadSelfAttention_init_ok (e nh : Z) (g : G) :
  (0 <= e)%Z -> nh <> 0%Z ->
  exists (m : MultiHeadSelfAttention) (g' : G),
    MultiHeadSelfAttention_init e nh g = Ok (m, g') /\
    shaped_MHA (Z.to_nat e) m /\
    num_heads m = nh /\ embed_dim m = e /\ head_dim m = (e / nh)%Z.
Proof.
  intros He Hnh. unfold MultiHeadSelfAttention_init, ibind, lift, py_floordiv.
  destruct (Z.eqb_spec nh 0) as [E|_]; [contradiction|].
  destruct (nn_Linear_ok (i := e) (o := e) g He He) as (q & g1 & Eq & Hq).
  destruct (nn_Linear_ok (i := e) (o := e) g1 He He) as (k & g2 & Ek & Hk).
  destruct (nn_Linear_ok (i := e) (o := e) g2 He He) as (v & g3 & Ev & Hv).
  destruct (nn_Linear_ok (i := e) (o := e) g3 He He) as (o & g4 & Eo & Ho).
  rewrite Eq, Ek, Ev, Eo. eexists; eexists. split; [reflexivity|].
  simpl. unfold shaped_MHA; simpl. rewrite Z2Nat.id by exact He.
  intuition auto.
Qed.

Lemma MultiHeadSelfAttention_init_zero_heads (e : Z) (g : G) :
  MultiHeadSelfAttention_init e 0 g = Err ZeroDivisionError.
Proof. reflexivity. Qed.

Lemma FeedForwardNetwork_init_ok (e f : Z) (g : G) :
  (0 <= e)%Z -> (0 <= f)%Z ->
  exists (m : FeedForwardNetwork) (g' : G),
    FeedForwardNetwork_init e f g = Ok (m, g') /\
    wf_FFN (Z.to_nat e) (Z.to_nat f) m.
Proof.
  intros He Hf. unfold FeedForwardNetwork_init, ibind.
  destruct (nn_Linear_ok (i := e) (o := f) g He Hf) as (a & g1 & Ea & Ha).
  destruct (nn_Linear_ok (i := f) (o := e) g1 Hf He) as (b & g2 & Eb & Hb).
  rewrite Ea, Eb. eexists; eexists. split; [reflexivity|].
  split; assumption.
Qed.

Lemma TransformerBlock_init_ok (e nh f : Z) (g : G) :
  (0 <= e)%Z -> nh <> 0%Z -> (0 <= f)%Z ->
  exists (m : TransformerBlock) (g' : G),
    TransformerBlock_init e nh f g = Ok (m, g') /\
    shaped_Block (Z.to_nat e) (Z.to_nat f) m /\
    num_heads (attention m) = nh /\ embed_dim (attention m) = e /\
    head_dim (attention m) = (e / nh)%Z.
Proof.
  intros He Hnh Hf. unfold TransformerBlock_init, ibind.
  destruct (MultiHeadSelfAttention_init_ok g He Hnh)
    as (a & g1 & Ea & Ha & H1 & H2 & H3).
  rewrite Ea.
  destruct (nn_LayerNorm_ok g1 He) as (n1 & En1 & Hn1). rewrite En1.
  destruct (FeedForwardNetwork_init_ok g1 He Hf) as (ff & g2 & Eff & Hff).
  rewrite Eff.
  destruct (nn_LayerNorm_ok g2 He) as (n2 & En2 & Hn2). rewrite En2.
  eexists; eexists. split; [reflexivity|]. simpl.
  unfold shaped_Block; simpl. intuition auto.
Qed.

Lemma replicate_init_ok (e nh f : Z) (r : list nat) :
  (0 <= e)%Z -> nh <> 0%Z -> (0 <= f)%Z ->
  forall g : G,
  exists (ls : list TransformerBlock) (g' : G),
    replicate_init (TransformerBlock_init e nh f) r g = Ok (ls, g') /\
    length ls = length r /\
    Forall (fun m =>
              shaped_Block (Z.to_nat e) (Z.to_nat f) m /\
              num_heads (attention m) = nh /\ embed_dim (attention m) = e /\
              head_dim (attention m) = (e / nh)%Z) ls.
Proof.
  intros He Hnh Hf. induction r as [|k r IH]; intros g; simpl.
  - exists [], g. repeat split. constructor.
  - unfold ibind.
    destruct (TransformerBlock_init_ok g He Hnh Hf) as (b & g1 & Eb & Hb).
    rewrite Eb. destruct (IH g1) as (ls & g2 & Els & Hlen & Hls).
    unfold ibind in Els. rewrite Els.
    exists (b :: ls), g2. split; [reflexivity|].
    split; [simpl; congruence|]. constructor; assumption.
Qed.

Lemma CustomTransformer_init_ok (v e nh f nl c : Z) (g : G) :
  (0 <= v)%Z -> (0 <= e)%Z -> nh <> 0%Z -> (0 <= f)%Z -> (0 <= c)%Z ->
  exists (m : CustomTransformer) (g' : G),
    CustomTransformer_init v e nh f nl c g = Ok (m, g') /\
    shaped_CT (Z.to_nat v) (Z.to_nat e) (Z.to_nat f) (Z.to_nat c) m /\
    length (layers m) = Z.to_nat nl /\
    Forall (fun b => num_heads (attention b) = nh /\
                     embed_dim (attention b) = e /\
                     head_dim (attention b) = (e / nh)%Z) (layers m).
Proof.
  intros Hv He Hnh Hf Hc. unfold CustomTransformer_init, ibind.
  destruct (nn_Embedding_ok g Hv He) as (emb & g1 & Ee & Hemb). rewrite Ee.
  unfold lift, torch_full.
  rewrite nonneg_shape_true by (repeat constructor; lia).
  destruct (replicate_init_ok (py_range nl) He Hnh Hf g1)
    as (ls & g2 & Els & Hlen & Hls).
  unfold ibind in Els. rewrite Els.
  destruct (nn_Linear_ok (i := e) (o := c) g2 He Hc) as (l & g3 & El & Hl).
  rewrite El. eexists; eexists. split; [reflexivity|]. simpl.
  split; [|split].
  - repeat split; try apply Hemb; try apply Hl; try apply wf_mk.
    eapply Forall_impl; [|exact Hls]. intros b Hb. apply Hb.
  - rewrite Hlen. unfold py_range. apply length_seq.
  - eapply Forall_impl; [|exact Hls]. intros b Hb. apply Hb.
Qed.

(** A model built with a positive head count that divides [embed_dim]
    meets the preconditions of the theorems on [forward]. *)
Lemma CustomTransformer_init_wf (v e nh f nl c : Z) (g : G) :
  (0 <= v)%Z -> (0 <= e)%Z -> (0 < nh)%Z -> (e mod nh = 0)%Z ->
  (0 <= f)%Z -> (0 <= c)%Z ->
  exists (m : CustomTransformer) (g' : G),
    CustomTransformer_init v e nh f nl c g = Ok (m, g') /\
    wf_CT (Z.to_nat v) (Z.to_nat e) (Z.to_nat f) (Z.to_nat c) m.
Proof.
  intros Hv He Hnh Hmod Hf Hc.
  destruct (CustomTransformer_init_ok nl g Hv He
              (nh := nh) ltac:(lia) Hf Hc) as (m & g' & Em & Hsh & _ & Hl).
  exists m, g'. split; [exact Em|]. split; [exact Hsh|].
  eapply Forall_impl; [|exact Hl].
  intros b (H1 & H2 & H3). unfold valid_heads.
  rewrite H1, H2, H3. repeat split; assumption.
Qed.

End InitFacts.

(** A head count that does not divide the embedding dimension is detected
    by [view], at the first non-empty input. *)
Lemma MultiHeadSelfAttention_forward_indivisible {T : Type} {AT : Arith T}
    (e B L : nat) (self : MultiHeadSelfAttention) (x : tensor T) :
  shaped_MHA e self -> (0 < num_heads self)%Z ->
  head_dim self = (embed_dim self / num_heads self)%Z ->
  (embed_dim self mod num_heads self <> 0)%Z ->
  shape x = [B; L; e] -> 0 < B -> 0 < L ->
  MultiHeadSelfAttention_forward self x = Err RuntimeError.
Proof.
  intros (He & Hq & _) Hnh Hhd Hmod Hx HB HL.
  unfold MultiHeadSelfAttention_forward, MultiHeadSelfAttention_run.
  rewrite Hx, (Linear_forward_eq x [B; L] Hq Hx). cbn [bind app].
  unfold split_heads, view.
  pose proof (Z.div_mod (embed_dim self) (num_heads self) ltac:(lia)) as D.
  pose proof (Z.mod_pos_bound (embed_dim self) (num_heads self) Hnh) as Bd.
  assert (Hq0 : (0 <= head_dim self)%Z).
  { rewrite Hhd. apply Z.div_pos; lia. }
  rewrite <- Hhd in D.
  match goal with
  | |- context [numel ?a =? length ?b] =>
      assert (Hne : (numel a =? length b) = false)
  end.
  { apply Nat.eqb_neq.
    change (data (mk [B; L; e] ?f)) with (tab [B; L; e] f).
    rewrite tab_length. simpl. rewrite !Nat2Z.id.
    assert (Hlt : Z.to_nat (num_heads self) * Z.to_nat (head_dim self) < e).
    { apply Nat2Z.inj_lt. rewrite Nat2Z.inj_mul, !Z2Nat.id by lia.
      rewrite <- He. lia. }
    set (X := Z.to_nat (num_heads self) * Z.to_nat (head_dim self)) in *.
    rewrite !Nat.mul_1_r. intros E.
    apply Nat.mul_cancel_l in E; [|lia].
    apply Nat.mul_cancel_l in E; lia. }
  rewrite Hne, andb_false_r. reflexivity.
Qed.

(** * Main results *)

(** ** SmilesDataset *)

(** C3, as amended: for a dataset whose string at a valid index [idx] has
    at most [max_len] characters, [__getitem__] returns a token sequence of
    length exactly [max_len] whose first [len(s)] entries are the character
    codes of [s] and whose remaining entries are 0. *)
Theorem getitem_pads_to_max_len (self : SmilesDataset) (idx : Z) (s : str)
    (l : Z) :
  py_getitem (smiles self) idx = Ok s ->
  py_getitem (labels self) idx = Ok l ->
  (Z.of_nat (length s) <= max_len self)%Z ->
  exists toks lab : tensor Z,
    SmilesDataset_getitem self idx = Ok (toks, lab) /\
    shape toks = [Z.to_nat (max_len self)] /\
    length (data toks) = Z.to_nat (max_len self) /\
    (forall i, i < length s -> nth i (data toks) 0%Z = ord (nth i s 0%N)) /\
    (forall i, length s <= i -> nth i (data toks) 0%Z = 0%Z).
Proof.
  intros Hs Hl Hlen.
  exists (torch_tensor_list (smile_padded self s)), (torch_tensor_scalar l).
  split; [apply getitem_tokens; assumption|].
  simpl. rewrite (smile_padded_length self s Hlen).
  repeat split.
  - intros i Hi. apply smile_padded_prefix, Hi.
  - intros i Hi. apply smile_padded_suffix, Hi.
Qed.

Lemma getitem_pads_to_max_len_witness :
  exists toks lab : tensor Z,
    SmilesDataset_getitem ethanol_dataset 0 = Ok (toks, lab) /\
    shape toks = [Z.to_nat (max_len ethanol_dataset)] /\
    length (data toks) = Z.to_nat (max_len ethanol_dataset) /\
    (forall i, i < length (str_of_string "CCO"%string) ->
               nth i (data toks) 0%Z
               = ord (nth i (str_of_string "CCO"%string) 0%N)) /\
    (forall i, length (str_of_string "CCO"%string) <= i ->
               nth i (data toks) 0%Z = 0%Z).
Proof.
  apply (@getitem_pads_to_max_len ethanol_dataset 0
           (str_of_string "CCO"%string) 7%Z).
  - reflexivity.
  - reflexivity.
  - simpl. lia.
Defined.

(** C3, as stated, fails: a string of 101 characters in a dataset with
    [max_len = 100] yields 101 tokens. *)
Lemma getitem_long_string_not_max_len :
  max_len long_dataset = 100%Z /\
  exists toks lab : tensor Z,
    SmilesDataset_getitem long_dataset 0 = Ok (toks, lab) /\
    shape toks = [101] /\ length (data toks) = 101 /\
    length (data toks) <> Z.to_nat (max_len long_dataset).
Proof.
  split; [reflexivity|].
  eexists; eexists. split; [reflexivity|].
  repeat split. simpl. lia.
Qed.

(** C10: a character with code point 128 or more becomes a token id
    outside [0, 128), which an embedding table of 128 rows rejects. *)
Theorem getitem_token_out_of_vocabulary (self : SmilesDataset) (idx : Z)
    (s : str) (l : Z) (c : char) :
  py_getitem (smiles self) idx = Ok s ->
  py_getitem (labels self) idx = Ok l ->
  In c s -> (128 <= ord c)%Z ->
  exists toks lab : tensor Z,
    SmilesDataset_getitem self idx = Ok (toks, lab) /\
    In (ord c) (data toks) /\
    ~ (0 <= ord c < 128)%Z /\
    forall (T : Type) (AT : Arith T) (emb : @Embedding T) (e : nat),
      shape (emb_weight emb) = [128; e] ->
      Embedding_forward emb toks = Err IndexError.
Proof.
  intros Hs Hl Hc Hord.
  exists (torch_tensor_list (smile_padded self s)), (torch_tensor_scalar l).
  split; [apply getitem_tokens; assumption|].
  assert (Hin : In (ord c) (data (torch_tensor_list (smile_padded self s)))).
  { simpl. unfold smile_padded. apply in_or_app. left.
    apply in_map, Hc. }
  split; [exact Hin|]. split; [lia|].
  intros T AT emb e Hsh.
  apply (Embedding_forward_out_of_range emb _ Hsh Hin).
  simpl. lia.
Qed.

Lemma getitem_token_out_of_vocabulary_witness :
  exists toks lab : tensor Z,
    SmilesDataset_getitem accented_dataset 0 = Ok (toks, lab) /\
    In (ord 233%N) (data toks) /\
    ~ (0 <= ord 233%N < 128)%Z /\
    forall (T : Type) (AT : Arith T) (emb : @Embedding T) (e : nat),
      shape (emb_weight emb) = [128; e] ->
      Embedding_forward emb toks = Err IndexError.
Proof.
  apply (@getitem_token_out_of_vocabulary accented_dataset 0
           [67%N; 233%N] 0%Z 233%N).
  - reflexivity.
  - reflexivity.
  - simpl. right. left. reflexivity.
  - simpl. lia.
Defined.

(** ** Construction *)

(** C2, as amended: whatever the generator state, construction of
    [MultiHeadSelfAttention] succeeds for every [embed_dim = ed >= 0] and
    every [num_heads = nh <> 0], whether or not [ed % nh == 0], with
    [head_dim = ed // nh]; so does construction of [CustomTransformer]
    when the other sizes are not negative.  A positive head count that
    does not divide [embed_dim] is rejected later, by the
    [view] of [forward], on every non-empty input. *)
Theorem construction_ignores_divisibility (T G : Type) (AT : Arith T)
    (RG : Rng T G) (ed nh : Z) (g : G) :
  (0 <= ed)%Z -> nh <> 0%Z ->
  (exists (m : @MultiHeadSelfAttention T) (g' : G),
      MultiHeadSelfAttention_init ed nh g = Ok (m, g') /\
      head_dim m = (ed / nh)%Z /\
      shaped_MHA (Z.to_nat ed) m /\
      ((0 < nh)%Z -> (ed mod nh <> 0)%Z ->
       forall (x : tensor T) (B L : nat),
         shape x = [B; L; Z.to_nat ed] -> 0 < B -> 0 < L ->
         MultiHeadSelfAttention_forward m x = Err RuntimeError)) /\
  (forall vocab_size ff_dim num_layers num_classes : Z,
      (0 <= vocab_size)%Z -> (0 <= ff_dim)%Z -> (0 <= num_classes)%Z ->
      exists (m : @CustomTransformer T) (g' : G),
        CustomTransformer_init vocab_size ed nh ff_dim
                               num_layers num_classes g = Ok (m, g')).
Proof.
  intros He Hnh. split.
  - destruct (MultiHeadSelfAttention_init_ok g He Hnh)
      as (m & g' & Em & Hsh & H1 & H2 & H3).
    exists m, g'. repeat split; try assumption; try apply Hsh.
    intros Hpos Hmod x B L Hx HB HL.
    apply (MultiHeadSelfAttention_forward_indivisible (e := Z.to_nat ed)
             (B := B) (L := L) (self := m) x); try assumption.
    + rewrite H1. exact Hpos.
    + rewrite H2, H1. exact H3.
    + rewrite H2, H1. exact Hmod.
  - intros v f nl c Hv Hf Hc.
    destruct (CustomTransformer_init_ok nl g Hv He Hnh Hf Hc)
      as (m & g' & Em & _).
    exists m, g'. exact Em.
Qed.

Lemma construction_ignores_divisibility_witness :
  (exists (m : @MultiHeadSelfAttention R) (g' : nat),
      MultiHeadSelfAttention_init 10 3 0 = Ok (m, g') /\
      head_dim m = (10 / 3)%Z /\
      shaped_MHA (Z.to_nat 10) m /\
      ((0 < 3)%Z -> (10 mod 3 <> 0)%Z ->
       forall (x : tensor R) (B L : nat),
         shape x = [B; L; Z.to_nat 10] -> 0 < B -> 0 < L ->
         MultiHeadSelfAttention_forward m x = Err RuntimeError)) /\
  (forall vocab_size ff_dim num_layers num_classes : Z,
      (0 <= vocab_size)%Z -> (0 <= ff_dim)%Z -> (0 <= num_classes)%Z ->
      exists (m : @CustomTransformer R) (g' : nat),
        CustomTransformer_init vocab_size 10 3 ff_dim
                               num_layers num_classes 0 = Ok (m, g')).
Proof.
  apply (@construction_ignores_divisibility R nat R_Arith counter_Rng
           10%Z 3%Z 0).
  - lia.
  - lia.
Defined.

(** C2, as stated, fails: 10 is not a multiple of 3 and construction with
    [embed_dim = 10], [num_heads = 3] succeeds all the same. *)
Lemma construction_succeeds_indivisible :
  (10 mod 3 <> 0)%Z /\
  exists (m : @MultiHeadSelfAttention R) (g' : nat),
    MultiHeadSelfAttention_init 10 3 0 = Ok (m, g') /\
    num_heads m = 3%Z /\ embed_dim m = 10%Z /\ head_dim m = 3%Z.
Proof.
  split; [discriminate|].
  destruct (MultiHeadSelfAttention_init_ok (T := R) (e := 10) (nh := 3) 0)
    as (m & g' & Em & _ & H1 & H2 & H3); [lia|lia|].
  exists m, g'. repeat split; assumption.
Qed.

(** ** Attention *)

(** C1: on an input of shape (batch, seq_len, embed_dim), [forward] returns
    the reference multi-head scaled dot-product attention: three
    independent projections, the embedding axis split into heads, scores
    [Q.K / sqrt(head_dim)], softmax over the keys, the weighted sum of the
    values, the heads concatenated and projected once more. *)
Theorem attention_forward_is_reference (T : Type) (AT : Arith T)
    (e B L : nat) (self : MultiHeadSelfAttention) (x : tensor T) :
  wf_MHA e self -> shape x = [B; L; e] ->
  exists y : tensor T,
    MultiHeadSelfAttention_forward self x = Ok y /\
    ref_attention self x = Ok y /\
    shape y = [B; L; e].
Proof.
  intros Hwf Hx. exact (MultiHeadSelfAttention_forward_ref x Hwf Hx).
Qed.

Lemma attention_forward_is_reference_witness :
  exists y : tensor R,
    MultiHeadSelfAttention_forward pad_attention ones_122 = Ok y /\
    ref_attention pad_attention ones_122 = Ok y /\
    shape y = [1; 2; 2].
Proof.
  apply (@attention_forward_is_reference R R_Arith 2 1 2
           pad_attention ones_122).
  - unfold wf_MHA, shaped_MHA, valid_heads, wf_Linear, wf_tensor.
    simpl. repeat split; reflexivity.
  - reflexivity.
Defined.



(** ** Feed-forward network, block and model *)

Ltac wf_example :=
  unfold wf_CT, shaped_CT, wf_Block, shaped_Block, wf_MHA, shaped_MHA,
    valid_heads, wf_FFN, wf_LayerNorm, wf_Embedding, wf_Linear, wf_tensor,
    tokens_in_range;
  simpl; repeat (split || constructor); try reflexivity; try lia.

(** C4: for token ids of shape (batch, seq_len) with [seq_len <= 100] and
    every id within the table, the first statement of [forward] yields the
    tensor of shape (batch, seq_len, embed_dim) whose entries are
    [embedding_lookup(tokens) + positional_encoding[:seq_len]], and leaves
    the object, with its two parameter tensors, as it was. *)
Theorem embed_is_lookup_plus_position (T : Type) (AT : Arith T)
    (v e f c B L : nat) (self : CustomTransformer) (x : tensor Z) :
  shaped_CT v e f c self -> shape x = [B; L] -> L <= 100 ->
  tokens_in_range v x ->
  CustomTransformer_embed self x = Ok (ref_embed B L e self x) /\
  shape (ref_embed B L e self x) = [B; L; e] /\
  (forall b s d, b < B -> s < L -> d < e ->
     tget (ref_embed B L e self x) [b; s; d]
     = add (tget (emb_weight (embedding self))
                 [Z.to_nat (get 0%Z x [b; s]); d])
           (tget (positional_encoding self) [0; s; d])) /\
  CustomTransformer_embed_method x self = Ok (ref_embed B L e self x, self).
Proof.
  intros Hsh Hx HL Hr.
  pose proof (CustomTransformer_embed_ref Hsh Hx HL Hr) as E.
  split; [exact E|]. split; [reflexivity|]. split.
  - intros b s d Hb Hs Hd. unfold ref_embed.
    rewrite tget_mk by ix_range. reflexivity.
  - unfold CustomTransformer_embed in E.
    unfold CustomTransformer_embed_method, mbind, attr, call.
    destruct (Embedding_forward (embedding self) x) as [t|]; [|discriminate].
    cbn [bind] in E.
    destruct (shape_at x 1) as [n|]; [|discriminate].
    cbn [bind] in E.
    destruct (slice_dim1 (positional_encoding self) n) as [p|];
      [|discriminate].
    cbn [bind] in E. rewrite E. reflexivity.
Qed.

Lemma embed_is_lookup_plus_position_witness :
  CustomTransformer_embed pad_model tokens_b
  = Ok (ref_embed 1 2 2 pad_model tokens_b) /\
  shape (ref_embed 1 2 2 pad_model tokens_b) = [1; 2; 2] /\
  (forall b s d, b < 1 -> s < 2 -> d < 2 ->
     tget (ref_embed 1 2 2 pad_model tokens_b) [b; s; d]
     = add (tget (emb_weight (embedding pad_model))
                 [Z.to_nat (get 0%Z tokens_b [b; s]); d])
           (tget (positional_encoding pad_model) [0; s; d])) /\
  CustomTransformer_embed_method tokens_b pad_model
  = Ok (ref_embed 1 2 2 pad_model tokens_b, pad_model).
Proof.
  apply (@embed_is_lookup_plus_position R R_Arith 128 2 2 1 1 2
           pad_model tokens_b).
  - wf_example.
  - reflexivity.
  - lia.
  - wf_example.
Defined.

(** C5: a block computes the two residual sublayers in sequence,
    [x1 = normalize(x + attention(x))] and
    [x2 = normalize(x1 + feed_forward(x1))], where [normalize] treats each
    embedding vector on its own: mean subtracted, divided by the square
    root of variance plus the stability constant, scaled and shifted per
    dimension. *)
Theorem block_forward_is_reference (T : Type) (AT : Arith T)
    (e f B L : nat) (self : TransformerBlock) (x : tensor T) :
  wf_Block e f self -> shape x = [B; L; e] ->
  exists y : tensor T,
    TransformerBlock_forward self x = Ok y /\ ref_block self x = Ok y.
Proof.
  intros Hwf Hx.
  destruct (TransformerBlock_forward_ref x Hwf Hx) as (y & Hy & Hr & _).
  exists y. split; assumption.
Qed.

Lemma block_forward_is_reference_witness :
  exists y : tensor R,
    TransformerBlock_forward pad_block ones_122 = Ok y /\
    ref_block pad_block ones_122 = Ok y.
Proof.
  apply (@block_forward_is_reference R R_Arith 2 2 1 2 pad_block ones_122).
  - wf_example.
  - reflexivity.
Defined.

(** C6: for token ids of shape (batch, seq_len) with [seq_len <= 100],
    [forward] returns logits of shape (batch, num_classes): the embedding
    with positions, the blocks one after the other, the unweighted mean
    over all positions of the sequence axis, and the final projection. *)
Theorem forward_is_reference (T : Type) (AT : Arith T)
    (v e f c B L : nat) (self : CustomTransformer) (x : tensor Z) :
  wf_CT v e f c self -> shape x = [B; L] -> L <= 100 ->
  tokens_in_range v x ->
  exists y : tensor T,
    CustomTransformer_forward self x = Ok y /\
    shape y = [B; c] /\
    ref_transformer B L e c self x = Ok y.
Proof.
  intros Hwf Hx HL Hr.
  destruct (CustomTransformer_forward_ref Hwf Hx HL Hr)
    as (h & y & _ & Hy & -> & Href).
  eexists. split; [exact Hy|]. split; [reflexivity|exact Href].
Qed.

Lemma forward_is_reference_witness :
  exists y : tensor R,
    CustomTransformer_forward pad_model tokens_b = Ok y /\
    shape y = [1; 1] /\
    ref_transformer 1 2 2 1 pad_model tokens_b = Ok y.
Proof.
  apply (@forward_is_reference R R_Arith 128 2 2 1 1 2 pad_model tokens_b).
  - wf_example.
  - reflexivity.
  - lia.
  - wf_example.
Defined.

(** C8: the attention layer, the feed-forward network and the block
    return a tensor of the shape of their input, and so does any number of
    applications of a block. *)
Theorem sublayers_preserve_shape (T : Type) (AT : Arith T)
    (e f B L : nat) (self : TransformerBlock) (x : tensor T) :
  wf_Block e f self -> shape x = [B; L; e] ->
  (exists y : tensor T,
      MultiHeadSelfAttention_forward (attention self) x = Ok y /\
      shape y = shape x) /\
  (exists y : tensor T,
      FeedForwardNetwork_forward (ffn self) x = Ok y /\ shape y = shape x) /\
  (exists y : tensor T,
      TransformerBlock_forward self x = Ok y /\ shape y = shape x) /\
  (forall n : nat,
      exists y : tensor T,
        iterate_block self n x = Ok y /\ shape y = shape x).
Proof.
  intros Hwf Hx. pose proof Hwf as ((Hm & _ & Hf & _) & Hv).
  repeat split.
  - destruct (MultiHeadSelfAttention_forward_shape x (conj Hm Hv) Hx)
      as (y & Hy & Hs & _).
    exists y. split; [exact Hy|congruence].
  - exists (ref_ffn B L e f (ffn self) x).
    split; [apply (FeedForwardNetwork_forward_ref x Hf Hx)|].
    rewrite Hx. reflexivity.
  - destruct (TransformerBlock_forward_ref x Hwf Hx) as (y & Hy & _ & Hs & _).
    exists y. split; [exact Hy|congruence].
  - intros n. unfold iterate_block.
    destruct (apply_layers_shape (B := B) (L := L) (ls := repeat self n)
                (e := e) (f := f)) with (x := x) as (y & Hy & Hs & _).
    + apply Forall_forall. intros b Hb. apply repeat_spec in Hb.
      subst b. exact Hwf.
    + exact Hx.
    + exists y. split; [exact Hy|congruence].
Qed.

Lemma sublayers_preserve_shape_witness :
  (exists y : tensor R,
      MultiHeadSelfAttention_forward (attention pad_block) ones_122 = Ok y /\
      shape y = shape ones_122) /\
  (exists y : tensor R,
      FeedForwardNetwork_forward (ffn pad_block) ones_122 = Ok y /\
      shape y = shape ones_122) /\
  (exists y : tensor R,
      TransformerBlock_forward pad_block ones_122 = Ok y /\
      shape y = shape ones_122) /\
  (forall n : nat,
      exists y : tensor R,
        iterate_block pad_block n ones_122 = Ok y /\
        shape y = shape ones_122).
Proof.
  apply (@sublayers_preserve_shape R R_Arith 2 2 1 2 pad_block ones_122).
  - wf_example.
  - reflexivity.
Defined.

(** ** No padding mask *)

Section NoMask.

Context {T : Type} {AT : Arith T}.




End NoMask.

(** ** No padding mask: the concrete model *)

Unset Implicit Arguments.
Local Open Scope R_scope.

Ltac reval := cbv -[IZR Rplus Rmult Rminus Rdiv Ropp Rinv sqrt exp Rmax phi].














(** ** The definitions on small inputs *)

Example py_getitem_last : py_getitem [10; 20; 30]%Z (-1) = Ok 30%Z.
Proof. reflexivity. Qed.

Example py_getitem_past_end : py_getitem [10; 20; 30]%Z 3 = Err IndexError.
Proof. reflexivity. Qed.

Example py_list_mul_negative : py_list_mul [0%Z] (-3) = [].
Proof. reflexivity. Qed.

Example py_floordiv_floors : py_floordiv (-7) 2 = Ok (-4)%Z.
Proof. reflexivity. Qed.

Example getitem_ethanol :
  SmilesDataset_getitem ethanol_dataset 0
  = Ok (Tensor [100%nat] ([67; 67; 79]%Z ++ repeat 0%Z 97), Tensor [] [7%Z]).
Proof. reflexivity. Qed.

Example view_2_3_as_3_2 :
  view (Tensor [2; 3]%nat [1; 2; 3; 4; 5; 6]%Z) [3; 2]%Z
  = Ok (Tensor [3; 2]%nat [1; 2; 3; 4; 5; 6]%Z).
Proof. reflexivity. Qed.

Example view_wrong_size :
  view (Tensor [2; 3]%nat [1; 2; 3; 4; 5; 6]%Z) [4; 2]%Z = Err RuntimeError.
Proof. reflexivity. Qed.

Example transpose_2_3 :
  transpose (Tensor [2; 3]%nat [1; 2; 3; 4; 5; 6]) 0 1
  = Ok (Tensor [3; 2]%nat [1; 4; 2; 5; 3; 6]).
Proof. reflexivity. Qed.

Example matmul_2_2 :
  matmul (Tensor [2; 2]%nat [1; 2; 3; 4]) (Tensor [2; 2]%nat [5; 6; 7; 8])
  = Ok (Tensor [2; 2]%nat [19; 22; 43; 50]).
Proof.
  reval. f_equal. f_equal. f_equal; [|f_equal; [|f_equal; [|f_equal]]].
  all: ring.
Qed.

Example torch_add_broadcasts :
  torch_add (Tensor [2; 2]%nat [1; 2; 3; 4]) (Tensor [1; 2]%nat [10; 20])
  = Ok (Tensor [2; 2]%nat [1 + 10; 2 + 20; 3 + 10; 4 + 20]).
Proof. reflexivity. Qed.

Example torch_add_mismatch :
  torch_add (Tensor [2; 2]%nat [1; 2; 3; 4]) (Tensor [3]%nat [10; 20; 30])
  = Err RuntimeError.
Proof. reflexivity. Qed.

(** A sequence of 101 tokens does not fit the 100 positions of the
    positional encoding. *)
Example embed_sequence_too_long :
  CustomTransformer_embed pad_model (Tensor [1; 101]%nat (repeat 0%Z 101))
  = Err RuntimeError.
Proof. reflexivity. Qed.

Example forward_token_out_of_table :
  CustomTransformer_forward pad_model (Tensor [1; 2]%nat [67; 200]%Z)
  = Err IndexError.
Proof. reflexivity. Qed.

Example init_zero_heads :
  MultiHeadSelfAttention_init (T := R) 8 0 0%nat = Err ZeroDivisionError.
Proof. reflexivity. Qed.

Example init_negative_embed_dim :
  MultiHeadSelfAttention_init (T := R) (-8) 2 0%nat = Err RuntimeError.
Proof. reflexivity. Qed.

(** * Further properties *)

Unset Implicit Arguments.
Local Close Scope R_scope.
Local Open Scope result_scope.

(** ** Indexing the dataset *)

Lemma py_getitem_in_bounds (A : Type) (l : list A) (idx : Z) :
  (- Z.of_nat (length l) <= idx < Z.of_nat (length l))%Z ->
  exists a, py_getitem l idx = Ok a.
Proof.
  intros H. unfold py_getitem.
  set (n := Z.of_nat (length l)) in *.
  set (i := if (idx <? 0)%Z then (idx + n)%Z else idx).
  assert (Hi : (0 <= i < n)%Z).
  { unfold i. destruct (Z.ltb_spec idx 0); lia. }
  assert (E : ((0 <=? i) && (i <? n))%Z = true).
  { apply andb_true_intro. split; [apply Z.leb_le|apply Z.ltb_lt]; lia. }
  rewrite E.
  destruct (nth_error l (Z.to_nat i)) as [a|] eqn:En.
  - exists a. reflexivity.
  - apply nth_error_None in En. unfold n in Hi. lia.
Qed.

Lemma py_getitem_out_of_bounds (A : Type) (l : list A) (idx : Z) :
  ~ (- Z.of_nat (length l) <= idx < Z.of_nat (length l))%Z ->
  py_getitem l idx = Err IndexError.
Proof.
  intros H. unfold py_getitem.
  set (n := Z.of_nat (length l)) in *.
  destruct (Z.ltb_spec idx 0).
  - destruct (Z.leb_spec 0 (idx + n)); [lia|]. reflexivity.
  - destruct (Z.leb_spec 0 idx); [|lia].
    destruct (Z.ltb_spec idx n); [lia|]. reflexivity.
Qed.

Lemma py_getitem_negative (A : Type) (l : list A) (idx : Z) :
  (- Z.of_nat (length l) <= idx < 0)%Z ->
  py_getitem l idx = py_getitem l (idx + Z.of_nat (length l)).
Proof.
  intros H. unfold py_getitem.
  destruct (Z.ltb_spec idx 0); [|lia].
  destruct (Z.ltb_spec (idx + Z.of_nat (length l)) 0); [lia|]. reflexivity.
Qed.

(** X1: with as many labels as strings, every label being a value that
    [torch.long] holds (the conversion of any other label raises, a case
    this statement leaves out), [__getitem__] returns a sample exactly for
    the indices from [-len] to [len - 1], its label tensor holding one such
    value; it raises [IndexError] for every other index; and a negative
    index [idx] names the sample [idx + len]. *)
Theorem getitem_index_bounds (self : SmilesDataset) (idx : Z) :
  length (labels self) = length (smiles self) ->
  Forall int64 (labels self) ->
  let n := Z.of_nat (SmilesDataset_len self) in
  ((- n <= idx < n)%Z ->
   exists (toks lab : tensor Z) (l : Z),
     SmilesDataset_getitem self idx = Ok (toks, lab) /\
     lab = torch_tensor_scalar l /\ In l (labels self) /\ int64 l) /\
  (~ (- n <= idx < n)%Z -> SmilesDataset_getitem self idx = Err IndexError) /\
  ((- n <= idx < 0)%Z ->
   SmilesDataset_getitem self idx = SmilesDataset_getitem self (idx + n)).
Proof.
  intros Hlen Hrange n. unfold n, SmilesDataset_len. repeat split.
  - intros H.
    destruct (py_getitem_in_bounds _ (smiles self) idx H) as (s & Hs).
    destruct (py_getitem_in_bounds _ (labels self) idx) as (l & Hl).
    { rewrite Hlen. exact H. }
    pose proof (py_getitem_In _ _ Hl) as Hin.
    exists (torch_tensor_list (smile_padded self s)),
           (torch_tensor_scalar l), l.
    split; [apply (getitem_tokens self idx Hs Hl)|].
    split; [reflexivity|]. split; [exact Hin|].
    rewrite Forall_forall in Hrange. apply Hrange, Hin.
  - intros H. unfold SmilesDataset_getitem.
    rewrite (py_getitem_out_of_bounds _ (smiles self) idx H). reflexivity.
  - intros H. unfold SmilesDataset_getitem.
    rewrite (py_getitem_negative _ (smiles self) idx H).
    rewrite (py_getitem_negative _ (labels self) idx)
      by (rewrite Hlen; exact H).
    rewrite Hlen. reflexivity.
Qed.

Lemma getitem_index_bounds_witness :
  let n := Z.of_nat (SmilesDataset_len ethanol_dataset) in
  ((- n <= -1 < n)%Z ->
   exists (toks lab : tensor Z) (l : Z),
     SmilesDataset_getitem ethanol_dataset (-1) = Ok (toks, lab) /\
     lab = torch_tensor_scalar l /\ In l (labels ethanol_dataset) /\
     int64 l) /\
  (~ (- n <= -1 < n)%Z ->
   SmilesDataset_getitem ethanol_dataset (-1) = Err IndexError) /\
  ((- n <= -1 < 0)%Z ->
   SmilesDataset_getitem ethanol_dataset (-1)
   = SmilesDataset_getitem ethanol_dataset (-1 + n)).
Proof.
  apply (getitem_index_bounds ethanol_dataset (-1)).
  - reflexivity.
  - repeat constructor; unfold int64; lia.
Defined.

(** ** The token sequence determines the string *)

Lemma zero_padded_inj (l1 l2 : list Z) (a b : nat) :
  ~ In 0%Z l1 -> ~ In 0%Z l2 ->
  l1 ++ repeat 0%Z a = l2 ++ repeat 0%Z b -> l1 = l2.
Proof.
  revert l2. induction l1 as [|x l1 IH]; intros l2 H1 H2 E.
  - destruct l2 as [|y l2]; [reflexivity|].
    exfalso. apply H2. simpl in E.
    destruct a as [|a]; [discriminate|].
    simpl in E. injection E as E _. left. symmetry. exact E.
  - destruct l2 as [|y l2].
    + exfalso. apply H1. simpl in E.
      destruct b as [|b]; [discriminate|].
      simpl in E. injection E as E _. left. exact E.
    + simpl in E. injection E as -> E. f_equal.
      apply IH; [| |exact E].
      * intros H. apply H1. right. exact H.
      * intros H. apply H2. right. exact H.
Qed.

Lemma map_ord_inj (s1 s2 : str) : map ord s1 = map ord s2 -> s1 = s2.
Proof.
  revert s2. induction s1 as [|c s1 IH]; intros [|d s2] E;
    try discriminate; [reflexivity|].
  simpl in E. injection E as Ec E. f_equal; [|apply IH, E].
  unfold ord in Ec. apply N2Z.inj, Ec.
Qed.

Lemma smile_padded_inj (self : SmilesDataset) (s1 s2 : str) :
  ~ In 0%N s1 -> ~ In 0%N s2 ->
  smile_padded self s1 = smile_padded self s2 -> s1 = s2.
Proof.
  intros H1 H2 E. unfold smile_padded in E.
  rewrite !py_list_mul_single in E.
  apply map_ord_inj. apply (zero_padded_inj _ _ _ _) in E; [exact E| |].
  - intros H. apply in_map_iff in H. destruct H as (c & Hc & Hin).
    unfold ord in Hc. assert (c = 0%N) by lia. subst c. contradiction.
  - intros H. apply in_map_iff in H. destruct H as (c & Hc & Hin).
    unfold ord in Hc. assert (c = 0%N) by lia. subst c. contradiction.
Qed.

(** X2: two strings of a dataset that contain no NUL character and that
    [__getitem__] turns into the same token tensor are the same string,
    whatever their lengths: padding with 0 loses nothing but NUL
    characters. *)
Theorem getitem_tokens_determine_string (self : SmilesDataset) (i j : Z)
    (s1 s2 : str) (t1 l1 t2 l2 : tensor Z) :
  py_getitem (smiles self) i = Ok s1 ->
  py_getitem (smiles self) j = Ok s2 ->
  ~ In 0%N s1 -> ~ In 0%N s2 ->
  SmilesDataset_getitem self i = Ok (t1, l1) ->
  SmilesDataset_getitem self j = Ok (t2, l2) ->
  t1 = t2 -> s1 = s2.
Proof.
  intros Hs1 Hs2 N1 N2 G1 G2 E.
  unfold SmilesDataset_getitem in G1, G2.
  rewrite Hs1 in G1. rewrite Hs2 in G2. cbn [bind] in G1, G2.
  destruct (py_getitem (labels self) i); [|discriminate].
  destruct (py_getitem (labels self) j); [|discriminate].
  cbn [bind] in G1, G2. injection G1 as <- _. injection G2 as <- _.
  unfold torch_tensor_list in E. injection E as _ E.
  apply (smile_padded_inj self s1 s2 N1 N2 E).
Qed.

Lemma getitem_tokens_determine_string_witness :
  str_of_string "CCO"%string = str_of_string "CCO"%string.
Proof.
  apply (getitem_tokens_determine_string two_alcohols 0 1
           (str_of_string "CCO"%string) (str_of_string "CCO"%string)
           (torch_tensor_list (smile_padded two_alcohols
                                 (str_of_string "CCO"%string)))
           (torch_tensor_scalar 7)
           (torch_tensor_list (smile_padded two_alcohols
                                 (str_of_string "CCO"%string)))
           (torch_tensor_scalar 8)).
  - reflexivity.
  - reflexivity.
  - simpl. intros [H|[H|[H|H]]]; try discriminate; exact H.
  - simpl. intros [H|[H|[H|H]]]; try discriminate; exact H.
  - reflexivity.
  - reflexivity.
  - reflexivity.
Defined.

(** ** The input of the prediction *)

(** X3: [main] pads the string it reads exactly as the dataset does: for a
    dataset with [max_len = 100], the tensor given to the model at
    prediction is the batch of one sample that stacking the dataset's
    token tensor of the same string gives. *)
Theorem main_inputs_are_dataset_tokens (self : SmilesDataset) (idx : Z)
    (input_smiles : str) (l : Z) :
  max_len self = 100%Z ->
  py_getitem (smiles self) idx = Ok input_smiles ->
  py_getitem (labels self) idx = Ok l ->
  exists toks lab : tensor Z,
    SmilesDataset_getitem self idx = Ok (toks, lab) /\
    torch_stack [toks] = Ok (main_inputs input_smiles).
Proof.
  intros Hm Hs Hl.
  exists (torch_tensor_list (smile_padded self input_smiles)),
         (torch_tensor_scalar l).
  split; [apply (getitem_tokens self idx Hs Hl)|].
  unfold torch_stack, main_inputs, torch_tensor_list, smile_padded,
    main_max_len.
  rewrite Hm. simpl. rewrite app_nil_r. reflexivity.
Qed.

Lemma main_inputs_are_dataset_tokens_witness :
  exists toks lab : tensor Z,
    SmilesDataset_getitem ethanol_dataset 0 = Ok (toks, lab) /\
    torch_stack [toks] = Ok (main_inputs (str_of_string "CCO"%string)).
Proof.
  apply (main_inputs_are_dataset_tokens ethanol_dataset 0
           (str_of_string "CCO"%string) 7).
  - reflexivity.
  - reflexivity.
  - reflexivity.
Defined.

(** ** Inputs that [forward] rejects *)

Section Rejected.

Context {T : Type} {AT : Arith T}.

Lemma CustomTransformer_forward_index_error (v e : nat)
    (self : CustomTransformer) (x : tensor Z) (t : Z) :
  shape (emb_weight (embedding self)) = [v; e] ->
  In t (data x) -> ~ (0 <= t < Z.of_nat v)%Z ->
  CustomTransformer_forward self x = Err IndexError.
Proof.
  intros Hs Hin Hout.
  unfold CustomTransformer_forward, CustomTransformer_embed.
  rewrite (Embedding_forward_out_of_range (embedding self) x Hs Hin Hout).
  reflexivity.
Qed.

(** X4: whatever the shape of the input, a token id outside the embedding
    table makes [forward] raise [IndexError]. *)
Theorem forward_token_outside_table (v e : nat) (self : CustomTransformer)
    (x : tensor Z) (t : Z) :
  shape (emb_weight (embedding self)) = [v; e] ->
  In t (data x) -> ~ (0 <= t < Z.of_nat v)%Z ->
  CustomTransformer_forward self x = Err IndexError.
Proof. exact (CustomTransformer_forward_index_error v e self x t). Qed.

Lemma CustomTransformer_forward_too_long (v e f c B L : nat)
    (self : CustomTransformer) (x : tensor Z) :
  shaped_CT v e f c self -> shape x = [B; L] -> 100 < L ->
  tokens_in_range v x ->
  CustomTransformer_forward self x = Err RuntimeError.
Proof.
  intros (Hemb & Hps & _) Hx HL Hr.
  unfold CustomTransformer_forward, CustomTransformer_embed.
  rewrite (Embedding_forward_eq Hemb Hr), Hx. cbn [bind app].
  unfold shape_at. rewrite Hx. cbn [length].
  change (norm_dim 2 1) with (@Ok nat 1). cbn [bind nth].
  unfold slice_dim1. rewrite Hps. cbn [bind].
  rewrite (Nat.min_r L 100) by lia.
  unfold torch_add. cbn [shape mk].
  assert (Hb : broadcast_shape [B; L; e] [1; 100; e] = None).
  { unfold broadcast_shape. simpl. rewrite Nat.eqb_refl.
    destruct (B =? 1);
      destruct (Nat.eqb_spec L 100); try lia;
      destruct (Nat.eqb_spec L 1); try lia;
      reflexivity. }
  rewrite Hb. reflexivity.
Qed.

(** X5: a batch of sequences longer than the 100 rows of the positional
    encoding makes [forward] raise [RuntimeError]: the sum of the embedded
    tokens and the 100 positions does not broadcast. *)
Theorem forward_sequence_too_long (v e f c B L : nat)
    (self : CustomTransformer) (x : tensor Z) :
  shaped_CT v e f c self -> shape x = [B; L] -> 100 < L ->
  tokens_in_range v x ->
  CustomTransformer_forward self x = Err RuntimeError.
Proof. exact (CustomTransformer_forward_too_long v e f c B L self x). Qed.

(** X6: a token tensor without a batch axis, such as the one
    [__getitem__] returns, makes [forward] raise [IndexError]: [x.shape[1]]
    does not exist. *)
Theorem forward_unbatched (v e : nat) (self : CustomTransformer)
    (x : tensor Z) :
  wf_Embedding v e (embedding self) -> tokens_in_range v x ->
  length (shape x) <= 1 ->
  CustomTransformer_forward self x = Err IndexError.
Proof.
  intros Hemb Hr Hrank.
  unfold CustomTransformer_forward, CustomTransformer_embed.
  rewrite (Embedding_forward_eq Hemb Hr). cbn [bind].
  unfold shape_at, norm_dim.
  destruct (shape x) as [|a [|b r]]; simpl in Hrank; try lia; reflexivity.
Qed.

End Rejected.

Lemma forward_token_outside_table_witness :
  CustomTransformer_forward pad_model (Tensor [1; 2] [67; 200]%Z)
  = Err IndexError.
Proof.
  apply (forward_token_outside_table 128 2 pad_model
           (Tensor [1; 2] [67; 200]%Z) 200%Z).
  - reflexivity.
  - simpl. right. left. reflexivity.
  - lia.
Defined.

Lemma forward_sequence_too_long_witness :
  CustomTransformer_forward pad_model (Tensor [1; 101] (repeat 0%Z 101))
  = Err RuntimeError.
Proof.
  apply (forward_sequence_too_long 128 2 2 1 1 101 pad_model
           (Tensor [1; 101] (repeat 0%Z 101))).
  - wf_example.
  - reflexivity.
  - lia.
  - wf_example.
Defined.

Lemma forward_unbatched_witness :
  CustomTransformer_forward pad_model (Tensor [3] [67; 67; 79]%Z)
  = Err IndexError.
Proof.
  apply (forward_unbatched 128 2 pad_model (Tensor [3] [67; 67; 79]%Z)).
  - wf_example.
  - wf_example.
  - simpl. lia.
Defined.

(** ** Construction and first use *)

Section Construction.

Context {T G : Type} {AT : Arith T} {RG : Rng T G}.

Lemma nn_Embedding_neg (v e : Z) (g : G) :
  (v < 0)%Z \/ (e < 0)%Z -> nn_Embedding (T := T) v e g = Err RuntimeError.
Proof.
  intros H. unfold nn_Embedding, ibind. rewrite torch_rand_neg; [reflexivity|].
  unfold nonneg_shape; simpl.
  destruct (Z.leb_spec 0 v); destruct (Z.leb_spec 0 e); simpl;
    try reflexivity; lia.
Qed.

Lemma TransformerBlock_init_fails (e nh f : Z) (g : G) :
  (0 <= e)%Z -> nh = 0%Z \/ (f < 0)%Z ->
  exists err, TransformerBlock_init (T := T) e nh f g = Err err.
Proof.
  intros He H. unfold TransformerBlock_init, ibind.
  destruct (Z.eq_dec nh 0) as [->|Hnh].
  - exists ZeroDivisionError. reflexivity.
  - destruct H as [H|Hf]; [contradiction|].
    destruct (MultiHeadSelfAttention_init_ok g He Hnh)
      as (a & g1 & Ea & _).
    rewrite Ea.
    destruct (nn_LayerNorm_ok g1 He) as (n1 & En1 & _). rewrite En1.
    unfold FeedForwardNetwork_init, ibind.
    rewrite (nn_Linear_neg (i := e) (o := f) g1) by (right; exact Hf).
    exists RuntimeError. reflexivity.
Qed.

Lemma CustomTransformer_init_no_layers (v e nh f nl c : Z) (g : G) :
  (0 <= v)%Z -> (0 <= e)%Z -> (0 <= c)%Z -> (nl <= 0)%Z ->
  exists (m : @CustomTransformer T) (g' : G),
    CustomTransformer_init v e nh f nl c g = Ok (m, g') /\ layers m = [].
Proof.
  intros Hv He Hc Hnl. unfold CustomTransformer_init, ibind.
  destruct (nn_Embedding_ok g Hv He) as (emb & g1 & Ee & _). rewrite Ee.
  unfold lift, torch_full.
  rewrite nonneg_shape_true by (repeat constructor; lia).
  unfold py_range. replace (Z.to_nat nl) with 0 by lia. simpl.
  destruct (nn_Linear_ok (i := e) (o := c) g1 He Hc) as (l & g2 & El & _).
  unfold iret. rewrite El. eexists; eexists. split; reflexivity.
Qed.

(** X7: construction of [CustomTransformer] succeeds exactly when
    [vocab_size = v], [embed_dim = e] and [num_classes = c] are not
    negative and, if [num_layers = nl] is positive, [num_heads = nh] is
    not 0 and [ff_dim = f] is not negative; whether [num_heads] divides
    [embed_dim] plays no part. *)
Theorem CustomTransformer_construction_succeeds_iff
    (v e nh f nl c : Z) (g : G) :
  (exists (m : @CustomTransformer T) (g' : G),
      CustomTransformer_init v e nh f nl c g = Ok (m, g'))
  <-> ((0 <= v)%Z /\ (0 <= e)%Z /\ (0 <= c)%Z /\
       ((nl <= 0)%Z \/ (nh <> 0%Z /\ (0 <= f)%Z))).
Proof.
  split.
  - intros (m & g' & E).
    unfold CustomTransformer_init, ibind in E.
    destruct (Z.le_gt_cases 0 v) as [Hv|Hv];
      [|rewrite nn_Embedding_neg in E by (left; lia); discriminate].
    destruct (Z.le_gt_cases 0 e) as [He|He];
      [|rewrite nn_Embedding_neg in E by (right; lia); discriminate].
    destruct (nn_Embedding_ok g Hv He) as (emb & g1 & Ee & _).
    rewrite Ee in E. unfold lift, torch_full in E.
    rewrite nonneg_shape_true in E by (repeat constructor; lia).
    assert (Hl : (nl <= 0)%Z \/ (nh <> 0%Z /\ (0 <= f)%Z)).
    { destruct (Z.le_gt_cases nl 0) as [Hnl|Hnl]; [left; exact Hnl|].
      right. unfold py_range in E.
      destruct (Z.to_nat nl) as [|k] eqn:Ek; [lia|].
      simpl in E. unfold ibind in E.
      destruct (Z.eq_dec nh 0) as [Hnh|Hnh].
      - destruct (TransformerBlock_init_fails e nh f g1 He (or_introl Hnh))
          as (err & Eb).
        rewrite Eb in E. discriminate.
      - split; [exact Hnh|].
        destruct (Z.le_gt_cases 0 f) as [Hf|Hf]; [exact Hf|].
        destruct (TransformerBlock_init_fails e nh f g1 He (or_intror Hf))
          as (err & Eb).
        rewrite Eb in E. discriminate. }
    repeat split; try assumption.
    destruct (Z.le_gt_cases 0 c) as [Hc|Hc]; [exact Hc|].
    destruct (replicate_init _ _ g1) as [[ls g2]|]; [|discriminate].
    rewrite (nn_Linear_neg (i := e) (o := c) g2) in E by (right; lia).
    discriminate.
  - intros (Hv & He & Hc & [Hnl|(Hnh & Hf)]).
    + destruct (CustomTransformer_init_no_layers v e nh f nl c g Hv He Hc Hnl)
        as (m & g' & E & _).
      exists m, g'. exact E.
    + destruct (CustomTransformer_init_ok nl g Hv He Hnh Hf Hc)
        as (m & g' & E & _).
      exists m, g'. exact E.
Qed.

(** X8: a model built with a positive head count that divides
    [embed_dim] has [max(num_layers, 0)] blocks and returns, for every
    batch of at most 100 positions with token ids below [vocab_size],
    logits of shape (batch, num_classes). *)
Theorem constructed_model_accepts_valid_batches
    (vocab_size ed nh ff_dim num_layers num_classes : Z) (g : G)
    (B L : nat) (x : tensor Z) :
  (0 <= vocab_size)%Z -> (0 <= ed)%Z -> (0 < nh)%Z -> (ed mod nh = 0)%Z ->
  (0 <= ff_dim)%Z -> (0 <= num_classes)%Z ->
  shape x = [B; L] -> L <= 100 -> tokens_in_range (Z.to_nat vocab_size) x ->
  exists (m : @CustomTransformer T) (g' : G) (y : tensor T),
    CustomTransformer_init vocab_size ed nh ff_dim num_layers num_classes g
    = Ok (m, g') /\
    length (layers m) = Z.to_nat num_layers /\
    CustomTransformer_forward m x = Ok y /\
    shape y = [B; Z.to_nat num_classes].
Proof.
  intros Hv He Hnh Hmod Hf Hc Hx HL Hr.
  destruct (CustomTransformer_init_wf num_layers g Hv He Hnh Hmod Hf Hc)
    as (m & g' & Em & Hwf).
  destruct (CustomTransformer_init_ok num_layers g Hv He
              (nh := nh) ltac:(lia) Hf Hc) as (m' & g'' & Em' & _ & Hlen & _).
  rewrite Em in Em'. injection Em' as <- <-.
  destruct (CustomTransformer_forward_ref Hwf Hx HL Hr)
    as (h & y & _ & Hy & -> & _).
  exists m, g'. eexists.
  split; [exact Em|]. split; [exact Hlen|]. split; [exact Hy|reflexivity].
Qed.

End Construction.

Lemma constructed_model_accepts_valid_batches_witness :
  exists (m : @CustomTransformer R) (g' : nat) (y : tensor R),
    CustomTransformer_init 128 256 8 512 4 3 0 = Ok (m, g') /\
    length (layers m) = Z.to_nat 4 /\
    CustomTransformer_forward m tokens_b = Ok y /\
    shape y = [1; Z.to_nat 3].
Proof.
  apply (constructed_model_accepts_valid_batches (T := R) (G := nat)
           128 256 8 512 4 3 0 1 2 tokens_b).
  - lia.
  - lia.
  - lia.
  - reflexivity.
  - lia.
  - lia.
  - reflexivity.
  - lia.
  - wf_example.
Defined.

(** ** Splitting into heads and merging back *)

Section Heads.

Context {T : Type} {AT : Arith T}.

(** X9: merging the heads undoes splitting them: on a tensor of shape
    (batch, seq_len, embed_dim), the [view]/[transpose] that [forward]
    applies to the projections followed by the [transpose]/[view] it
    applies to the attention output gives the tensor back. *)
Theorem merge_heads_inverts_split_heads (e B L : nat)
    (self : MultiHeadSelfAttention) (t : tensor T) :
  embed_dim self = Z.of_nat e -> valid_heads self ->
  wf_tensor t -> shape t = [B; L; e] ->
  (q <- split_heads self B L t ;;
   qt <- transpose q 1 2 ;;
   view (contiguous qt) [Z.of_nat B; Z.of_nat L; Z.of_nat e])
  = Ok t.
Proof.
  intros He Hv Hwf Hsh.
  destruct (valid_heads_nat e He Hv) as (NH & HD & Hnh & Hhd & Hmul & Hpos).
  subst e. unfold split_heads. rewrite Hnh, Hhd.
  rewrite (view_split NH HD Hwf Hsh). cbn [bind].
  rewrite transpose_1_2. cbn [bind].
  rewrite transpose_1_2. cbn [bind].
  rewrite view_merge. f_equal.
  apply (tensor_ext zero).
  - apply wf_mk.
  - exact Hwf.
  - symmetry. exact Hsh.
  - intros idx Hidx. cbn [shape mk] in Hidx.
    rewrite get_mk by exact Hidx.
    ix_inv Hidx. rename i1 into c.
    assert (HD <> 0) by (intros ->; lia).
    rewrite (Nat.mul_comm (c / HD) HD), <- Nat.div_mod_eq. reflexivity.
Qed.

End Heads.

Lemma merge_heads_inverts_split_heads_witness :
  (q <- split_heads pad_attention 1 2 ones_122 ;;
   qt <- transpose q 1 2 ;;
   view (contiguous qt) [Z.of_nat 1; Z.of_nat 2; Z.of_nat 2])
  = Ok ones_122.
Proof.
  apply (merge_heads_inverts_split_heads 2 1 2 pad_attention ones_122).
  - reflexivity.
  - unfold valid_heads. simpl. repeat split; reflexivity.
  - reflexivity.
  - reflexivity.
Defined.

(** ** Selecting samples and reordering positions *)

Section Gather.

Context {T : Type} {AT : Arith T}.

Variables (beta sigma : nat -> nat) (B B' L : nat).

Hypothesis beta_lt : forall b, b < B' -> beta b < B.
Hypothesis sigma_lt : forall i, i < L -> sigma i < L.

(** Sums over the positions do not depend on the order [sigma] visits
    them in. *)
Hypothesis sum_sigma :
  forall f : nat -> T, sum_n L (fun j => f (sigma j)) = sum_n L f.

Lemma gathered_Linear (e o : nat) (l : Linear) (x x' : tensor T) :
  wf_Linear e o l -> gathered beta sigma B B' L e x x' ->
  exists y y' : tensor T,
    Linear_forward l x = Ok y /\ Linear_forward l x' = Ok y' /\
    gathered beta sigma B B' L o y y'.
Proof.
  intros Hl (Hx & Hx' & Hg).
  rewrite (Linear_forward_eq x [B; L] Hl Hx).
  rewrite (Linear_forward_eq x' [B'; L] Hl Hx').
  eexists; eexists. split; [reflexivity|]. split; [reflexivity|].
  split; [reflexivity|]. split; [reflexivity|].
  intros b i d Hb Hi Hd.
  rewrite !tget_mk by (simpl; ix_range; auto).
  unfold lead_ix, last_ix. simpl. f_equal.
  apply sum_n_ext. intros k Hk. rewrite Hg by assumption. reflexivity.
Qed.

Lemma gathered_ref_concat (NH HD : nat) (scale : T) (Q K V Q' K' V' : tensor T) :
  gathered beta sigma B B' L (NH * HD) Q Q' ->
  gathered beta sigma B B' L (NH * HD) K K' ->
  gathered beta sigma B B' L (NH * HD) V V' ->
  gathered beta sigma B B' L (NH * HD)
    (ref_concat HD B L (NH * HD) scale Q K V)
    (ref_concat HD B' L (NH * HD) scale Q' K' V').
Proof.
  intros (_ & _ & HQ) (_ & _ & HK) (_ & _ & HV).
  split; [reflexivity|]. split; [reflexivity|].
  intros b i c Hb Hi Hc.
  unfold ref_concat. rewrite !tget_mk by (ix_range; auto).
  assert (HD0 : HD <> 0) by (intros ->; lia).
  assert (Hh : c / HD < NH) by (apply Nat.Div0.div_lt_upper_bound; lia).
  assert (Hd : c mod HD < HD) by (apply Nat.mod_upper_bound; exact HD0).
  set (h := c / HD) in *. set (d := c mod HD) in *.
  assert (Hin : forall d', d' < HD -> h * HD + d' < NH * HD) by (intros; nia).
  assert (Hs : forall i' j, i' < L -> j < L ->
             ref_scores HD scale Q' K' b h i' j
             = ref_scores HD scale Q K (beta b) h (sigma i') (sigma j)).
  { intros i' j Hi' Hj. unfold ref_scores. f_equal.
    apply sum_n_ext. intros d' Hd'. unfold head_slice.
    rewrite HQ, HK by auto. reflexivity. }
  assert (Hw : forall j, j < L ->
             ref_weights HD L scale Q' K' b h i j
             = ref_weights HD L scale Q K (beta b) h (sigma i) (sigma j)).
  { intros j Hj. unfold ref_weights. rewrite Hs by assumption. f_equal.
    rewrite <- (sum_sigma (fun k =>
                  texp (ref_scores HD scale Q K (beta b) h (sigma i) k))).
    apply sum_n_ext. intros k Hk. rewrite Hs by assumption. reflexivity. }
  unfold ref_head_out.
  rewrite <- (sum_sigma (fun j =>
                mul (ref_weights HD L scale Q K (beta b) h (sigma i) j)
                    (head_slice HD V (beta b) h j d))).
  apply sum_n_ext. intros j Hj. rewrite Hw by assumption.
  unfold head_slice. rewrite HV by auto. reflexivity.
Qed.

Lemma gathered_attention (e : nat) (self : MultiHeadSelfAttention)
    (x x' : tensor T) :
  wf_MHA e self -> gathered beta sigma B B' L e x x' ->
  exists y y' : tensor T,
    MultiHeadSelfAttention_forward self x = Ok y /\
    MultiHeadSelfAttention_forward self x' = Ok y' /\
    gathered beta sigma B B' L e y y'.
Proof.
  intros Hwf Hg. pose proof Hg as (Hx & Hx' & _).
  destruct (MultiHeadSelfAttention_forward_ref x Hwf Hx)
    as (y & Hy & Hr & _).
  destruct (MultiHeadSelfAttention_forward_ref x' Hwf Hx')
    as (y' & Hy' & Hr' & _).
  exists y, y'. split; [exact Hy|]. split; [exact Hy'|].
  destruct Hwf as ((He & Hq & Hk & Hv & Ho) & Hvalid).
  destruct (valid_heads_nat e He Hvalid) as (NH & HD & Hnh & Hhd & Hmul & _).
  subst e. unfold ref_attention in Hr, Hr'. rewrite Hx in Hr. rewrite Hx' in Hr'.
  destruct (gathered_Linear _ _ _ _ _ Hq Hg) as (Q & Q' & EQ & EQ' & HQ).
  destruct (gathered_Linear _ _ _ _ _ Hk Hg) as (K & K' & EK & EK' & HK).
  destruct (gathered_Linear _ _ _ _ _ Hv Hg) as (V & V' & EV & EV' & HV).
  rewrite EQ, EK, EV in Hr. rewrite EQ', EK', EV' in Hr'.
  cbn [bind] in Hr, Hr'. rewrite Hhd, Nat2Z.id in Hr, Hr'.
  destruct (gathered_Linear _ _ _ _ _ Ho
              (gathered_ref_concat NH HD (tsqrt (of_Z (Z.of_nat HD)))
                 _ _ _ _ _ _ HQ HK HV))
    as (z & z' & Ez & Ez' & Hz).
  rewrite Ez in Hr. rewrite Ez' in Hr'.
  injection Hr as <-. injection Hr' as <-. exact Hz.
Qed.

Lemma ref_normalize_ext (n : nat) (gamma bta : tensor T) (v v' : nat -> T)
    (d : nat) :
  (forall k, k < n -> v k = v' k) -> d < n ->
  ref_normalize n gamma bta v d = ref_normalize n gamma bta v' d.
Proof.
  intros Hv Hd. unfold ref_normalize.
  rewrite (sum_n_ext v v' Hv).
  rewrite (Hv d Hd).
  f_equal. f_equal. f_equal. f_equal. f_equal. f_equal.
  apply sum_n_ext. intros k Hk. rewrite (Hv k Hk). reflexivity.
Qed.

Lemma gathered_add_norm (e : nat) (ln : LayerNorm) (x y x' y' : tensor T) :
  gathered beta sigma B B' L e x x' -> gathered beta sigma B B' L e y y' ->
  gathered beta sigma B B' L e
    (ref_add_norm B L e ln x y) (ref_add_norm B' L e ln x' y').
Proof.
  intros (_ & _ & Hx) (_ & _ & Hy).
  split; [reflexivity|]. split; [reflexivity|].
  intros b i d Hb Hi Hd. unfold ref_add_norm.
  rewrite !tget_mk by (ix_range; auto).
  apply ref_normalize_ext; [|exact Hd].
  intros k Hk. rewrite Hx, Hy by assumption. reflexivity.
Qed.

Lemma gathered_ffn (e f : nat) (m : FeedForwardNetwork) (x x' : tensor T) :
  gathered beta sigma B B' L e x x' ->
  gathered beta sigma B B' L e
    (ref_ffn B L e f m x) (ref_ffn B' L e f m x').
Proof.
  intros (_ & _ & Hx).
  split; [reflexivity|]. split; [reflexivity|].
  intros b i d Hb Hi Hd. unfold ref_ffn.
  rewrite !tget_mk by (ix_range; auto).
  f_equal. apply sum_n_ext. intros j Hj. f_equal. f_equal. f_equal.
  apply sum_n_ext. intros k Hk. rewrite Hx by assumption. reflexivity.
Qed.

Lemma gathered_block (e f : nat) (self : TransformerBlock) (x x' : tensor T) :
  wf_Block e f self -> gathered beta sigma B B' L e x x' ->
  exists y y' : tensor T,
    TransformerBlock_forward self x = Ok y /\
    TransformerBlock_forward self x' = Ok y' /\
    gathered beta sigma B B' L e y y'.
Proof.
  intros Hwf Hg. pose proof Hg as (Hx & Hx' & _).
  destruct (TransformerBlock_forward_ref x Hwf Hx) as (y & Hy & Hr & _).
  destruct (TransformerBlock_forward_ref x' Hwf Hx') as (y' & Hy' & Hr' & _).
  exists y, y'. split; [exact Hy|]. split; [exact Hy'|].
  destruct Hwf as ((Hm & Hn1 & Hf & Hn2) & Hv).
  destruct (gathered_attention e (attention self) x x' (conj Hm Hv) Hg)
    as (a & a' & Ea & Ea' & Ha).
  unfold ref_block in Hr, Hr'. rewrite Hx, Ea in Hr. rewrite Hx', Ea' in Hr'.
  cbn [bind] in Hr, Hr'.
  pose proof (gathered_add_norm e (norm1 self) x a x' a' Hg Ha) as H1.
  rewrite (FeedForwardNetwork_forward_ref (B := B) (L := L) _ Hf) in Hr
    by reflexivity.
  rewrite (FeedForwardNetwork_forward_ref (B := B') (L := L) _ Hf) in Hr'
    by reflexivity.
  cbn [bind] in Hr, Hr'. injection Hr as <-. injection Hr' as <-.
  apply gathered_add_norm; [exact H1|].
  apply gathered_ffn. exact H1.
Qed.

Lemma gathered_layers (e f : nat) (ls : list TransformerBlock) :
  Forall (wf_Block e f) ls ->
  forall x x' : tensor T,
  gathered beta sigma B B' L e x x' ->
  exists y y' : tensor T,
    apply_layers ls x = Ok y /\ apply_layers ls x' = Ok y' /\
    gathered beta sigma B B' L e y y'.
Proof.
  induction 1 as [|b ls Hb _ IH]; intros x x' Hg; simpl.
  - exists x, x'. repeat split; try reflexivity; apply Hg.
  - destruct (gathered_block e f b x x' Hb Hg) as (y & y' & Ey & Ey' & Hy).
    rewrite Ey, Ey'. cbn [bind]. apply IH, Hy.
Qed.

Lemma gathered_embed (e : nat) (self : CustomTransformer) (x x' : tensor Z) :
  gathered_tokens beta sigma B B' L x x' ->
  (forall i d, i < L -> d < e ->
     tget (positional_encoding self) [0; i; d]
     = tget (positional_encoding self) [0; sigma i; d]) ->
  gathered beta sigma B B' L e
    (ref_embed B L e self x) (ref_embed B' L e self x').
Proof.
  intros (_ & _ & Hx) Hp.
  split; [reflexivity|]. split; [reflexivity|].
  intros b i d Hb Hi Hd. unfold ref_embed.
  rewrite !tget_mk by (ix_range; auto).
  rewrite Hx, Hp by assumption. reflexivity.
Qed.

Lemma gathered_forward (v e f c : nat) (self : CustomTransformer)
    (x x' : tensor Z) :
  wf_CT v e f c self -> L <= 100 ->
  tokens_in_range v x -> tokens_in_range v x' ->
  gathered_tokens beta sigma B B' L x x' ->
  (forall i d, i < L -> d < e ->
     tget (positional_encoding self) [0; i; d]
     = tget (positional_encoding self) [0; sigma i; d]) ->
  exists y y' : tensor T,
    CustomTransformer_forward self x = Ok y /\
    CustomTransformer_forward self x' = Ok y' /\
    shape y = [B; c] /\ shape y' = [B'; c] /\
    wf_tensor y /\ wf_tensor y' /\
    forall b k, b < B' -> k < c -> tget y' [b; k] = tget y [beta b; k].
Proof.
  intros Hwf HL Hr Hr' Hg Hp. pose proof Hg as (Hx & Hx' & _).
  destruct (CustomTransformer_forward_ref Hwf Hx HL Hr)
    as (h & y & Hh & Hy & -> & _).
  destruct (CustomTransformer_forward_ref Hwf Hx' HL Hr')
    as (h' & y' & Hh' & Hy' & -> & _).
  eexists; eexists. split; [exact Hy|]. split; [exact Hy'|].
  split; [reflexivity|]. split; [reflexivity|].
  split; [apply wf_mk|]. split; [apply wf_mk|].
  destruct (gathered_layers e f (layers self) (wf_CT_layers Hwf)
              _ _ (gathered_embed e self x x' Hg Hp))
    as (z & z' & Ez & Ez' & (_ & _ & Hz)).
  rewrite Ez in Hh. rewrite Ez' in Hh'.
  injection Hh as <-. injection Hh' as <-.
  intros b k Hb Hk. unfold ref_logits.
  rewrite !tget_mk by (ix_range; auto).
  f_equal. apply sum_n_ext. intros d Hd. f_equal.
  unfold ref_pool. f_equal.
  rewrite <- (sum_sigma (fun s => tget z [beta b; s; d])).
  apply sum_n_ext. intros s Hs. apply Hz; assumption.
Qed.

End Gather.

(** ** A sample does not see the rest of its batch *)

Ltac ix_ok :=
  unfold in_range;
  repeat (apply Forall2_cons || apply Forall2_nil);
  try assumption; try lia.

Lemma Forall_tab (A : Type) (P : A -> Prop) (sh : list nat)
    (f : list nat -> A) :
  (forall idx, in_range sh idx -> P (f idx)) -> Forall P (tab sh f).
Proof.
  revert f. induction sh as [|n sh IH]; intros f H; simpl.
  - constructor; [|constructor]. apply H. constructor.
  - assert (E : forall a, (forall i, In i (seq a n) -> i < n) ->
             Forall P (flat_map (fun i => tab sh (fun idx => f (i :: idx)))
                                (seq a n))).
    { intros a Ha. induction (seq a n) as [|i l IHl]; simpl; [constructor|].
      apply Forall_app. split.
      - apply IH. intros idx Hidx. apply H. constructor; [|exact Hidx].
        apply Ha. left. reflexivity.
      - apply IHl. intros k Hk. apply Ha. right. exact Hk. }
    apply E. intros i Hi. apply in_seq in Hi. lia.
Qed.

(** Row [b] of a batch of token ids, as a batch of one sample. *)
Lemma row_tokens_in_range (v B L b : nat) (x : tensor Z) :
  wf_tensor x -> shape x = [B; L] -> b < B -> tokens_in_range v x ->
  tokens_in_range v
    (mk [1; L] (fun idx => get 0%Z x [b; nth 1 idx 0])).
Proof.
  intros Hwf Hx Hb Hr. unfold tokens_in_range. cbn [data mk].
  apply Forall_tab. intros idx Hidx. ix_inv Hidx. cbn [nth].
  unfold tokens_in_range in Hr. rewrite Forall_forall in Hr. apply Hr.
  unfold get. apply nth_In. rewrite Hwf, Hx.
  apply (offset_lt (sh := [B; L]) (idx := [b; i0])). ix_ok.
Qed.

Section Batch.

Context {T : Type} {AT : Arith T}.

(** X10: the logits of a sample do not depend on the other samples of
    its batch: two batches that hold the same token sequence, at row [b]
    of one and row [b'] of the other, get the same logits at those
    rows. *)
Theorem logits_of_a_sample_ignore_its_batch (v e f c B B' L b b' : nat)
    (self : CustomTransformer) (x x' : tensor Z) :
  wf_CT v e f c self -> L <= 100 ->
  wf_tensor x -> shape x = [B; L] -> tokens_in_range v x ->
  wf_tensor x' -> shape x' = [B'; L] -> tokens_in_range v x' ->
  b < B -> b' < B' ->
  (forall s, s < L -> get 0%Z x [b; s] = get 0%Z x' [b'; s]) ->
  exists y y' : tensor T,
    CustomTransformer_forward self x = Ok y /\
    CustomTransformer_forward self x' = Ok y' /\
    forall k, k < c -> tget y [b; k] = tget y' [b'; k].
Proof.
  intros Hwf HL Hwx Hx Hr Hwx' Hx' Hr' Hb Hb' Hrow.
  set (x1 := mk [1; L] (fun idx => get 0%Z x [b; nth 1 idx 0])).
  set (x1' := mk [1; L] (fun idx => get 0%Z x' [b'; nth 1 idx 0])).
  assert (E1 : x1 = x1').
  { apply mk_ext. intros idx Hidx. ix_inv Hidx. cbn [nth].
    apply Hrow. assumption. }
  assert (Hid : forall g : nat -> T,
             sum_n L (fun j => g ((fun i : nat => i) j)) = sum_n L g)
    by reflexivity.
  destruct (gathered_forward (fun _ => b) (fun i => i) B 1 L
              (fun _ _ => Hb) (fun _ H => H) Hid
              v e f c self x x1 Hwf HL Hr
              (row_tokens_in_range v B L b x Hwx Hx Hb Hr))
    as (y & y1 & Ey & Ey1 & _ & _ & _ & _ & H1).
  { split; [exact Hx|]. split; [reflexivity|].
    intros b0 i Hb0 Hi. unfold x1. rewrite get_mk by ix_ok. reflexivity. }
  { intros i d _ _. reflexivity. }
  destruct (gathered_forward (fun _ => b') (fun i => i) B' 1 L
              (fun _ _ => Hb') (fun _ H => H) Hid
              v e f c self x' x1' Hwf HL Hr'
              (row_tokens_in_range v B' L b' x' Hwx' Hx' Hb' Hr'))
    as (y' & y1' & Ey' & Ey1' & _ & _ & _ & _ & H1').
  { split; [exact Hx'|]. split; [reflexivity|].
    intros b0 i Hb0 Hi. unfold x1'. rewrite get_mk by ix_ok. reflexivity. }
  { intros i d _ _. reflexivity. }
  exists y, y'. split; [exact Ey|]. split; [exact Ey'|].
  intros k Hk. rewrite <- E1 in Ey1'. rewrite Ey1 in Ey1'.
  injection Ey1' as <-.
  rewrite <- (H1 0 k) by lia. apply (H1' 0 k); lia.
Qed.

End Batch.

Lemma logits_of_a_sample_ignore_its_batch_witness :
  exists y y' : tensor R,
    CustomTransformer_forward pad_model tokens_b = Ok y /\
    CustomTransformer_forward pad_model
      (Tensor [2; 2] [67; 0; 67; 5]%Z) = Ok y' /\
    forall k, k < 1 -> tget y [0; k] = tget y' [1; k].
Proof.
  apply (logits_of_a_sample_ignore_its_batch 128 2 2 1 1 2 2 0 1
           pad_model tokens_b (Tensor [2; 2] [67; 0; 67; 5]%Z)).
  - wf_example.
  - lia.
  - reflexivity.
  - reflexivity.
  - wf_example.
  - reflexivity.
  - reflexivity.
  - wf_example.
  - lia.
  - lia.
  - intros s Hs. destruct s as [|[|s]]; [reflexivity|reflexivity|lia].
Defined.

(** ** Reordering the positions, over the real numbers *)

Local Open Scope R_scope.

Lemma fold_left_list_sum (g : nat -> R) (l : list nat) (a : R) :
  fold_left (fun acc k => acc + g k) l a
  = a + fold_right Rplus 0 (map g l).
Proof.
  revert a. induction l as [|k l IH]; intros a; simpl.
  - ring.
  - rewrite IH. ring.
Qed.

Lemma list_sum_permutation (l l' : list R) :
  Permutation l l' -> fold_right Rplus 0 l = fold_right Rplus 0 l'.
Proof.
  induction 1; simpl; lra.
Qed.

Lemma NoDup_map_on (sigma : nat -> nat) (l : list nat) :
  NoDup l ->
  (forall i j, In i l -> In j l -> sigma i = sigma j -> i = j) ->
  NoDup (map sigma l).
Proof.
  induction 1 as [|a l Ha Hl IH]; intros Hinj; simpl; constructor.
  - intros Hin. apply in_map_iff in Hin. destruct Hin as (j & Ej & Hj).
    assert (j = a).
    { apply Hinj; [right; exact Hj|left; reflexivity|exact Ej]. }
    subst j. contradiction.
  - apply IH. intros i j Hi Hj. apply Hinj; right; assumption.
Qed.

Lemma sum_n_permutation (L : nat) (sigma : nat -> nat) :
  permutation_of L sigma ->
  forall f : nat -> R, sum_n L (fun j => f (sigma j)) = sum_n L f.
Proof.
  intros (Hlt & Hinj) f. unfold sum_n. simpl.
  rewrite (fold_left_list_sum (fun j => f (sigma j))).
  rewrite (fold_left_list_sum f).
  f_equal. rewrite <- (map_map sigma f).
  apply list_sum_permutation, Permutation_map.
  apply NoDup_Permutation_bis.
  - apply NoDup_map_on; [apply seq_NoDup|].
    intros i j Hi Hj. apply in_seq in Hi, Hj. apply Hinj; lia.
  - rewrite length_map. apply Nat.le_refl.
  - intros k Hk. apply in_map_iff in Hk. destruct Hk as (j & <- & Hj).
    apply in_seq in Hj. apply in_seq. specialize (Hlt j). lia.
Qed.

(** X11: the attention layer has no notion of position: over the real
    numbers, reordering the positions of its input reorders the positions
    of its output in the same way. *)
Theorem attention_commutes_with_reordering (e B L : nat)
    (sigma : nat -> nat) (self : @MultiHeadSelfAttention R)
    (x x' : tensor R) :
  wf_MHA e self -> permutation_of L sigma ->
  shape x = [B; L; e]%nat -> shape x' = [B; L; e]%nat ->
  (forall b i d, (b < B)%nat -> (i < L)%nat -> (d < e)%nat ->
     tget x' [b; i; d]%nat = tget x [b; sigma i; d]%nat) ->
  exists y y' : tensor R,
    MultiHeadSelfAttention_forward self x = Ok y /\
    MultiHeadSelfAttention_forward self x' = Ok y' /\
    forall b i d, (b < B)%nat -> (i < L)%nat -> (d < e)%nat ->
      tget y' [b; i; d]%nat = tget y [b; sigma i; d]%nat.
Proof.
  intros Hwf Hp Hx Hx' Hg.
  destruct (gathered_attention (fun b => b) sigma B B L
              (fun _ H => H) (proj1 Hp) (sum_n_permutation L sigma Hp)
              e self x x' Hwf (conj Hx (conj Hx' Hg)))
    as (y & y' & Ey & Ey' & (_ & _ & H)).
  exists y, y'. split; [exact Ey|]. split; [exact Ey'|]. exact H.
Qed.

Lemma swap01_permutation : permutation_of 2 swap01.
Proof.
  split.
  - intros [|[|i]] H; simpl; lia.
  - intros [|[|i]] [|[|j]] Hi Hj E; simpl in E; lia.
Qed.

Lemma attention_commutes_with_reordering_witness :
  exists y y' : tensor R,
    MultiHeadSelfAttention_forward pad_attention
      (Tensor [1; 2; 2]%nat [1; 2; 3; 4]) = Ok y /\
    MultiHeadSelfAttention_forward pad_attention
      (Tensor [1; 2; 2]%nat [3; 4; 1; 2]) = Ok y' /\
    forall b i d, (b < 1)%nat -> (i < 2)%nat -> (d < 2)%nat ->
      tget y' [b; i; d]%nat = tget y [b; swap01 i; d]%nat.
Proof.
  apply (attention_commutes_with_reordering 2 1 2 swap01 pad_attention
           (Tensor [1; 2; 2]%nat [1; 2; 3; 4])
           (Tensor [1; 2; 2]%nat [3; 4; 1; 2])).
  - wf_example.
  - exact swap01_permutation.
  - reflexivity.
  - reflexivity.
  - intros b i d Hb Hi Hd.
    destruct b as [|b]; [|lia].
    destruct i as [|[|i]]; [| |lia];
      (destruct d as [|[|d]]; [reflexivity|reflexivity|lia]).
Defined.

Lemma CustomTransformer_init_positional (T G : Type) (AT : Arith T)
    (RG : Rng T G) (v e nh f nl c : Z) (g g' : G)
    (m : @CustomTransformer T) :
  CustomTransformer_init v e nh f nl c g = Ok (m, g') ->
  positional_encoding m = mk [1; 100; Z.to_nat e]%nat (fun _ => zero).
Proof.
  unfold CustomTransformer_init, ibind, lift, torch_full, iret. intros E.
  destruct (nn_Embedding v e g) as [[emb g1]|]; [|discriminate].
  destruct (nonneg_shape [1; 100; e]%Z); [|discriminate].
  destruct (replicate_init _ _ g1) as [[ls g2]|]; [|discriminate].
  destruct (nn_Linear e c g2) as [[l g3]|]; [|discriminate].
  injection E as <- _. reflexivity.
Qed.

(** X12: a model as the constructor leaves it cannot tell the order of the
    tokens: its positional encoding is all zeros, attention and pooling
    treat positions alike, so over the real numbers a batch and the same
    batch with its positions reordered get the same logits. *)
Theorem fresh_model_ignores_token_order (G : Type) (RG : Rng R G)
    (v e nh f nl c : Z) (g : G) (B L : nat) (sigma : nat -> nat)
    (x x' : tensor Z) :
  (0 <= v)%Z -> (0 <= e)%Z -> (0 < nh)%Z -> (e mod nh = 0)%Z ->
  (0 <= f)%Z -> (0 <= c)%Z ->
  permutation_of L sigma -> (L <= 100)%nat ->
  shape x = [B; L]%nat -> shape x' = [B; L]%nat ->
  tokens_in_range (Z.to_nat v) x -> tokens_in_range (Z.to_nat v) x' ->
  (forall b i, (b < B)%nat -> (i < L)%nat ->
     get 0%Z x' [b; i]%nat = get 0%Z x [b; sigma i]%nat) ->
  exists (m : @CustomTransformer R) (g' : G) (y : tensor R),
    CustomTransformer_init v e nh f nl c g = Ok (m, g') /\
    CustomTransformer_forward m x = Ok y /\
    CustomTransformer_forward m x' = Ok y.
Proof.
  intros Hv He Hnh Hmod Hf Hc Hp HL Hx Hx' Hr Hr' Hg.
  destruct (CustomTransformer_init_wf nl g Hv He Hnh Hmod Hf Hc)
    as (m & g' & Em & Hwf).
  pose proof (CustomTransformer_init_positional _ _ _ _ _ _ _ _ _ _ _ _ _ Em)
    as Hpos.
  destruct (gathered_forward (fun b => b) sigma B B L
              (fun _ H => H) (proj1 Hp) (sum_n_permutation L sigma Hp)
              _ _ _ _ m x x' Hwf HL Hr Hr' (conj Hx (conj Hx' Hg)))
    as (y & y' & Ey & Ey' & Hs & Hs' & Hw & Hw' & H).
  { intros i d Hi Hd. rewrite Hpos.
    pose proof (proj1 Hp i Hi).
    rewrite !tget_mk by ix_ok. reflexivity. }
  exists m, g', y. split; [exact Em|]. split; [exact Ey|].
  rewrite Ey'. f_equal.
  apply (tensor_ext 0 Hw' Hw); [congruence|].
  intros idx Hidx. rewrite Hs' in Hidx. ix_inv Hidx.
  apply H; assumption.
Qed.

Lemma fresh_model_ignores_token_order_witness :
  exists (m : @CustomTransformer R) (g' : nat) (y : tensor R),
    CustomTransformer_init 128 256 8 512 4 3 0%nat = Ok (m, g') /\
    CustomTransformer_forward m (Tensor [1; 2]%nat [67; 79]%Z) = Ok y /\
    CustomTransformer_forward m (Tensor [1; 2]%nat [79; 67]%Z) = Ok y.
Proof.
  apply (fresh_model_ignores_token_order nat counter_Rng
           128 256 8 512 4 3 0%nat 1 2 swap01
           (Tensor [1; 2]%nat [67; 79]%Z) (Tensor [1; 2]%nat [79; 67]%Z)).
  - lia.
  - lia.
  - lia.
  - reflexivity.
  - lia.
  - lia.
  - exact swap01_permutation.
  - lia.
  - reflexivity.
  - reflexivity.
  - wf_example.
  - wf_example.
  - intros b i Hb Hi.
    destruct b as [|b]; [|lia].
    destruct i as [|[|i]]; [reflexivity|reflexivity|lia].
Defined.

(** ** Normalised vectors *)

Lemma sum_n_affine_R (n : nat) (a c : R) (f : nat -> R) :
  sum_n n (fun d => a * f d + c) = a * sum_n n f + INR n * c.
Proof.
  induction n as [|n IH].
  - unfold sum_n; simpl. ring.
  - rewrite !sum_n_S, IH, S_INR. simpl. ring.
Qed.

Lemma ref_normalize_sum_zero (n : nat) (v : nat -> R) :
  sum_n n (fun d =>
             ref_normalize n (mk [n] (fun _ => 1)) (mk [n] (fun _ => 0)) v d)
  = 0.
Proof.
  unfold ref_normalize.
  set (mu := div (sum_n n v) (of_Z (Z.of_nat n))).
  set (s := tsqrt (add (div (sum_n n (fun k =>
                 let c := sub (v k) mu in mul c c)) (of_Z (Z.of_nat n)))
               ln_eps)).
  clearbody s.
  transitivity (sum_n n (fun d => / s * v d + (- mu * / s))).
  - apply sum_n_ext. intros d Hd.
    rewrite !tget_mk by ix_ok. simpl. unfold Rdiv, Rminus. ring.
  - rewrite sum_n_affine_R.
    destruct n as [|n].
    + unfold sum_n; simpl. ring.
    + assert (Hn : INR (S n) <> 0) by (apply not_0_INR; discriminate).
      unfold mu.
      change (div (sum_n (S n) v) (of_Z (Z.of_nat (S n))))
        with (sum_n (S n) v / IZR (Z.of_nat (S n))).
      rewrite <- INR_IZR_INZ.
      generalize (/ s). intros r. generalize (sum_n (S n) v). intros t.
      field. exact Hn.
Qed.

Lemma TransformerBlock_init_norm2 (G : Type) (RG : Rng R G) (e nh f : Z)
    (g g' : G) (blk : @TransformerBlock R) :
  TransformerBlock_init e nh f g = Ok (blk, g') ->
  ln_weight (norm2 blk) = mk [Z.to_nat e] (fun _ => 1) /\
  ln_bias (norm2 blk) = mk [Z.to_nat e] (fun _ => 0).
Proof.
  unfold TransformerBlock_init, ibind, iret. intros E.
  destruct (MultiHeadSelfAttention_init e nh g) as [[a g1]|]; [|discriminate].
  destruct (nn_LayerNorm e g1) as [[n1 g2]|]; [|discriminate].
  destruct (FeedForwardNetwork_init e f g2) as [[ff g3]|]; [|discriminate].
  destruct (nn_LayerNorm e g3) as [[n2 g4]|] eqn:E2; [|discriminate].
  injection E as <- _. cbn [norm2].
  unfold nn_LayerNorm, ibind, lift, torch_full, iret in E2.
  destruct (nonneg_shape [e]); [|discriminate].
  injection E2 as <- _. split; reflexivity.
Qed.

(** X13: over the real numbers, every embedding vector that a block as
    the constructor leaves it returns has mean 0: its entries sum to 0,
    the second normalisation having scale 1 and shift 0. *)
Theorem fresh_block_output_sums_to_zero (G : Type) (RG : Rng R G)
    (e nh f : Z) (g : G) (B L : nat) (x : tensor R) :
  (0 <= e)%Z -> (0 < nh)%Z -> (e mod nh = 0)%Z -> (0 <= f)%Z ->
  shape x = [B; L; Z.to_nat e]%nat ->
  exists (blk : @TransformerBlock R) (g' : G) (y : tensor R),
    TransformerBlock_init e nh f g = Ok (blk, g') /\
    TransformerBlock_forward blk x = Ok y /\
    forall b s, (b < B)%nat -> (s < L)%nat ->
      sum_n (Z.to_nat e) (fun d => tget y [b; s; d]%nat) = 0.
Proof.
  intros He Hnh Hmod Hf Hx.
  destruct (TransformerBlock_init_ok g He (nh := nh) ltac:(lia) Hf)
    as (blk & g' & Eb & Hsh & H1 & H2 & H3).
  assert (Hwf : wf_Block (Z.to_nat e) (Z.to_nat f) blk).
  { split; [exact Hsh|]. unfold valid_heads. rewrite H1, H2, H3.
    repeat split; assumption. }
  destruct (TransformerBlock_init_norm2 _ _ _ _ _ _ _ _ Eb) as (Hg & Hb).
  destruct (TransformerBlock_forward_ref x Hwf Hx) as (y & Ey & Er & _).
  exists blk, g', y. split; [exact Eb|]. split; [exact Ey|].
  intros b s Hb' Hs.
  unfold ref_block in Er. rewrite Hx in Er.
  destruct (MultiHeadSelfAttention_forward (attention blk) x) as [a|];
    [|discriminate].
  cbn [bind] in Er.
  destruct (FeedForwardNetwork_forward (ffn blk) _) as [ff|]; [|discriminate].
  cbn [bind] in Er. injection Er as <-.
  unfold ref_add_norm at 1. rewrite Hg, Hb.
  match goal with
  | |- sum_n _ (fun d => tget (mk _ ?F) _) = _ =>
      transitivity (sum_n (Z.to_nat e) (fun d => F [b; s; d]%nat))
  end.
  - apply sum_n_ext. intros d Hd. rewrite tget_mk by ix_ok. reflexivity.
  - cbv beta iota. apply ref_normalize_sum_zero.
Qed.

Lemma fresh_block_output_sums_to_zero_witness :
  exists (blk : @TransformerBlock R) (g' : nat) (y : tensor R),
    TransformerBlock_init 2 1 2 0%nat = Ok (blk, g') /\
    TransformerBlock_forward blk ones_122 = Ok y /\
    forall b s, (b < 1)%nat -> (s < 2)%nat ->
      sum_n (Z.to_nat 2) (fun d => tget y [b; s; d]%nat) = 0.
Proof.
  apply (fresh_block_output_sums_to_zero nat counter_Rng 2 1 2 0%nat 1 2
           ones_122).
  - lia.
  - lia.
  - reflexivity.
  - lia.
  - reflexivity.
Defined.

(** ** The predicted class *)

Section Argmax.

Context {T : Type} {CT : Cmp T}.

Lemma argmax_n_lt (n : nat) (f : nat -> T) :
  (0 < n)%nat -> (argmax_n n f < n)%nat.
Proof.
  intros Hn. unfold argmax_n.
  assert (H : forall l best,
             (best < n)%nat -> (forall k, In k l -> (k < n)%nat) ->
             (fold_left (fun best k => if gtb (f k) (f best) then k else best)
                        l best < n)%nat).
  { induction l as [|k l IH]; intros best Hb Hl; simpl; [exact Hb|].
    apply IH.
    - destruct (gtb (f k) (f best)); [apply Hl; left; reflexivity|exact Hb].
    - intros j Hj. apply Hl. right. exact Hj. }
  apply H; [exact Hn|].
  intros k Hk. apply in_seq in Hk. lia.
Qed.

End Argmax.

(** Over the real numbers the index found is the first one at which the
    maximum is reached. *)
Lemma argmax_n_first_max (n : nat) (f : nat -> R) :
  (0 < n)%nat ->
  (forall k, (k < n)%nat -> f k <= f (argmax_n n f)) /\
  (forall k, (k < argmax_n n f)%nat -> f k < f (argmax_n n f)).
Proof.
  intros Hn. unfold argmax_n.
  set (step := fun best k => if gtb (f k) (f best) then k else best).
  assert (H : forall m,
             (fold_left step (seq 1 m) 0 <= m)%nat /\
             (forall k, (k <= m)%nat ->
                        f k <= f (fold_left step (seq 1 m) 0%nat)) /\
             (forall k, (k < fold_left step (seq 1 m) 0)%nat ->
                        f k < f (fold_left step (seq 1 m) 0%nat))).
  { induction m as [|m (IH1 & IH2 & IH3)].
    - simpl. split; [lia|]. split.
      + intros k Hk. replace k with 0%nat by lia. lra.
      + intros k Hk. lia.
    - rewrite seq_S, fold_left_app.
      set (a := fold_left step (seq 1 m) 0%nat) in *.
      cbn [fold_left Nat.add].
      assert (Hs : step a (S m)
                   = if Rlt_dec (f a) (f (S m)) then S m else a).
      { unfold step; simpl.
        destruct (Rlt_dec (f a) (f (S m))); reflexivity. }
      rewrite Hs. clear Hs.
      destruct (Rlt_dec (f a) (f (S m))) as [Hlt|Hge].
      + split; [lia|]. split.
        * intros k Hk. destruct (Nat.eq_dec k (S m)) as [->|Hne]; [lra|].
          specialize (IH2 k ltac:(lia)). lra.
        * intros k Hk. specialize (IH2 k ltac:(lia)). lra.
      + split; [lia|]. split.
        * intros k Hk. destruct (Nat.eq_dec k (S m)) as [->|Hne]; [lra|].
          apply IH2. lia.
        * exact IH3. }
  specialize (H (n - 1)%nat).
  destruct H as (H1 & H2 & H3). split.
  - intros k Hk. apply H2. lia.
  - exact H3.
Qed.

Local Close Scope R_scope.

Section Predict.

Context {T : Type} {AT : Arith T} {CT : Cmp T}.

Lemma torch_max_dim1 (B c : nat) (y : tensor T) :
  shape y = [B; c] -> 0 < c ->
  torch_max y 1
  = Ok (mk [B] (fun idx =>
                  tget y (firstn 1 idx
                          ++ argmax_n c (fun k =>
                               tget y (firstn 1 idx ++ k :: skipn 1 idx))
                          :: skipn 1 idx)),
        mk [B] (fun idx =>
                  Z.of_nat (argmax_n c (fun k =>
                              tget y (firstn 1 idx ++ k :: skipn 1 idx))))).
Proof.
  intros Hy Hc. unfold torch_max. rewrite Hy. cbn [length].
  change (norm_dim 2 1) with (@Ok nat 1). cbn [bind nth].
  destruct (Nat.eqb_spec c 0) as [->|_]; [lia|]. reflexivity.
Qed.

Lemma main_inputs_short (input_smiles : str) :
  length input_smiles <= 100 ->
  main_inputs input_smiles
  = Tensor [1; 100]
           (map ord input_smiles ++ repeat 0%Z (100 - length input_smiles)).
Proof.
  intros Hl. unfold main_inputs, main_max_len.
  rewrite py_list_mul_single.
  replace (Z.to_nat (100 - Z.of_nat (length input_smiles)))
    with (100 - length input_smiles) by lia.
  assert (E : length (map ord input_smiles
                      ++ repeat 0%Z (100 - length input_smiles)) = 100).
  { rewrite length_app, length_map, repeat_length.
    lia. }
  rewrite E. reflexivity.
Qed.

Lemma main_inputs_long (input_smiles : str) :
  100 < length input_smiles ->
  main_inputs input_smiles
  = Tensor [1; length input_smiles] (map ord input_smiles).
Proof.
  intros Hl. unfold main_inputs, main_max_len.
  rewrite py_list_mul_single.
  replace (Z.to_nat (100 - Z.of_nat (length input_smiles))) with 0 by lia.
  simpl repeat. rewrite app_nil_r, length_map. reflexivity.
Qed.

Lemma map_ord_in_range (v : nat) (s : str) :
  Forall (fun ch => (ord ch < Z.of_nat v)%Z) s ->
  Forall (fun t => (0 <= t < Z.of_nat v)%Z) (map ord s).
Proof.
  intros H. apply Forall_map. eapply Forall_impl; [|exact H].
  intros ch Hch. unfold ord in *. lia.
Qed.

Lemma main_inputs_in_range (v : nat) (input_smiles : str) :
  0 < v -> Forall (fun ch => (ord ch < Z.of_nat v)%Z) input_smiles ->
  tokens_in_range v (main_inputs input_smiles).
Proof.
  intros Hv Hs. unfold tokens_in_range, main_inputs. cbn [data].
  apply Forall_app. split; [apply map_ord_in_range, Hs|].
  rewrite py_list_mul_single. apply Forall_forall.
  intros t Ht. apply repeat_spec in Ht. subst t. lia.
Qed.

(** The prediction for an input that fits: the logits of the one row and
    the first index at which they are greatest. *)
Lemma main_predict_ok (v e f c : nat) (model : CustomTransformer)
    (input_smiles : str) :
  wf_CT v e f c model -> 0 < v -> 0 < c ->
  length input_smiles <= 100 ->
  Forall (fun ch => (ord ch < Z.of_nat v)%Z) input_smiles ->
  exists y : tensor T,
    CustomTransformer_forward model (main_inputs input_smiles) = Ok y /\
    shape y = [1; c] /\
    main_predict model input_smiles
    = Ok (Z.of_nat (argmax_n c (fun k => tget y [0; k]))).
Proof.
  intros Hwf Hv Hc Hl Hs.
  pose proof (main_inputs_in_range v input_smiles Hv Hs) as Hr.
  assert (Hx : shape (main_inputs input_smiles) = [1; 100])
    by (rewrite (main_inputs_short _ Hl); reflexivity).
  destruct (CustomTransformer_forward_ref Hwf Hx (le_n 100) Hr)
    as (h & y & _ & Hy & Ey & _).
  exists y. split; [exact Hy|].
  assert (Hsy : shape y = [1; c]) by (rewrite Ey; reflexivity).
  split; [exact Hsy|].
  unfold main_predict, torch_argmax. rewrite Hy. cbn [bind].
  rewrite (torch_max_dim1 1 c y Hsy Hc). reflexivity.
Qed.

(** X15: an input of more than 100 characters is not truncated: the
    padding is empty, the model receives all the characters and the
    prediction raises [RuntimeError]. *)
Theorem main_predict_input_too_long (v e f c : nat)
    (model : CustomTransformer) (input_smiles : str) :
  shaped_CT v e f c model -> 100 < length input_smiles ->
  Forall (fun ch => (ord ch < Z.of_nat v)%Z) input_smiles ->
  main_predict model input_smiles = Err RuntimeError.
Proof.
  intros Hsh Hl Hs. unfold main_predict.
  rewrite (CustomTransformer_forward_too_long v e f c 1
             (length input_smiles) model (main_inputs input_smiles) Hsh);
    try reflexivity.
  - rewrite (main_inputs_long _ Hl). reflexivity.
  - exact Hl.
  - unfold tokens_in_range. rewrite (main_inputs_long _ Hl). cbn [data].
    apply map_ord_in_range, Hs.
Qed.

(** X16: a character whose code point is not below [vocab_size] makes the
    prediction raise [IndexError], whatever the length of the input. *)
Theorem main_predict_unknown_character (v e : nat)
    (model : CustomTransformer) (input_smiles : str) (ch : char) :
  shape (emb_weight (embedding model)) = [v; e] ->
  In ch input_smiles -> (Z.of_nat v <= ord ch)%Z ->
  main_predict model input_smiles = Err IndexError.
Proof.
  intros Hsh Hin Hch. unfold main_predict.
  rewrite (CustomTransformer_forward_index_error v e model
             (main_inputs input_smiles) (ord ch) Hsh); [reflexivity| |lia].
  unfold main_inputs. cbn [data]. apply in_or_app. left.
  apply in_map, Hin.
Qed.

End Predict.

(** X17: for an input of at most 100 characters, all of them inside the
    vocabulary, the prediction at the end of [main] is a class index below
    [num_classes] whose logit is the greatest of the row, and the first
    such index when several logits are equal. *)
Theorem main_predict_is_first_best_class (v e f c : nat)
    (model : @CustomTransformer R) (input_smiles : str) :
  wf_CT v e f c model -> 0 < v -> 0 < c ->
  length input_smiles <= 100 ->
  Forall (fun ch => (ord ch < Z.of_nat v)%Z) input_smiles ->
  exists (y : tensor R) (k : nat),
    CustomTransformer_forward model (main_inputs input_smiles) = Ok y /\
    main_predict model input_smiles = Ok (Z.of_nat k) /\
    k < c /\
    (forall j, j < c -> (tget y [0%nat; j] <= tget y [0%nat; k])%R) /\
    (forall j, j < k -> (tget y [0%nat; j] < tget y [0%nat; k])%R).
Proof.
  intros Hwf Hv Hc Hl Hs.
  destruct (main_predict_ok v e f c model input_smiles Hwf Hv Hc Hl Hs)
    as (y & Hy & _ & Hp).
  exists y, (argmax_n c (fun k => tget y [0; k])).
  split; [exact Hy|]. split; [exact Hp|].
  split; [apply argmax_n_lt; exact Hc|].
  exact (argmax_n_first_max c (fun k => tget y [0; k]) Hc).
Qed.

Lemma main_predict_is_first_best_class_witness :
  exists (y : tensor R) (k : nat),
    CustomTransformer_forward pad_model
      (main_inputs (str_of_string "CCO"%string)) = Ok y /\
    main_predict pad_model (str_of_string "CCO"%string) = Ok (Z.of_nat k) /\
    k < 1 /\
    (forall j, j < 1 -> (tget y [0%nat; j] <= tget y [0%nat; k])%R) /\
    (forall j, j < k -> (tget y [0%nat; j] < tget y [0%nat; k])%R).
Proof.
  apply (main_predict_is_first_best_class 128 2 2 1 pad_model
           (str_of_string "CCO"%string)).
  - wf_example.
  - lia.
  - lia.
  - simpl. lia.
  - repeat constructor.
Defined.

Lemma main_predict_input_too_long_witness :
  main_predict pad_model long_smiles = Err RuntimeError.
Proof.
  apply (main_predict_input_too_long 128 2 2 1 pad_model long_smiles).
  - wf_example.
  - simpl. lia.
  - unfold long_smiles. apply Forall_forall. intros ch Hch.
    apply repeat_spec in Hch. subst ch. reflexivity.
Defined.

Lemma main_predict_unknown_character_witness :
  main_predict pad_model [67%N; 233%N] = Err IndexError.
Proof.
  apply (main_predict_unknown_character 128 2 pad_model [67%N; 233%N] 233%N).
  - reflexivity.
  - right. left. reflexivity.
  - unfold ord. lia.
Defined.

(** ** The accuracy loop *)

Lemma filter_length_le (A : Type) (p : A -> bool) (l : list A) :
  length (filter p l) <= length l.
Proof.
  induction l as [|a l IH]; simpl; [lia|].
  destruct (p a); simpl; lia.
Qed.

Lemma torch_eq_sum_range (n : nat) (a b : tensor Z) :
  shape a = [n] -> shape b = [n] ->
  exists k : Z, torch_eq_sum a b = Ok k /\ (0 <= k <= Z.of_nat n)%Z.
Proof.
  intros Ha Hb. unfold torch_eq_sum.
  rewrite Ha, Hb, broadcast_shape_same.
  eexists. split; [reflexivity|].
  match goal with
  | |- context [filter ?p ?l] =>
      pose proof (filter_length_le _ p l) as Hle;
      replace (length l) with n in Hle
        by (rewrite tab_length; simpl; lia)
  end.
  lia.
Qed.

Lemma percentage_range (k n : Z) :
  (0 <= k <= n)%Z -> (0 < n)%Z ->
  (0 <= IZR (100 * k) / IZR n <= 100)%R.
Proof.
  intros Hk Hn.
  assert (Hpos : (0 < IZR n)%R) by (apply IZR_lt; lia).
  assert (H0 : (0 <= IZR (100 * k))%R) by (apply IZR_le; lia).
  assert (H1 : (IZR (100 * k) <= 100 * IZR n)%R).
  { rewrite <- mult_IZR. apply IZR_le. lia. }
  split.
  - apply Rmult_le_pos; [exact H0|]. apply Rlt_le, Rinv_0_lt_compat, Hpos.
  - apply (Rmult_le_reg_r (IZR n)); [exact Hpos|].
    unfold Rdiv. rewrite Rmult_assoc, Rinv_l by lra. lra.
Qed.

Section Accuracy.

Context {T : Type} {AT : Arith T} {CT : Cmp T} {B : Type}.

Variable model : B -> result (tensor T).

Lemma accuracy_loop_counts (c : nat) (loader : list (result (B * tensor Z)))
    (sizes : list nat) :
  0 < c -> Forall2 (batch_fits model c) loader sizes ->
  forall correct total : Z,
  exists k : Z,
    (0 <= k <= Z.of_nat (list_sum sizes))%Z /\
    accuracy_loop model loader correct total
    = Ok ((correct + k)%Z, (total + Z.of_nat (list_sum sizes))%Z).
Proof.
  intros Hc Hfit.
  induction Hfit as [|batch n loader sizes Hb _ IH]; intros correct total.
  - exists 0%Z. simpl. rewrite !Z.add_0_r. split; [lia|reflexivity].
  - destruct Hb as (x & labels & outputs & -> & Hl & Hm & Ho).
    cbn [accuracy_loop bind fst snd]. rewrite Hm. cbn [bind].
    rewrite (torch_max_dim1 n c outputs Ho Hc). cbn [bind snd].
    unfold shape_at. rewrite Hl. cbn [length].
    change (norm_dim 1 0) with (@Ok nat 0). cbn [bind nth].
    match goal with
    | |- context [torch_eq_sum ?a labels] =>
        destruct (torch_eq_sum_range n a labels eq_refl Hl) as (k & -> & Hk)
    end.
    cbn [bind].
    destruct (IH (correct + k)%Z (total + Z.of_nat n)%Z) as (k' & Hk' & ->).
    exists (k + k')%Z.
    assert (E : Z.of_nat (list_sum (n :: sizes))
                = (Z.of_nat n + Z.of_nat (list_sum sizes))%Z)
      by (simpl; lia).
    rewrite E. split; [lia|]. f_equal. f_equal; lia.
Qed.

(** X18: when every batch carries its labels on one axis and the model
    answers it with one row of logits per label, the accuracy that
    [evaluate_model] (and the validation loop of the first [main]) computes
    is a percentage: it lies between 0 and 100, provided at least one sample
    was scored. *)
Theorem evaluate_model_is_a_percentage (c : nat)
    (loader : list (result (B * tensor Z))) (sizes : list nat) :
  0 < c -> Forall2 (batch_fits model c) loader sizes ->
  0 < list_sum sizes ->
  exists acc : R,
    evaluate_model model loader = Ok acc /\ (0 <= acc <= 100)%R.
Proof.
  intros Hc Hfit Hn. unfold evaluate_model.
  destruct (accuracy_loop_counts c loader sizes Hc Hfit 0%Z 0%Z)
    as (k & Hk & ->).
  cbn [bind fst snd]. rewrite !Z.add_0_l. unfold py_truediv.
  destruct (Z.eqb_spec (Z.of_nat (list_sum sizes)) 0) as [E|_]; [lia|].
  eexists. split; [reflexivity|].
  apply percentage_range; lia.
Qed.

(** X19: when no sample is scored (no batch at all, or only batches without
    labels) the division [100 * correct / total] raises
    [ZeroDivisionError]. *)
Theorem evaluate_model_without_samples (c : nat)
    (loader : list (result (B * tensor Z))) (sizes : list nat) :
  0 < c -> Forall2 (batch_fits model c) loader sizes ->
  list_sum sizes = 0 ->
  evaluate_model model loader = Err ZeroDivisionError.
Proof.
  intros Hc Hfit Hn. unfold evaluate_model.
  destruct (accuracy_loop_counts c loader sizes Hc Hfit 0%Z 0%Z)
    as (k & Hk & ->).
  cbn [bind fst snd]. rewrite Hn. reflexivity.
Qed.

End Accuracy.

Lemma pad_model_scores_tokens_a :
  batch_fits (CustomTransformer_forward pad_model) 1
    (Ok (tokens_a, Tensor [1] [0%Z])) 1.
Proof.
  assert (Hwf : wf_CT 128 2 2 1 pad_model) by wf_example.
  assert (Hr : tokens_in_range 128 tokens_a)
    by (repeat constructor; cbv; congruence).
  assert (Hx : shape tokens_a = [1; 2]) by reflexivity.
  assert (HL : 2 <= 100) by lia.
  destruct (CustomTransformer_forward_ref Hwf Hx HL Hr)
    as (h & y & _ & Hy & -> & _).
  exists tokens_a, (Tensor [1] [0%Z]). eexists.
  split; [reflexivity|]. split; [reflexivity|].
  split; [exact Hy|reflexivity].
Qed.

Lemma evaluate_model_is_a_percentage_witness :
  exists acc : R,
    evaluate_model (CustomTransformer_forward pad_model)
      [Ok (tokens_a, Tensor [1] [0%Z])] = Ok acc /\
    (0 <= acc <= 100)%R.
Proof.
  apply (evaluate_model_is_a_percentage (CustomTransformer_forward pad_model)
           1 [Ok (tokens_a, Tensor [1] [0%Z])] [1]).
  - lia.
  - constructor; [exact pad_model_scores_tokens_a|constructor].
  - simpl. lia.
Defined.

Lemma evaluate_model_without_samples_witness :
  evaluate_model (CustomTransformer_forward pad_model) []
  = Err ZeroDivisionError.
Proof.
  apply (evaluate_model_without_samples (CustomTransformer_forward pad_model)
           1 [] []).
  - lia.
  - constructor.
  - reflexivity.
Defined.

(** ** The test loader of [main] *)

Lemma mapM_ok (A B : Type) (f : A -> result B) (g : A -> B) (l : list A) :
  (forall a, In a l -> f a = Ok (g a)) -> mapM f l = Ok (map g l).
Proof.
  induction l as [|a l IH]; intros H; simpl; [reflexivity|].
  rewrite (H a) by (left; reflexivity). cbn [bind].
  rewrite IH by (intros b Hb; apply H; right; exact Hb). reflexivity.
Qed.

Lemma py_getitem_nth (A : Type) (d : A) (l : list A) (i : nat) :
  i < length l -> py_getitem l (Z.of_nat i) = Ok (nth i l d).
Proof.
  intros Hi. unfold py_getitem.
  destruct (Z.ltb_spec (Z.of_nat i) 0); [lia|].
  destruct (Z.leb_spec 0 (Z.of_nat i)); [|lia].
  destruct (Z.ltb_spec (Z.of_nat i) (Z.of_nat (length l))); [|lia].
  cbn [andb]. rewrite Nat2Z.id, (nth_error_nth' l d Hi). reflexivity.
Qed.

Lemma torch_stack_ok (A : Type) (sh : list nat) (ts : list (tensor A)) :
  ts <> [] -> Forall (fun t => shape t = sh) ts ->
  torch_stack ts = Ok (Tensor (length ts :: sh) (concat (map (@data A) ts))).
Proof.
  intros Hne Hsh. destruct ts as [|t rest]; [congruence|].
  unfold torch_stack. inversion Hsh as [|? ? Ht Hrest]; subst.
  assert (E : forallb (fun u => if list_eq_dec Nat.eq_dec (shape u) (shape t)
                                then true else false) rest = true).
  { apply forallb_forall. intros u Hu.
    rewrite Forall_forall in Hrest. rewrite (Hrest u Hu).
    destruct (list_eq_dec Nat.eq_dec (shape t) (shape t)); congruence. }
  rewrite E. reflexivity.
Qed.

Lemma torch_stack_mismatch (A : Type) (ts : list (tensor A))
    (t u : tensor A) :
  In t ts -> In u ts -> shape t <> shape u ->
  torch_stack ts = Err RuntimeError.
Proof.
  intros Ht Hu Hne. destruct ts as [|t0 rest]; [destruct Ht|].
  unfold torch_stack.
  destruct (forallb _ rest) eqn:E; [|reflexivity].
  exfalso. rewrite forallb_forall in E.
  assert (H : forall w, In w (t0 :: rest) -> shape w = shape t0).
  { intros w [<-|Hw]; [reflexivity|].
    specialize (E w Hw).
    destruct (list_eq_dec Nat.eq_dec (shape w) (shape t0));
      [assumption|discriminate]. }
  apply Hne. rewrite (H t Ht), (H u Hu). reflexivity.
Qed.

(** The indices of the batches, one after the other, are [0 .. n-1]. *)
Lemma batch_indices_prefix (n bs m : nat) :
  concat (map (fun i => seq (i * bs) (Nat.min bs (n - i * bs))) (seq 0 m))
  = seq 0 (Nat.min n (m * bs)).
Proof.
  induction m as [|m IH].
  - simpl. rewrite Nat.min_0_r. reflexivity.
  - rewrite seq_S, map_app, concat_app, IH. cbn [map concat Nat.add].
    rewrite app_nil_r.
    assert (E : S m * bs = m * bs + bs) by (simpl; lia).
    rewrite E. generalize (m * bs). intros q.
    destruct (le_lt_dec n q) as [Hle|Hlt].
    + rewrite !(Nat.min_l n) by lia.
      replace (n - q) with 0 by lia. rewrite Nat.min_0_r. simpl.
      apply app_nil_r.
    + rewrite (Nat.min_r n q) by lia.
      replace (Nat.min n (q + bs)) with (q + Nat.min bs (n - q)) by lia.
      rewrite seq_app. reflexivity.
Qed.

Lemma batch_count_covers (n bs : nat) :
  0 < bs -> n <= (n + bs - 1) / bs * bs.
Proof.
  intros Hb.
  pose proof (Nat.mul_succ_div_gt (n + bs - 1) bs ltac:(lia)) as H.
  rewrite Nat.mul_succ_r, Nat.mul_comm in H. lia.
Qed.

Lemma batch_indices_concat (n bs : nat) :
  0 < bs -> concat (batch_indices n bs) = seq 0 n.
Proof.
  intros Hb. unfold batch_indices. rewrite batch_indices_prefix.
  rewrite Nat.min_l by (apply batch_count_covers, Hb). reflexivity.
Qed.

Lemma batch_indices_sizes (n bs : nat) :
  0 < bs -> list_sum (map (@length nat) (batch_indices n bs)) = n.
Proof.
  intros Hb.
  transitivity (length (concat (batch_indices n bs))).
  - generalize (batch_indices n bs). intros l.
    induction l as [|a l IH]; simpl; [reflexivity|].
    rewrite length_app, IH. reflexivity.
  - rewrite (batch_indices_concat n bs Hb). apply length_seq.
Qed.

Lemma batch_indices_batch (n bs : nat) (batch : list nat) :
  0 < bs -> In batch (batch_indices n bs) ->
  batch <> [] /\ forall i, In i batch -> i < n.
Proof.
  intros Hb Hin. unfold batch_indices in Hin.
  apply in_map_iff in Hin. destruct Hin as (i & <- & Hi).
  apply in_seq in Hi.
  pose proof (Nat.Div0.mul_div_le (n + bs - 1) bs) as Hm.
  rewrite Nat.mul_comm in Hm.
  assert (Hlt : i * bs < n).
  { assert (S i * bs <= (n + bs - 1) / bs * bs)
      by (apply Nat.mul_le_mono_r; lia).
    simpl in H. lia. }
  split.
  - intros E. apply (f_equal (@length nat)) in E.
    rewrite length_seq in E. simpl in E. lia.
  - intros j Hj. apply in_seq in Hj. lia.
Qed.

Lemma batch_indices_first (n bs : nat) :
  0 < bs -> 0 < n ->
  exists rest, batch_indices n bs = seq 0 (Nat.min bs n) :: rest.
Proof.
  intros Hb Hn. unfold batch_indices.
  pose proof (batch_count_covers n bs Hb) as Hc.
  destruct ((n + bs - 1) / bs) as [|m]; [simpl in Hc; lia|].
  cbn [seq map]. rewrite Nat.mul_0_l, Nat.sub_0_r. eexists. reflexivity.
Qed.

Lemma getitem_nth (self : SmilesDataset) (i : nat) :
  i < length (smiles self) -> i < length (labels self) ->
  SmilesDataset_getitem self (Z.of_nat i)
  = Ok (torch_tensor_list (smile_padded self (nth i (smiles self) [])),
        torch_tensor_scalar (nth i (labels self) 0%Z)).
Proof.
  intros Hs Hl. apply getitem_tokens; apply py_getitem_nth; assumption.
Qed.

Lemma fetch_samples (self : SmilesDataset) (indices : list nat) :
  (forall i, In i indices ->
     i < length (smiles self) /\ i < length (labels self)) ->
  fetch self indices
  = default_collate
      (map (fun i =>
              (torch_tensor_list (smile_padded self (nth i (smiles self) [])),
               torch_tensor_scalar (nth i (labels self) 0%Z))) indices).
Proof.
  intros H. unfold fetch.
  rewrite (mapM_ok _ _ _
             (fun i =>
                (torch_tensor_list
                   (smile_padded self (nth i (smiles self) [])),
                 torch_tensor_scalar (nth i (labels self) 0%Z)))).
  - reflexivity.
  - intros i Hi. destruct (H i Hi). apply getitem_nth; assumption.
Qed.

(** A batch of strings that fit: [b] rows of 100 token ids and [b]
    labels. *)
Lemma fetch_fitting (v : nat) (self : SmilesDataset) (indices : list nat) :
  max_len self = 100%Z -> 0 < v -> indices <> [] ->
  (forall i, In i indices ->
     i < length (smiles self) /\ i < length (labels self)) ->
  Forall (fun s => length s <= 100
                   /\ Forall (fun ch => (ord ch < Z.of_nat v)%Z) s)
         (smiles self) ->
  exists x y : tensor Z,
    fetch self indices = Ok (x, y) /\
    shape x = [length indices; 100] /\ shape y = [length indices] /\
    tokens_in_range v x.
Proof.
  intros Hm Hv Hne Hi Hs. rewrite (fetch_samples self indices Hi).
  unfold default_collate. rewrite !map_map. cbn [fst snd].
  assert (Hfit : forall i, In i indices ->
            length (nth i (smiles self) []) <= 100 /\
            Forall (fun ch => (ord ch < Z.of_nat v)%Z)
                   (nth i (smiles self) [])).
  { intros i Hin. rewrite Forall_forall in Hs. apply Hs, nth_In.
    apply (Hi i Hin). }
  rewrite (torch_stack_ok _ [100]).
  - cbn [bind]. rewrite (torch_stack_ok _ []).
    + cbn [bind]. eexists. eexists. split; [reflexivity|].
      rewrite !length_map. split; [reflexivity|]. split; [reflexivity|].
      unfold tokens_in_range. cbn [data]. rewrite map_map.
      apply Forall_concat, Forall_map, Forall_forall.
      intros i Hin. cbn [torch_tensor_list data].
      destruct (Hfit i Hin) as (_ & Hch).
      unfold smile_padded. apply Forall_app.
      split; [apply map_ord_in_range, Hch|].
      rewrite py_list_mul_single. apply Forall_forall.
      intros t Ht. apply repeat_spec in Ht. subst t. lia.
    + destruct indices; [congruence|discriminate].
    + apply Forall_map, Forall_forall. intros i _. reflexivity.
  - destruct indices; [congruence|discriminate].
  - apply Forall_map, Forall_forall. intros i Hin.
    cbn [torch_tensor_list shape]. f_equal.
    rewrite smile_padded_length by (rewrite Hm; destruct (Hfit i Hin); lia).
    rewrite Hm. reflexivity.
Qed.

Lemma Forall2_map_same (A B C : Type) (P : B -> C -> Prop)
    (f : A -> B) (g : A -> C) (l : list A) :
  (forall a, In a l -> P (f a) (g a)) -> Forall2 P (map f l) (map g l).
Proof.
  induction l as [|a l IH]; intros H; simpl; constructor.
  - apply H. left. reflexivity.
  - apply IH. intros b Hb. apply H. right. exact Hb.
Qed.

Section TestAccuracy.

Context {T : Type} {AT : Arith T} {CT : Cmp T}.

Lemma main_test_loader_fits (v e f c : nat) (model : CustomTransformer)
    (X_test : list str) (y_test : list Z) :
  wf_CT v e f c model -> 0 < v ->
  length X_test <= length y_test ->
  Forall (fun s => length s <= 100
                   /\ Forall (fun ch => (ord ch < Z.of_nat v)%Z) s) X_test ->
  exists loader sizes,
    main_test_loader X_test y_test = Ok loader /\
    Forall2 (batch_fits (CustomTransformer_forward model) c) loader sizes /\
    list_sum sizes = length X_test.
Proof.
  intros Hwf Hv Hlen Hs.
  set (ds := SmilesDataset_init X_test y_test (Some main_max_len)).
  exists (map (fetch ds) (batch_indices (length X_test) 16)),
         (map (@length nat) (batch_indices (length X_test) 16)).
  split; [reflexivity|].
  split; [|apply batch_indices_sizes; lia].
  apply Forall2_map_same. intros batch Hb.
  assert (H16 : 0 < 16) by lia.
  destruct (batch_indices_batch (length X_test) 16 batch H16 Hb)
    as (Hne & Hlt).
  destruct (fetch_fitting v ds batch eq_refl Hv Hne)
    as (x & y & Hf & Hx & Hy & Hr).
  - intros i Hi. specialize (Hlt i Hi). unfold ds.
    cbn [smiles labels SmilesDataset_init]. lia.
  - exact Hs.
  - assert (HL : 100 <= 100) by lia.
    destruct (CustomTransformer_forward_ref Hwf Hx HL Hr)
      as (h & out & _ & Hout & -> & _).
    exists x, y. eexists. split; [exact Hf|]. split; [exact Hy|].
    split; [exact Hout|reflexivity].
Qed.

(** X20: the validation accuracy of the first [main].  With a label for
    every test string, every string at most 100 characters long and inside
    the vocabulary, and at least one test string, the loop over the test
    loader (batches of 16, the last one shorter) scores every sample once
    and prints a percentage between 0 and 100. *)
Theorem main_test_accuracy_is_a_percentage (v e f c : nat)
    (model : CustomTransformer) (X_test : list str) (y_test : list Z) :
  wf_CT v e f c model -> 0 < v -> 0 < c ->
  X_test <> [] -> length X_test <= length y_test ->
  Forall (fun s => length s <= 100
                   /\ Forall (fun ch => (ord ch < Z.of_nat v)%Z) s) X_test ->
  exists correct : Z,
    (0 <= correct <= Z.of_nat (length X_test))%Z /\
    accuracy_loop (CustomTransformer_forward model)
      (map (fetch (SmilesDataset_init X_test y_test (Some main_max_len)))
           (batch_indices (length X_test) 16)) 0 0
    = Ok (correct, Z.of_nat (length X_test)) /\
    main_test_accuracy model X_test y_test
    = Ok (IZR (100 * correct) / IZR (Z.of_nat (length X_test)))%R /\
    (0 <= IZR (100 * correct) / IZR (Z.of_nat (length X_test)) <= 100)%R.
Proof.
  intros Hwf Hv Hc Hne Hlen Hs.
  destruct (main_test_loader_fits v e f c model X_test y_test Hwf Hv Hlen Hs)
    as (loader & sizes & Hl & Hfit & Hsum).
  assert (Hn : 0 < length X_test) by (destruct X_test; [congruence|simpl; lia]).
  destruct (accuracy_loop_counts (CustomTransformer_forward model) c loader
              sizes Hc Hfit 0%Z 0%Z) as (k & Hk & Hloop).
  rewrite Hsum, !Z.add_0_l in *.
  exists k. split; [exact Hk|].
  assert (El : loader
               = map (fetch (SmilesDataset_init X_test y_test
                               (Some main_max_len)))
                     (batch_indices (length X_test) 16)).
  { unfold main_test_loader, DataLoader in Hl. cbn [Nat.eqb] in Hl.
    injection Hl as <-. reflexivity. }
  split; [rewrite <- El; exact Hloop|].
  split.
  - unfold main_test_accuracy, evaluate_model. rewrite Hl. cbn [bind].
    rewrite Hloop. cbn [bind fst snd]. unfold py_truediv.
    destruct (Z.eqb_spec (Z.of_nat (length X_test)) 0); [lia|]. reflexivity.
  - apply percentage_range; lia.
Qed.

(** X21: with an empty test set the loop has nothing to score and the
    accuracy of the first epoch raises [ZeroDivisionError], whatever the
    model. *)
Theorem main_test_accuracy_empty_test_set (model : CustomTransformer)
    (y_test : list Z) :
  main_test_accuracy model [] y_test = Err ZeroDivisionError.
Proof. reflexivity. Qed.

(** X22: strings longer than [max_len] are not truncated, so they cannot
    be batched with shorter ones: when, among the first 16 test strings,
    one has at most 100 characters and another has more, the collation of
    the first batch raises [RuntimeError] before the model is called. *)
Theorem main_test_accuracy_mixed_lengths (model : CustomTransformer)
    (X_test : list str) (y_test : list Z) (i j : nat) :
  length X_test <= length y_test ->
  i < 16 -> i < length X_test -> j < 16 -> j < length X_test ->
  length (nth i X_test []) <= 100 -> 100 < length (nth j X_test []) ->
  main_test_accuracy model X_test y_test = Err RuntimeError.
Proof.
  intros Hlen Hi Hin Hj Hjn Hshort Hlong.
  set (ds := SmilesDataset_init X_test y_test (Some main_max_len)).
  assert (H16 : 0 < 16) by lia.
  assert (Hn : 0 < length X_test) by lia.
  destruct (batch_indices_first (length X_test) 16 H16 Hn) as (rest & Eb).
  assert (Hf : fetch ds (seq 0 (Nat.min 16 (length X_test)))
               = Err RuntimeError).
  { rewrite fetch_samples
      by (intros k Hk; apply in_seq in Hk; simpl; lia).
    unfold default_collate. rewrite map_map. cbn [fst].
    rewrite (torch_stack_mismatch _ _
               (torch_tensor_list (smile_padded ds (nth i (smiles ds) [])))
               (torch_tensor_list (smile_padded ds (nth j (smiles ds) [])))).
    - reflexivity.
    - apply in_map_iff. exists i. split; [reflexivity|]. apply in_seq. lia.
    - apply in_map_iff. exists j. split; [reflexivity|]. apply in_seq. lia.
    - cbn [torch_tensor_list shape smiles ds SmilesDataset_init].
      intros E. injection E as E.
      rewrite smile_padded_length in E by (simpl; unfold main_max_len; lia).
      unfold smile_padded in E.
      rewrite length_app, length_map in E. simpl in E.
      unfold main_max_len in E. lia. }
  change (main_test_accuracy model X_test y_test)
    with (evaluate_model (CustomTransformer_forward model)
            (map (fetch ds) (batch_indices (length X_test) 16))).
  rewrite Eb. cbn [map]. unfold evaluate_model.
  cbn [accuracy_loop]. rewrite Hf. reflexivity.
Qed.

End TestAccuracy.

Lemma main_test_accuracy_is_a_percentage_witness :
  exists correct : Z,
    (0 <= correct <= Z.of_nat (length [str_of_string "CCO"%string]))%Z /\
    accuracy_loop (CustomTransformer_forward pad_model)
      (map (fetch (SmilesDataset_init [str_of_string "CCO"%string] [0%Z]
                     (Some main_max_len)))
           (batch_indices (length [str_of_string "CCO"%string]) 16)) 0 0
    = Ok (correct, Z.of_nat (length [str_of_string "CCO"%string])) /\
    main_test_accuracy pad_model [str_of_string "CCO"%string] [0%Z]
    = Ok (IZR (100 * correct)
          / IZR (Z.of_nat (length [str_of_string "CCO"%string])))%R /\
    (0 <= IZR (100 * correct)
          / IZR (Z.of_nat (length [str_of_string "CCO"%string])) <= 100)%R.
Proof.
  apply (main_test_accuracy_is_a_percentage 128 2 2 1 pad_model
           [str_of_string "CCO"%string] [0%Z]).
  - wf_example.
  - lia.
  - lia.
  - discriminate.
  - simpl. lia.
  - repeat constructor.
Defined.

Lemma main_test_accuracy_mixed_lengths_witness :
  main_test_accuracy pad_model [str_of_string "CCO"%string; long_smiles]
                     [0%Z; 0%Z]
  = Err RuntimeError.
Proof.
  apply (main_test_accuracy_mixed_lengths pad_model
           [str_of_string "CCO"%string; long_smiles] [0%Z; 0%Z] 0 1).
  - simpl. lia.
  - lia.
  - simpl. lia.
  - lia.
  - simpl. lia.
  - simpl. lia.
  - simpl. lia.
Defined.

(** ** The feed-forward network, position by position *)

Section Positionwise.

Context {T : Type} {AT : Arith T}.

(** X23: the feed-forward network treats every position on its own: two
    positions, of the same batch or of two batches of any sizes, that hold
    the same embedding vector receive the same output vector. *)
Theorem feed_forward_acts_on_each_position (e f B L B' L' : nat)
    (self : FeedForwardNetwork) (x x' : tensor T) (b i b' i' : nat) :
  wf_FFN e f self ->
  shape x = [B; L; e] -> shape x' = [B'; L'; e] ->
  b < B -> i < L -> b' < B' -> i' < L' ->
  (forall d, d < e -> tget x [b; i; d] = tget x' [b'; i'; d]) ->
  exists y y' : tensor T,
    FeedForwardNetwork_forward self x = Ok y /\
    FeedForwardNetwork_forward self x' = Ok y' /\
    shape y = [B; L; e] /\ shape y' = [B'; L'; e] /\
    forall d, d < e -> tget y [b; i; d] = tget y' [b'; i'; d].
Proof.
  intros Hwf Hx Hx' Hb Hi Hb' Hi' Hrow.
  exists (ref_ffn B L e f self x), (ref_ffn B' L' e f self x').
  split; [exact (FeedForwardNetwork_forward_ref x Hwf Hx)|].
  split; [exact (FeedForwardNetwork_forward_ref x' Hwf Hx')|].
  split; [reflexivity|]. split; [reflexivity|].
  intros d Hd. unfold ref_ffn. rewrite !tget_mk by ix_ok.
  f_equal. apply sum_n_ext. intros j Hj. f_equal. f_equal. f_equal.
  apply sum_n_ext. intros k Hk. rewrite (Hrow k Hk). reflexivity.
Qed.

End Positionwise.

Lemma feed_forward_acts_on_each_position_witness :
  exists y y' : tensor R,
    FeedForwardNetwork_forward pad_ffn ones_122 = Ok y /\
    FeedForwardNetwork_forward pad_ffn ones_122 = Ok y' /\
    shape y = [1; 2; 2] /\ shape y' = [1; 2; 2] /\
    forall d, d < 2 -> tget y [0; 0; d] = tget y' [0; 1; d].
Proof.
  apply (feed_forward_acts_on_each_position 2 2 1 2 1 2 pad_ffn
           ones_122 ones_122 0 0 0 1).
  - wf_example.
  - reflexivity.
  - reflexivity.
  - lia.
  - lia.
  - lia.
  - lia.
  - intros d Hd.
    destruct d as [|[|d]]; [reflexivity|reflexivity|lia].
Defined.
